(** * Attendance and shift classification engine

    A shallow embedding of the attendance core of the office-management
    backend: the night-shift date resolver, the check-in / check-out
    classifiers of the day-shift and night-shift route modules, the break
    ledger, the [pre('save')] working-hours hook of the three variants of
    the Attendance model, and the part of Mongoose (schema validation,
    unique index) these routes rely on.

    Modelling conventions.
    - A JavaScript [Date] is its time value: milliseconds since the epoch,
      an integer ([Z]).
    - Local time is UTC plus a fixed offset [tz] (milliseconds); zones with
      daylight-saving transitions are outside the model.
    - A JavaScript [Number] holding hours is an exact rational ([Q]);
      rounding of IEEE doubles is outside the model.
    - One request reads the clock at one instant [now]: the handlers call
      [new Date()] several times, and those readings are identified. *)

From Stdlib Require Import ZArith QArith Qminmax Qround Lia Lqa.
From stdpp Require Import gmap strings list.

Open Scope Z_scope.

(** ** Dates *)

Definition msPerMinute : Z := 1000 * 60.
Definition msPerHour : Z := 1000 * 60 * 60.
Definition msPerDay : Z := 24 * msPerHour.

(** *** Civil calendar

    Day numbers count from 1970-01-01 (day 0) in the proleptic Gregorian
    calendar, as in ECMAScript. [daysFromCivil y m d] is the day number of
    the date (it accepts a day of month outside the month and runs into
    the neighbouring months, as ECMAScript's MakeDay does);
    [civilFromDays] is its inverse. *)

Definition daysFromCivil (y m d : Z) : Z :=
  let y := if m <=? 2 then y - 1 else y in
  let era := y / 400 in
  let yoe := y - era * 400 in
  let mp := if 2 <? m then m - 3 else m + 9 in
  let doy := (153 * mp + 2) / 5 + d - 1 in
  let doe := yoe * 365 + yoe / 4 - yoe / 100 + doy in
  era * 146097 + doe - 719468.

Definition civilFromDays (z : Z) : Z * Z * Z :=
  let z := z + 719468 in
  let era := z / 146097 in
  let doe := z - era * 146097 in
  let yoe := (doe - doe / 1460 + doe / 36524 - doe / 146096) / 365 in
  let y := yoe + era * 400 in
  let doy := doe - (365 * yoe + yoe / 4 - yoe / 100) in
  let mp := (5 * doy + 2) / 153 in
  let d := doy - (153 * mp + 2) / 5 + 1 in
  let m := if mp <? 10 then mp + 3 else mp - 9 in
  (if m <=? 2 then y + 1 else y, m, d).

(** The part of the conversion within one 400-year era, checked on a
    day-of-era [doe]: the year of era and month index are in range and the
    date converts back to [doe]. *)
Definition eraCheck (doe : Z) : bool :=
  let yoe := (doe - doe / 1460 + doe / 36524 - doe / 146096) / 365 in
  let doy := doe - (365 * yoe + yoe / 4 - yoe / 100) in
  let mp := (5 * doy + 2) / 153 in
  let d := doy - (153 * mp + 2) / 5 + 1 in
  (0 <=? yoe) && (yoe <=? 399) && (0 <=? mp) && (mp <=? 11)
  && (1 <=? d) && (d <=? 31)
  && (yoe * 365 + yoe / 4 - yoe / 100 + ((153 * mp + 2) / 5 + d - 1) =? doe).

(** [p] holds on the [n] integers from [z] on. *)
Fixpoint allFrom (n : nat) (z : Z) (p : Z -> bool) (acc : bool) : bool :=
  match n with
  | O => acc
  | S k => allFrom k (z + 1) p (p z && acc)
  end.

Section LocalTime.
(** Offset of local time from UTC, in milliseconds: one constant for all
    instants, so what is proved about elapsed time between an instant and
    a local clock reading holds for zones without daylight saving. *)
Variable tz : Z.

Definition localMs (t : Z) : Z := t + tz.

(** Number of the local calendar day that contains [t]. *)
Definition localDay (t : Z) : Z := localMs t / msPerDay.

(** [Date.prototype.getHours], [getMinutes]. *)
Definition getHours (t : Z) : Z := (localMs t / msPerHour) mod 24.
Definition getMinutes (t : Z) : Z := (localMs t / msPerMinute) mod 60.

(** Milliseconds elapsed since local midnight. *)
Definition timeWithinDay (t : Z) : Z := localMs t mod msPerDay.

(** The instant whose local day number is [day] and whose local clock
    shows [h:m:s.ms]. *)
Definition atLocal (day h m s ms : Z) : Z :=
  day * msPerDay + h * msPerHour + m * msPerMinute + s * 1000 + ms - tz.

(** [d.setHours(h, m, s, ms)]: same local day, clock fields replaced. *)
Definition setHours (t h m s ms : Z) : Z := atLocal (localDay t) h m s ms.

(** [d.getDate()]: day of the month in local time. *)
Definition getDate (t : Z) : Z := (civilFromDays (localDay t)).2.

(** [d.setDate(date)]: ECMAScript rebuilds the instant from the local
    year and month of [t], the day of month [date] (which may fall
    outside the month) and the unchanged time within the day. *)
Definition setDate (t date : Z) : Z :=
  let '(y, m, _) := civilFromDays (localDay t) in
  atLocal (daysFromCivil y m 1 + (date - 1)) 0 0 0 (timeWithinDay t).

(** Night-shift helper of the night-shift attendance routes:
<<
    function getShiftDate(now) {
      const d = new Date(now);
      if (d.getHours() < 18) { d.setDate(d.getDate() - 1); }
      d.setHours(0, 0, 0, 0);
      return d;
    }
>> *)
Definition getShiftDate (now : Z) : Z :=
  let d := now in
  let d := if getHours d <? 18 then setDate d (getDate d - 1) else d in
  setHours d 0 0 0 0.

(** Day-shift routes: [today = new Date(); today.setHours(0,0,0,0)]. *)
Definition getToday (now : Z) : Z := setHours now 0 0 0 0.
End LocalTime.

(** [new Date(y, m-1, d, h, mi)] in local time. *)
Definition localDate (tz y m d h mi : Z) : Z :=
  atLocal tz (daysFromCivil y m d) h mi 0 0.

(** The local calendar date (year, month, day) of an instant. *)
Definition calendarDate (tz t : Z) : Z * Z * Z := civilFromDays (localDay tz t).

(** ** Data model *)

(** [checkIn] and [checkOut] sub-objects. The routes never set [location],
    which is left out. A sub-object whose [time] is unset is [None];
    [Date] objects are always truthy, so [attendance.checkIn?.time] is
    the test [is_Some]. *)
Record Punch := mkPunch {
  time : Z;
  ipAddress : string
}.

(** One entry of [breaks]. [duration] is in minutes. *)
Record Break := mkBreak {
  startTime : Z;
  endTime : option Z;
  duration : option Z;
  reason : string
}.

(** A document of the Attendance collection. [employee] is an ObjectId. *)
Record Attendance := mkAttendance {
  employee : N;
  date : Z;
  checkIn : option Punch;
  checkOut : option Punch;
  status : string;
  workingHours : Q;
  overtime : Q;
  breaks : list Break
}.

Definition set_checkIn (a : Attendance) (p : Punch) : Attendance :=
  mkAttendance (employee a) (date a) (Some p) (checkOut a) (status a)
    (workingHours a) (overtime a) (breaks a).
Definition set_checkOut (a : Attendance) (p : Punch) : Attendance :=
  mkAttendance (employee a) (date a) (checkIn a) (Some p) (status a)
    (workingHours a) (overtime a) (breaks a).
Definition set_status (a : Attendance) (s : string) : Attendance :=
  mkAttendance (employee a) (date a) (checkIn a) (checkOut a) s
    (workingHours a) (overtime a) (breaks a).
Definition set_workingHours (a : Attendance) (h : Q) : Attendance :=
  mkAttendance (employee a) (date a) (checkIn a) (checkOut a) (status a)
    h (overtime a) (breaks a).
Definition set_overtime (a : Attendance) (h : Q) : Attendance :=
  mkAttendance (employee a) (date a) (checkIn a) (checkOut a) (status a)
    (workingHours a) h (breaks a).
Definition set_breaks (a : Attendance) (bs : list Break) : Attendance :=
  mkAttendance (employee a) (date a) (checkIn a) (checkOut a) (status a)
    (workingHours a) (overtime a) bs.

(** The collection. The unique compound index [{employee: 1, date: 1}]
    makes (employee, date) a key. *)
Abbreviation Store := (gmap (N * Z) Attendance).

Definition key (a : Attendance) : N * Z := (employee a, date a).

(** [b => !b.endTime]: the break is open. *)
Definition isOpen (b : Break) : Prop := endTime b = None.

#[global] Instance isOpen_dec b : Decision (isOpen b).
Proof. unfold isOpen. apply _. Defined.

(** Number of open breaks of a break list, and the ledger invariant. *)
Definition openBreaks (bs : list Break) : nat := length (filter isOpen bs).
Definition atMostOneOpen (a : Attendance) : Prop := (openBreaks (breaks a) <= 1)%nat.

(** ** The Attendance model: schema and [pre('save')] hook *)

Definition dayStatusEnum : list string :=
  ["present"; "absent"; "late"; "half-day"; "on-leave"; "holiday"; "weekend"]%string.

(** Status enum of the night-shift model with the 4:00 boundary. *)
Definition night0400StatusEnum : list string :=
  ["present"; "absent"; "late"; "early"; "overtime"; "clocked-out";
   "half-day"; "on-leave"; "holiday"; "weekend"]%string.

(** Status enum of the night-shift model with the 4:05 boundary. *)
Definition night0405StatusEnum : list string :=
  ["present"; "absent"; "late"; "early"; "overtime"; "clocked-out";
   "early-clockout"; "half-day"; "on-leave"; "holiday"; "weekend"]%string.

(** The statuses the night-shift vocabulary adds to the day-shift one. *)
Definition extendedStatuses : list string :=
  ["early"; "overtime"; "clocked-out"; "early-clockout"]%string.

Definition reasonEnum : list string :=
  ["washroom"; "lunch"; "cigarette"; "break"]%string.

Definition defaultStatus : string := "absent"%string.

(** [b.duration || 0]. *)
Definition orZero (d : option Z) : Z :=
  match d with
  | Some n => if n =? 0 then 0 else n
  | None => 0
  end.

(** [this.breaks.reduce((total, b) => total + (b.duration || 0), 0)]. *)
Definition totalBreakMinutes (bs : list Break) : Z :=
  fold_left (fun total b => total + orZero (duration b)) bs 0.

(** [diffMs / (1000 * 60 * 60)]. *)
Definition hoursOfMs (ms : Z) : Q := (inject_Z ms / inject_Z msPerHour)%Q.

Definition elapsedHours (ci co : Punch) : Q := hoursOfMs (time co - time ci).

Definition breakHours (bs : list Break) : Q :=
  match bs with
  | [] => 0%Q
  | _ => (inject_Z (totalBreakMinutes bs) / 60)%Q
  end.

(** [Math.max(0, diffHours - breakHours)]. *)
Definition computeWorkingHours (ci co : Punch) (bs : list Break) : Q :=
  Qmax 0 (elapsedHours ci co - breakHours bs).

(** Hook of the day-shift model (models/Attendance.js):
<<
      if (this.checkIn?.time && this.checkOut?.time) {
        ...
        this.workingHours = Math.max(0, diffHours - breakHours);
        if (this.workingHours > 8) { this.overtime = this.workingHours - 8; }
      }
>> *)
Definition preSave_day (tz : Z) (a : Attendance) : Attendance :=
  match checkIn a, checkOut a with
  | Some ci, Some co =>
      let a := set_workingHours a (computeWorkingHours ci co (breaks a)) in
      if Qlt_le_dec 8 (workingHours a)
      then set_overtime a (workingHours a - 8)%Q
      else a
  | _, _ => a
  end.

(** Overtime rule of the night-shift models, boundary at [4:bm] local:
<<
      const checkOutDate = new Date(this.checkOut.time);
      const overtimeThreshold = new Date(checkOutDate);
      overtimeThreshold.setHours(4, bm, 0, 0);
      if (checkOutDate > overtimeThreshold && checkOutDate.getHours() < 12) {
        this.overtime = (checkOutDate - overtimeThreshold) / (1000 * 60 * 60);
      } else { this.overtime = 0; }
>> *)
Definition overtimeAfter (tz bm : Z) (co : Punch) : Q :=
  let checkOutDate := time co in
  let overtimeThreshold := setHours tz checkOutDate 4 bm 0 0 in
  if (overtimeThreshold <? checkOutDate) && (getHours tz checkOutDate <? 12)
  then hoursOfMs (checkOutDate - overtimeThreshold)
  else 0%Q.

Definition preSave_night (bm : Z) (tz : Z) (a : Attendance) : Attendance :=
  match checkIn a, checkOut a with
  | Some ci, Some co =>
      let a := set_workingHours a (computeWorkingHours ci co (breaks a)) in
      set_overtime a (overtimeAfter tz bm co)
  | _, _ => a
  end.

(** Hook of the variant with the 4:00 boundary ([fourAM]). *)
Definition preSave_night0400 : Z -> Attendance -> Attendance := preSave_night 0.
(** Hook of the variant with the 4:05 boundary. *)
Definition preSave_night0405 : Z -> Attendance -> Attendance := preSave_night 5.

(** The three variants of the Attendance model: the day-shift model
    (models/Attendance.js) and the two night-shift variants, with the
    overtime boundary at 4:00 and at 4:05. A variant fixes the status enum
    and the save hook. *)
Inductive Model := DayModel | Night0400Model | Night0405Model.

Definition statusEnum (M : Model) : list string :=
  match M with
  | DayModel => dayStatusEnum
  | Night0400Model => night0400StatusEnum
  | Night0405Model => night0405StatusEnum
  end.

Definition preSave (M : Model) : Z -> Attendance -> Attendance :=
  match M with
  | DayModel => preSave_day
  | Night0400Model => preSave_night0400
  | Night0405Model => preSave_night0405
  end.

Inductive StorageError :=
| ValidationError (path : string)
| DuplicateKey.

Definition inEnum (s : string) (enum : list string) : bool :=
  bool_decide (s ∈ enum).

(** Schema validation run by [save] and [create]: enum validators of
    [status] and of every break's [reason]. [employee], [date] and
    [startTime] are always present in the documents the routes build. *)
Definition validate (M : Model) (a : Attendance) : option StorageError :=
  if negb (inEnum (status a) (statusEnum M)) then
    Some (ValidationError "status")
  else if negb (forallb (fun b => inEnum (reason b) reasonEnum) (breaks a)) then
    Some (ValidationError "breaks.reason")
  else None.

(** ** Requests and responses *)

(** The 400 responses, named as the specification names them.
    - [AlreadyCheckedIn]: "Already checked in today" / "... for this shift"
    - [OutsideWindow]: "Cannot clock in after 4:00 PM" /
      "Cannot clock in between 4:00 AM and 6:00 PM. ..."
    - [NotCheckedIn]: "You need to check in first"
    - [AlreadyCheckedOut]: "Already checked out today" / "... for this
      shift" / "Cannot start break after checkout"
    - [BreakAlreadyOpen]: "You already have an active break. ..."
    - [NoOpenBreak]: "No active break found" *)
Inductive Rejection :=
| AlreadyCheckedIn
| OutsideWindow
| NotCheckedIn
| AlreadyCheckedOut
| BreakAlreadyOpen
| NoOpenBreak.

(** Outcome of a request: [res.json({success: true, ...})] with the
    document, a 400 rejection, or the 500 of the [catch] block with its
    message and the caught error. *)
Inductive Response :=
| Success (attendance : Attendance)
| Rejected (why : Rejection)
| ServerError (message : string) (error : StorageError).

(** A handler first awaits [findOne] and decides; it then awaits the
    write. [Pending] is what it holds between the two awaits. *)
Inductive Pending :=
| Reply (r : Response)
| Save (doc : Attendance)
| Create (doc : Attendance).

Section Persistence.
Variable M : Model.
Variable tz : Z.

(** [doc.save()] of a loaded document: validation, hook, write. *)
Definition save (doc : Attendance) (store : Store)
  : (StorageError + Attendance) * Store :=
  match validate M doc with
  | Some e => (inl e, store)
  | None =>
      let doc := preSave M tz doc in
      (inr doc, <[key doc := doc]> store)
  end.

(** [Attendance.create(fields)]: validation, hook, insert; the insert
    fails with E11000 when the unique index already holds the key. *)
Definition create (doc : Attendance) (store : Store)
  : (StorageError + Attendance) * Store :=
  match validate M doc with
  | Some e => (inl e, store)
  | None =>
      let doc := preSave M tz doc in
      match store !! key doc with
      | Some _ => (inl DuplicateKey, store)
      | None => (inr doc, <[key doc := doc]> store)
      end
  end.

(** Second half of a handler; [failure] is the message of its [catch]. *)
Definition commit (failure : string) (p : Pending) (store : Store)
  : Response * Store :=
  match p with
  | Reply r => (r, store)
  | Save doc =>
      match save doc store with
      | (inl e, store) => (ServerError failure e, store)
      | (inr doc, store) => (Success doc, store)
      end
  | Create doc =>
      match create doc store with
      | (inl e, store) => (ServerError failure e, store)
      | (inr doc, store) => (Success doc, store)
      end
  end.
End Persistence.

(** A new document holding only the required fields: the schema
    defaults fill [status], [workingHours], [overtime] and [breaks]. *)
Definition newDocument (e : N) (d : Z) : Attendance :=
  mkAttendance e d None None defaultStatus 0 0 [].

(** The document built by
    [Attendance.create({ employee, date, checkIn: {...}, status })]. *)
Definition newAttendance (e : N) (d : Z) (ci : Punch) (st : string) : Attendance :=
  set_status (set_checkIn (newDocument e d) ci) st.

(** [attendance && attendance.checkIn?.time]. *)
Definition hasCheckIn (o : option Attendance) : bool :=
  match o with
  | Some a => bool_decide (is_Some (checkIn a))
  | None => false
  end.

(** ** Route handlers *)

(** [req.user.employee] and [req.ip]. *)
Record Caller := mkCaller {
  user_employee : N;
  ip : string
}.

Inductive Request :=
| CheckIn
| CheckOut
| BreakStart (reason : option string)
| BreakEnd.

(** The two attendance route modules. *)
Inductive Routes := DayShift | NightShift.

(** The write both check-in handlers end with:
<<
      if (attendance) {
        attendance.checkIn = { time: checkInTime, ipAddress: req.ip };
        attendance.status = status;
        await attendance.save();
      } else {
        attendance = await Attendance.create({ employee, date, checkIn, status });
      }
>> *)
Definition checkInWrite (attendance : option Attendance) (e : N) (d : Z)
    (p : Punch) (st : string) : Pending :=
  match attendance with
  | Some a => Save (set_status (set_checkIn a p) st)
  | None => Create (newAttendance e d p st)
  end.

Section Handlers.
Variable tz : Z.

(** *** Day-shift routes (routes/attendance.routes.js) *)

(** Status of a day-shift check-in:
<<
    if (checkInTime < earlyThreshold) status = 'early';        // 7:00
    else if (checkInTime <= presentThreshold) status = 'present'; // 7:05
    else status = 'late';
>> *)
Definition checkInStatus_day (checkInTime : Z) : string :=
  let earlyThreshold := setHours tz checkInTime 7 0 0 0 in
  let presentThreshold := setHours tz checkInTime 7 5 0 0 in
  if checkInTime <? earlyThreshold then "early"
  else if checkInTime <=? presentThreshold then "present"
  else "late".

Definition checkIn_day (c : Caller) (now : Z) (store : Store) : Pending :=
  let today := getToday tz now in
  let attendance := store !! (user_employee c, today) in
  if hasCheckIn attendance then Reply (Rejected AlreadyCheckedIn)
  else
    let checkInTime := now in
    let cutoffTime := setHours tz now 16 0 0 0 in
    if cutoffTime <=? checkInTime then Reply (Rejected OutsideWindow)
    else
      let status := checkInStatus_day checkInTime in
      checkInWrite attendance (user_employee c) today
        (mkPunch checkInTime (ip c)) status.

(** Status after a day-shift check-out:
<<
    if (checkOutTime > normalEndEnd) attendance.status = 'overtime';   // 16:05
    else if (checkOutTime >= normalEndStart && checkOutTime <= normalEndEnd)
      attendance.status = 'clocked-out';                               // 16:00
    // If before 4:00 PM, keep the existing status
>> *)
Definition checkOutStatus_day (checkOutTime : Z) (prior : string) : string :=
  let normalEndStart := setHours tz checkOutTime 16 0 0 0 in
  let normalEndEnd := setHours tz checkOutTime 16 5 0 0 in
  if normalEndEnd <? checkOutTime then "overtime"
  else if (normalEndStart <=? checkOutTime) && (checkOutTime <=? normalEndEnd)
  then "clocked-out"
  else prior.

(** Shared shape of the two check-out handlers, which differ in the
    date they look up and in the status rule. *)
Definition checkOut_with (resolve : Z -> Z) (rule : Z -> string -> string)
    (c : Caller) (now : Z) (store : Store) : Pending :=
  match store !! (user_employee c, resolve now) with
  | None => Reply (Rejected NotCheckedIn)
  | Some a =>
      if negb (bool_decide (is_Some (checkIn a))) then Reply (Rejected NotCheckedIn)
      else if bool_decide (is_Some (checkOut a)) then Reply (Rejected AlreadyCheckedOut)
      else
        let checkOutTime := now in
        let a := set_checkOut a (mkPunch checkOutTime (ip c)) in
        Save (set_status a (rule checkOutTime (status a)))
  end.

Definition checkOut_day : Caller -> Z -> Store -> Pending :=
  checkOut_with (getToday tz) checkOutStatus_day.

(** *** Night-shift routes *)

(** Status of a night-shift check-in:
<<
    if (currentHour >= 18 && currentHour < 19) status = 'early';
    else if (currentHour === 19 && currentMinute <= 5) status = 'present';
    else status = 'late';
>> *)
Definition checkInStatus_night (now : Z) : string :=
  let currentHour := getHours tz now in
  let currentMinute := getMinutes tz now in
  if (18 <=? currentHour) && (currentHour <? 19) then "early"
  else if (currentHour =? 19) && (currentMinute <=? 5) then "present"
  else "late".

(** [currentHour >= 4 && currentHour < 18]. *)
Definition inDeadZone (now : Z) : bool :=
  let currentHour := getHours tz now in
  (4 <=? currentHour) && (currentHour <? 18).

Definition checkIn_night (c : Caller) (now : Z) (store : Store) : Pending :=
  if inDeadZone now then Reply (Rejected OutsideWindow)
  else
    let shiftDate := getShiftDate tz now in
    let attendance := store !! (user_employee c, shiftDate) in
    if hasCheckIn attendance then Reply (Rejected AlreadyCheckedIn)
    else
      let checkInTime := now in
      let status := checkInStatus_night now in
      checkInWrite attendance (user_employee c) shiftDate
        (mkPunch checkInTime (ip c)) status.

(** Status after a night-shift check-out:
<<
    if (hour < 12) {
      if (checkOutTime < earlyClockoutLimit) status = 'early-clockout';  // 3:55
      else if (checkOutTime >= normalStart && checkOutTime <= normalEnd)
        status = 'clocked-out';                                         // 4:00-4:05
      else if (checkOutTime > normalEnd) status = 'overtime';
      else status = 'clocked-out';                                      // grace
    }
>> *)
Definition checkOutStatus_night (checkOutTime : Z) (prior : string) : string :=
  let hour := getHours tz checkOutTime in
  let earlyClockoutLimit := setHours tz checkOutTime 3 55 0 0 in
  let normalStart := setHours tz checkOutTime 4 0 0 0 in
  let normalEnd := setHours tz checkOutTime 4 5 0 0 in
  if hour <? 12 then
    if checkOutTime <? earlyClockoutLimit then "early-clockout"
    else if (normalStart <=? checkOutTime) && (checkOutTime <=? normalEnd)
    then "clocked-out"
    else if normalEnd <? checkOutTime then "overtime"
    else "clocked-out"
  else prior.

Definition checkOut_night : Caller -> Z -> Store -> Pending :=
  checkOut_with (getShiftDate tz) checkOutStatus_night.

(** *** Break routes

    The two modules carry the same break handlers up to the date they
    look up ([today] or [getShiftDate(now)]). *)

(** [reason || 'break']. *)
Definition reasonOrDefault (reason : option string) : string :=
  match reason with
  | Some r => if String.eqb r "" then "break" else r
  | None => "break"
  end.

Definition startBreak (resolve : Z -> Z) (reason : option string)
    (c : Caller) (now : Z) (store : Store) : Pending :=
  match store !! (user_employee c, resolve now) with
  | None => Reply (Rejected NotCheckedIn)
  | Some a =>
      if negb (bool_decide (is_Some (checkIn a))) then Reply (Rejected NotCheckedIn)
      else if bool_decide (is_Some (checkOut a)) then Reply (Rejected AlreadyCheckedOut)
      else
        match list_find isOpen (breaks a) with
        | Some _ => Reply (Rejected BreakAlreadyOpen)
        | None =>
            let breakStartTime := now in
            Save (set_breaks a
                    (breaks a ++ [mkBreak breakStartTime None None
                                    (reasonOrDefault reason)]))
        end
  end.

(** [activeBreak.endTime = breakEndTime;
     activeBreak.duration = Math.floor(durationMs / (1000 * 60))]. *)
Definition closeBreak (breakEndTime : Z) (activeBreak : Break) : Break :=
  let durationMs := breakEndTime - startTime activeBreak in
  mkBreak (startTime activeBreak) (Some breakEndTime)
    (Some (durationMs / msPerMinute)) (reason activeBreak).

Definition endBreak (resolve : Z -> Z)
    (c : Caller) (now : Z) (store : Store) : Pending :=
  match store !! (user_employee c, resolve now) with
  | None => Reply (Rejected NotCheckedIn)
  | Some a =>
      if negb (bool_decide (is_Some (checkIn a))) then Reply (Rejected NotCheckedIn)
      else
        match list_find isOpen (breaks a) with
        | None => Reply (Rejected NoOpenBreak)
        | Some (activeBreakIndex, activeBreak) =>
            let breakEndTime := now in
            Save (set_breaks a
                    (<[activeBreakIndex := closeBreak breakEndTime activeBreak]>
                       (breaks a)))
        end
  end.

(** *** Dispatch *)

Definition resolveDate (R : Routes) : Z -> Z :=
  match R with
  | DayShift => getToday tz
  | NightShift => getShiftDate tz
  end.

(** First half of a request: everything up to the write. *)
Definition plan (R : Routes) (req : Request)
    (c : Caller) (now : Z) (store : Store) : Pending :=
  match req, R with
  | CheckIn, DayShift => checkIn_day c now store
  | CheckIn, NightShift => checkIn_night c now store
  | CheckOut, DayShift => checkOut_day c now store
  | CheckOut, NightShift => checkOut_night c now store
  | BreakStart reason, _ => startBreak (resolveDate R) reason c now store
  | BreakEnd, _ => endBreak (resolveDate R) c now store
  end.

(** Message of the [catch] block of each route. *)
Definition failureMessage (req : Request) : string :=
  match req with
  | CheckIn => "Error checking in"
  | CheckOut => "Error checking out"
  | BreakStart _ => "Error starting break"
  | BreakEnd => "Error ending break"
  end.

(** A request served without interruption. *)
Definition handle (R : Routes) (M : Model) (req : Request)
    (c : Caller) (now : Z) (store : Store) : Response * Store :=
  commit M tz (failureMessage req) (plan R req c now store) store.

(** Two requests whose first halves both run before either write:
    both read [store], then the first writes, then the second. *)
Definition interleaved (R : Routes) (M : Model)
    (req1 : Request) (c1 : Caller) (now1 : Z)
    (req2 : Request) (c2 : Caller) (now2 : Z)
    (store : Store) : Response * Response * Store :=
  let p1 := plan R req1 c1 now1 store in
  let p2 := plan R req2 c2 now2 store in
  let '(r1, store1) := commit M tz (failureMessage req1) p1 store in
  let '(r2, store2) := commit M tz (failureMessage req2) p2 store1 in
  (r1, r2, store2).

(** Stores the routes can produce from the empty collection, one
    request after the other. *)
Inductive reachable (R : Routes) (M : Model) : Store -> Prop :=
| reachable_empty : reachable R M ∅
| reachable_step store req c now :
    reachable R M store ->
    reachable R M (handle R M req c now store).2.
End Handlers.

(** ** Read-only views *)

(** *** GET /today *)

(** [x || 0] on a number. *)
Definition orZeroQ (x : Q) : Q := if Qeq_bool x 0 then 0%Q else x.

(** Break minutes of the live estimate:
<<
      attendance.breaks.reduce((total, b) => {
        if (b.endTime) { return total + (b.duration || 0); }
        else { return total + ((now - new Date(b.startTime)) / (1000 * 60)); }
      }, 0)
>> *)
Definition liveBreakMinutes (now : Z) (bs : list Break) : Q :=
  fold_left (fun total b =>
               match endTime b with
               | Some _ => (total + inject_Z (orZero (duration b)))%Q
               | None =>
                   (total + inject_Z (now - startTime b) / inject_Z msPerMinute)%Q
               end) bs 0%Q.

Definition liveBreakHours (now : Z) (bs : list Break) : Q :=
  match bs with
  | [] => 0%Q
  | _ => (liveBreakMinutes now bs / 60)%Q
  end.

(** [currentWorkingHours] before it is rounded:
<<
      let currentWorkingHours = attendance?.workingHours || 0;
      if (attendance?.checkIn?.time && !attendance?.checkOut?.time) {
        ...
        currentWorkingHours = Math.max(0, diffHours - breakHours);
      }
>> *)
Definition liveWorkingHours (now : Z) (attendance : option Attendance) : Q :=
  match attendance with
  | None => 0%Q
  | Some a =>
      match checkIn a, checkOut a with
      | Some ci, None =>
          Qmax 0 (hoursOfMs (now - time ci) - liveBreakHours now (breaks a))
      | _, _ => orZeroQ (workingHours a)
      end
  end.

(** [parseFloat(x.toFixed(2))]: the sign is set aside and the magnitude
    is rounded to the nearest multiple of 1/100, the larger one on a tie
    (magnitudes of 1e21 and more, which [toFixed] prints differently, are
    outside the model). The exact value is rounded, where the code rounds
    the double nearest to it: on a tie of the exact value the two can
    differ by 1/100. *)
Definition toFixed2 (x : Q) : Q :=
  if Qlt_le_dec x 0
  then (- (Qfloor (- x * 100 + (1 # 2)) # 100))%Q
  else (Qfloor (x * 100 + (1 # 2)) # 100)%Q.

(** The [data] of the response of GET /today. *)
Record TodayStatus := mkTodayStatus {
  t_attendance : option Attendance;
  isCheckedIn : bool;
  isCheckedOut : bool;
  isOnBreak : bool;
  activeBreak : option Break;
  currentWorkingHours : Q
}.

(** The two modules carry the same handler up to the date they look up. *)
Definition todayStatus (resolve : Z -> Z) (c : Caller) (now : Z) (store : Store)
    : TodayStatus :=
  let attendance := store !! (user_employee c, resolve now) in
  let activeBreak :=
    match attendance with
    | Some a => snd <$> list_find isOpen (breaks a)
    | None => None
    end in
  mkTodayStatus attendance
    (hasCheckIn attendance)
    (match attendance with
     | Some a => bool_decide (is_Some (checkOut a))
     | None => false
     end)
    (bool_decide (is_Some activeBreak))
    activeBreak
    (toFixed2 (liveWorkingHours now attendance)).

(** *** GET /my: the summary *)

(** [attendance.filter(a => a.status === s).length]. *)
Definition countStatus (s : string) (attendance : list Attendance) : nat :=
  length (filter (fun a => status a = s) attendance).

(** [attendance.reduce((sum, a) => sum + (f(a) || 0), 0)]. *)
Definition sumHours (f : Attendance -> Q) (attendance : list Attendance) : Q :=
  fold_left (fun sum a => (sum + orZeroQ (f a))%Q) attendance 0%Q.

(** [earlyClockout] only exists in the summary of the night-shift
    routes. *)
Record Summary := mkSummary {
  s_present : nat;
  s_absent : nat;
  s_late : nat;
  s_halfDay : nat;
  s_onLeave : nat;
  s_earlyClockout : option nat;
  s_totalWorkingHours : Q;
  s_totalOvertime : Q
}.

Definition summary (R : Routes) (attendance : list Attendance) : Summary :=
  mkSummary
    (countStatus "present" attendance)
    (countStatus "absent" attendance)
    (countStatus "late" attendance)
    (countStatus "half-day" attendance)
    (countStatus "on-leave" attendance)
    (match R with
     | DayShift => None
     | NightShift => Some (countStatus "early-clockout" attendance)
     end)
    (sumHours workingHours attendance)
    (sumHours overtime attendance).

(** The statuses the summary of each module counts. *)
Definition summaryStatuses (R : Routes) : list string :=
  app ["present"; "absent"; "late"; "half-day"; "on-leave"]%string
    match R with
    | DayShift => []
    | NightShift => ["early-clockout"%string]
    end.

(** *** GET /today-presence *)

(** The helper of the presence route:
<<
      const calculateTotalBreakTime = (breaks) => {
        if (!breaks || breaks.length === 0) return 0;
        return breaks.reduce((total, b) => {
          if (b.endTime && b.duration) { return total + b.duration; }
          return total;
        }, 0);
      };
>> *)
Definition calculateTotalBreakTime (bs : list Break) : Z :=
  match bs with
  | [] => 0
  | _ =>
      fold_left (fun total b =>
                   match endTime b, duration b with
                   | Some _, Some d => if d =? 0 then total else total + d
                   | _, _ => total
                   end) bs 0
  end.

(** Entry of the [active] and [onBreak] lists. *)
Record ActiveEntry := mkActiveEntry {
  ae_employee : N;
  ae_checkInTime : option Z;
  ae_isOnBreak : bool;
  ae_breakReason : option string;
  ae_breakStartTime : option Z;
  ae_totalBreakTime : Z
}.

(** Entry of the [inactive] list. *)
Record InactiveEntry := mkInactiveEntry {
  ie_employee : N;
  ie_isCheckedIn : bool;
  ie_isCheckedOut : bool;
  ie_totalBreakTime : Z
}.

Record Presence := mkPresence {
  presentToday : nat;
  active : list ActiveEntry;
  onBreak : list ActiveEntry;
  inactive : list InactiveEntry;
  totalActive : nat;
  totalOnBreak : nat;
  totalInactive : nat
}.

Section PresenceView.
(** Whether the referenced employee document exists: [populate] leaves
    [null] in [att.employee] otherwise. *)
Variable employeeExists : N -> bool.

(** [(att.employee?._id || att.employee)?.toString()]. *)
Definition empId (att : Attendance) : option N :=
  if employeeExists (employee att) then Some (employee att) else None.

(** [att.checkIn?.time && !att.checkOut?.time]. *)
Definition isWorking (att : Attendance) : bool :=
  bool_decide (is_Some (checkIn att)) && negb (bool_decide (is_Some (checkOut att))).

(** The set of employees that are clocked in and not clocked out. *)
Definition activeEmployeeIds (todayAttendance : list Attendance) : gset N :=
  list_to_set (omap empId (List.filter isWorking todayAttendance)).

(** [attendanceMap]: a later record of the same employee replaces an
    earlier one. *)
Definition attendanceMap (todayAttendance : list Attendance) : gmap N Attendance :=
  fold_left (fun m att =>
               match empId att with
               | Some i => <[i := att]> m
               | None => m
               end) todayAttendance ∅.

Definition breaksOf (attendance : option Attendance) : list Break :=
  match attendance with Some a => breaks a | None => [] end.

Definition checkInTimeOf (attendance : option Attendance) : option Z :=
  match attendance with
  | Some a => time <$> checkIn a
  | None => None
  end.

(** The entry pushed for a working employee. *)
Definition activeEntry (m : gmap N Attendance) (emp : N) : ActiveEntry :=
  let attendance := m !! emp in
  let totalBreakTime := calculateTotalBreakTime (breaksOf attendance) in
  match list_find isOpen (breaksOf attendance) with
  | Some (_, activeBreak) =>
      mkActiveEntry emp (checkInTimeOf attendance) true
        (Some (if String.eqb (reason activeBreak) "" then "break"%string
               else reason activeBreak))
        (Some (startTime activeBreak)) totalBreakTime
  | None =>
      mkActiveEntry emp (checkInTimeOf attendance) false None None totalBreakTime
  end.

Definition inactiveEntry (m : gmap N Attendance) (emp : N) : InactiveEntry :=
  let attendance := m !! emp in
  mkInactiveEntry emp
    (hasCheckIn attendance)
    (match attendance with
     | Some a => bool_decide (is_Some (checkOut a))
     | None => false
     end)
    (calculateTotalBreakTime (breaksOf attendance)).

(** The [data] of the response, from the active employees (in the order
    of the query) and the attendance records of the date. *)
Definition todayPresence (activeEmployees : list N)
    (todayAttendance : list Attendance) : Presence :=
  let ids := activeEmployeeIds todayAttendance in
  let m := attendanceMap todayAttendance in
  let working :=
    activeEntry m <$> List.filter (fun emp => bool_decide (emp ∈ ids)) activeEmployees in
  let activeList := List.filter (fun e => negb (ae_isOnBreak e)) working in
  let onBreakList := List.filter ae_isOnBreak working in
  let inactiveList :=
    inactiveEntry m
      <$> List.filter (fun emp => negb (bool_decide (emp ∈ ids))) activeEmployees in
  mkPresence
    (length (List.filter (fun att => bool_decide (is_Some (checkIn att)))
               todayAttendance))
    activeList onBreakList inactiveList
    (length activeList) (length onBreakList) (length inactiveList).
End PresenceView.

(** *** GET /employees/with-status *)

(** The attendance status shown for an employee:
<<
      let realTimeStatus = 'inactive';
      if (attendance) {
        if (attendance.checkOut && attendance.checkOut.time) realTimeStatus = 'clocked-out';
        else if (attendance.checkIn && attendance.checkIn.time) {
          const lastBreak = attendance.breaks && attendance.breaks.length > 0
            ? attendance.breaks[attendance.breaks.length - 1] : null;
          if (lastBreak && !lastBreak.endTime) realTimeStatus = 'on-break';
          else realTimeStatus = 'clocked-in';
        }
      }
>> *)
Definition realTimeStatus (attendance : option Attendance) : string :=
  match attendance with
  | None => "inactive"
  | Some a =>
      if bool_decide (is_Some (checkOut a)) then "clocked-out"
      else if bool_decide (is_Some (checkIn a)) then
        match last (breaks a) with
        | Some lastBreak =>
            if bool_decide (isOpen lastBreak) then "on-break" else "clocked-in"
        | None => "clocked-in"
        end
      else "inactive"
  end.

(** The dates the route asks the collection for:
<<
      const today = new Date(); today.setHours(0, 0, 0, 0);
      const tomorrow = new Date(today); tomorrow.setDate(today.getDate() + 1);
      ... date: { $gte: today, $lt: tomorrow }
>> *)
Definition inStatusWindow (tz now d : Z) : bool :=
  let today := getToday tz now in
  let tomorrow := setDate tz today (getDate tz today + 1) in
  (today <=? d) && (d <? tomorrow).

(** ** Invariants of the routes *)

(** The check-in and check-out rules of a route module. *)
Definition checkInStatus (R : Routes) (tz : Z) : Z -> string :=
  match R with
  | DayShift => checkInStatus_day tz
  | NightShift => checkInStatus_night tz
  end.

Definition checkOutStatus (R : Routes) (tz : Z) : Z -> string -> string :=
  match R with
  | DayShift => checkOutStatus_day tz
  | NightShift => checkOutStatus_night tz
  end.

(** The instants at which a module accepts a check-in. *)
Definition checkInPermitted (R : Routes) (tz now : Z) : Prop :=
  match R with
  | DayShift => now < setHours tz now 16 0 0 0
  | NightShift => inDeadZone tz now = false
  end.

(** The status the rules give to a record with these times. *)
Definition statusOf (R : Routes) (tz : Z) (ci : Punch) (co : option Punch) : string :=
  match co with
  | None => checkInStatus R tz (time ci)
  | Some co => checkOutStatus R tz (time co) (checkInStatus R tz (time ci))
  end.

(** Only the last break of the list can be open. *)
Definition openOnlyLast (bs : list Break) : Prop :=
  forall i b, bs !! i = Some b -> isOpen b -> S i = length bs.

(** What the routes of module [R] maintain for a document beyond the
    ledger invariant. *)
Record recordSound (R : Routes) (tz : Z) (a : Attendance) : Prop := {
  sound_checkIn :
    exists ci, checkIn a = Some ci
               /\ resolveDate tz R (time ci) = date a
               /\ checkInPermitted R tz (time ci)
               /\ status a = statusOf R tz ci (checkOut a);
  sound_checkOut :
    forall co, checkOut a = Some co -> resolveDate tz R (time co) = date a;
  sound_breaks :
    Forall (fun b => resolveDate tz R (startTime b) = date a
                     /\ forall e, endTime b = Some e ->
                                  resolveDate tz R e = date a) (breaks a);
  sound_last : openOnlyLast (breaks a);
  sound_hours : (0 <= workingHours a)%Q /\ (0 <= overtime a)%Q
}.

Definition routeInvariant (R : Routes) (tz : Z) (store : Store) : Prop :=
  map_Forall (fun k a => key a = k /\ recordSound R tz a) store.

(** Every stored document sits under its own key and passes the schema
    validation of the model. *)
Definition wellFormed (M : Model) (store : Store) : Prop :=
  map_Forall (fun k a => key a = k /\ validate M a = None) store.

(** What the routes maintain for a document: it has a check-in, at most
    one open break, and no stored duration on an open break. *)
Definition ledgerSound (a : Attendance) : Prop :=
  is_Some (checkIn a)
  /\ atMostOneOpen a
  /\ Forall (fun b => isOpen b -> duration b = None) (breaks a).

Definition ledgerInvariant (M : Model) (store : Store) : Prop :=
  map_Forall (fun k a => key a = k /\ validate M a = None /\ ledgerSound a) store.

(** Milliseconds from local midnight to the clock time [h:m]. *)
Definition clock (h m : Z) : Z := h * msPerHour + m * msPerMinute.

(** [x], printed with four decimals, reads [n / 10000]. *)
Definition fourDecimals (x : Q) (n : Z) : Prop :=
  ((n # 10000) - (1 # 20000) <= x < (n # 10000) + (1 # 20000))%Q.

(** ** Concrete scenario data *)

(** A zone five hours ahead of UTC, and a caller. *)
Definition tzPlus5 : Z := 5 * msPerHour.
Definition caller1 : Caller := mkCaller 1 "10.0.0.7".

(** ** Clock facts *)

(** Membership of a literal in a literal enum, by evaluation. *)
Ltac enum_member := apply (bool_decide_unpack _); vm_compute; exact I.
Ltac enum_absent :=
  let H := fresh in
  intros H; apply (bool_decide_pack _) in H; vm_compute in H; exact H.

(** Goals about the clock unfold to linear arithmetic with division by the
    constants above. *)
Ltac clock_arith :=
  unfold localDate, clock, getToday, setHours, atLocal,
    getHours, getMinutes, timeWithinDay, localDay, localMs,
    msPerDay, msPerHour, msPerMinute in *;
  Z.to_euclidean_division_equations; lia.

Lemma allFrom_spec n z p acc :
  allFrom n z p acc = true ->
  acc = true /\ forall i, z <= i < z + Z.of_nat n -> p i = true.
Proof.
  revert z acc. induction n as [|k IH]; intros z acc H; cbn [allFrom] in H.
  - split; [done|]. lia.
  - apply IH in H as [Hacc Hk]. apply andb_true_iff in Hacc as [Hp Hacc].
    split; [done|]. intros i Hi.
    destruct (decide (i = z)) as [->|]; [done|]. apply Hk. lia.
Qed.

(** The era check holds on every day of the 400-year era, by evaluation. *)
Lemma eraCheck_all : allFrom (Z.to_nat 146097) 0 eraCheck true = true.
Proof. vm_compute. reflexivity. Qed.

Lemma eraCheck_ok doe : 0 <= doe < 146097 -> eraCheck doe = true.
Proof.
  intros H. apply (proj2 (allFrom_spec _ _ _ _ eraCheck_all)).
  rewrite Z2Nat.id; lia.
Qed.

Lemma daysFromCivil_linear y m d k :
  daysFromCivil y m (d + k) = daysFromCivil y m d + k.
Proof. unfold daysFromCivil. lia. Qed.

(** Every day number is the day number of its civil date. *)
Lemma civil_roundtrip z :
  let '(y, m, d) := civilFromDays z in daysFromCivil y m d = z.
Proof.
  unfold civilFromDays.
  set (z' := z + 719468). set (era := z' / 146097).
  set (doe := z' - era * 146097).
  assert (Hdoe : 0 <= doe < 146097)
    by (subst doe era; Z.to_euclidean_division_equations; lia).
  pose proof (eraCheck_ok doe Hdoe) as Hc. unfold eraCheck in Hc.
  set (yoe := (doe - doe / 1460 + doe / 36524 - doe / 146096) / 365) in *.
  set (doy := doe - (365 * yoe + yoe / 4 - yoe / 100)) in *.
  set (mp := (5 * doy + 2) / 153) in *.
  set (d := doy - (153 * mp + 2) / 5 + 1) in *.
  repeat (apply andb_true_iff in Hc as [Hc ?]).
  repeat match goal with H : (_ <=? _) = true |- _ => apply Z.leb_le in H end.
  apply Z.leb_le in Hc.
  match goal with
  | H : (_ =? _) = true |- _ => apply Z.eqb_eq in H; rename H into Heq
  end.
  unfold daysFromCivil.
  destruct (Z.ltb_spec mp 10) as [Hmp|Hmp].
  - replace (mp + 3 <=? 2) with false by (symmetry; apply Z.leb_gt; lia).
    replace (2 <? mp + 3) with true by (symmetry; apply Z.ltb_lt; lia).
    replace (mp + 3 - 3) with mp by lia.
    replace ((yoe + era * 400) / 400) with era
      by (Z.to_euclidean_division_equations; lia).
    replace (yoe + era * 400 - era * 400) with yoe by lia.
    rewrite Heq. subst doe z'. lia.
  - replace (mp - 9 <=? 2) with true by (symmetry; apply Z.leb_le; lia).
    replace (2 <? mp - 9) with false by (symmetry; apply Z.ltb_ge; lia).
    replace (mp - 9 + 9) with mp by lia.
    replace (yoe + era * 400 + 1 - 1) with (yoe + era * 400) by lia.
    replace ((yoe + era * 400) / 400) with era
      by (Z.to_euclidean_division_equations; lia).
    replace (yoe + era * 400 - era * 400) with yoe by lia.
    rewrite Heq. subst doe z'. lia.
Qed.

Section ClockFacts.
Variable tz : Z.

(** Moving the day of the month by [k] moves the instant by [k] days:
    [d.setDate(d.getDate() - 1)] is the same clock time one day earlier,
    also across the start of a month or year. *)
Lemma setDate_getDate t k :
  setDate tz t (getDate tz t + k) = t + k * msPerDay.
Proof.
  unfold setDate, getDate.
  pose proof (civil_roundtrip (localDay tz t)) as Hrt.
  destruct (civilFromDays (localDay tz t)) as [[y m] d]. cbn [snd].
  replace (daysFromCivil y m 1 + (d + k - 1)) with (localDay tz t + k).
  - clock_arith.
  - rewrite <- Hrt. rewrite <- (daysFromCivil_linear y m 1 (d + k - 1)).
    rewrite <- (daysFromCivil_linear y m d k). f_equal. lia.
Qed.

Lemma getShiftDate_eq now :
  getShiftDate tz now
  = setHours tz (if getHours tz now <? 18 then now - msPerDay else now) 0 0 0 0.
Proof.
  unfold getShiftDate. destruct (getHours tz now <? 18); [|done].
  replace (getDate tz now - 1) with (getDate tz now + -1) by lia.
  rewrite setDate_getDate. done.
Qed.

Lemma localDay_atLocal day h m s ms :
  0 <= h * msPerHour + m * msPerMinute + s * 1000 + ms < msPerDay ->
  localDay tz (atLocal tz day h m s ms) = day.
Proof. intros Hr. clock_arith. Qed.

Lemma timeWithinDay_atLocal day h m s ms :
  0 <= h * msPerHour + m * msPerMinute + s * 1000 + ms < msPerDay ->
  timeWithinDay tz (atLocal tz day h m s ms)
  = h * msPerHour + m * msPerMinute + s * 1000 + ms.
Proof. intros Hr. clock_arith. Qed.

(** An instant is its local day plus the time within that day. *)
Lemma local_decompose t :
  t = atLocal tz (localDay tz t) 0 0 0 (timeWithinDay tz t)
  /\ 0 <= timeWithinDay tz t < msPerDay.
Proof. clock_arith. Qed.

Lemma getHours_range t : 0 <= getHours tz t < 24.
Proof. clock_arith. Qed.

Lemma getMinutes_range t : 0 <= getMinutes tz t < 60.
Proof. clock_arith. Qed.

Lemma getHours_atLocal day h m :
  0 <= h < 24 -> 0 <= m < 60 ->
  getHours tz (atLocal tz day h m 0 0) = h.
Proof. intros Hh Hm. clock_arith. Qed.

Lemma getMinutes_atLocal day h m :
  0 <= h < 24 -> 0 <= m < 60 ->
  getMinutes tz (atLocal tz day h m 0 0) = m.
Proof. intros Hh Hm. clock_arith. Qed.

(** The shift date is a local midnight. *)
Lemma getShiftDate_midnight now :
  timeWithinDay tz (getShiftDate tz now) = 0.
Proof. rewrite getShiftDate_eq. destruct (_ <? 18); clock_arith. Qed.

Lemma localDay_getShiftDate now :
  localDay tz (getShiftDate tz now)
  = if getHours tz now <? 18 then localDay tz now - 1 else localDay tz now.
Proof. rewrite getShiftDate_eq. destruct (_ <? 18); clock_arith. Qed.
End ClockFacts.

(** ** Shift-date resolver *)

(** C1. The night-shift resolver [getShiftDate] is a function of [now]
    alone; it returns local midnight of the calendar day of [now] when the
    local hour is 18 or more and local midnight of the previous calendar
    day when the local hour is below 18. 2024-03-10T02:00 resolves to
    2024-03-09 and 2024-03-10T19:00 to 2024-03-10. *)
Theorem getShiftDate_resolves :
  forall tz now,
    getShiftDate tz now
    = atLocal tz (if 18 <=? getHours tz now then localDay tz now
                  else localDay tz now - 1) 0 0 0 0
    /\ getShiftDate tz (localDate tz 2024 3 10 2 0) = localDate tz 2024 3 9 0 0
    /\ calendarDate tz (getShiftDate tz (localDate tz 2024 3 10 2 0)) = (2024, 3, 9)
    /\ getShiftDate tz (localDate tz 2024 3 10 19 0) = localDate tz 2024 3 10 0 0
    /\ calendarDate tz (getShiftDate tz (localDate tz 2024 3 10 19 0)) = (2024, 3, 10).
Proof.
  intros tz now.
  assert (E2 : getShiftDate tz (localDate tz 2024 3 10 2 0) = localDate tz 2024 3 9 0 0).
  { unfold localDate.
    change (daysFromCivil 2024 3 10) with 19792.
    change (daysFromCivil 2024 3 9) with 19791.
    rewrite getShiftDate_eq.
    rewrite getHours_atLocal by lia.
    change (2 <? 18) with true. cbv iota. clock_arith. }
  assert (E19 : getShiftDate tz (localDate tz 2024 3 10 19 0) = localDate tz 2024 3 10 0 0).
  { unfold localDate.
    change (daysFromCivil 2024 3 10) with 19792.
    rewrite getShiftDate_eq.
    rewrite getHours_atLocal by lia.
    change (19 <? 18) with false. cbv iota. clock_arith. }
  split; [|split; [exact E2|split; [|split; [exact E19|]]]].
  - rewrite getShiftDate_eq.
    destruct (Z.ltb_spec (getHours tz now) 18) as [Hlt|Hge];
      destruct (Z.leb_spec 18 (getHours tz now)) as [Hle|Hgt]; try lia;
      clock_arith.
  - rewrite E2. unfold calendarDate, localDate.
    rewrite localDay_atLocal by (vm_compute; split; congruence).
    reflexivity.
  - rewrite E19. unfold calendarDate, localDate.
    rewrite localDay_atLocal by (vm_compute; split; congruence).
    reflexivity.
Qed.

(** ** Persistence facts *)

(** The save hooks only write [workingHours] and [overtime]. *)
Lemma preSave_frame M tz a :
  employee (preSave M tz a) = employee a
  /\ date (preSave M tz a) = date a
  /\ checkIn (preSave M tz a) = checkIn a
  /\ checkOut (preSave M tz a) = checkOut a
  /\ status (preSave M tz a) = status a
  /\ breaks (preSave M tz a) = breaks a.
Proof.
  destruct M; cbn [preSave];
    unfold preSave_night0400, preSave_night0405, preSave_night, preSave_day;
    destruct (checkIn a) eqn:Hi, (checkOut a) eqn:Ho; cbn -[Qlt_le_dec];
    try destruct (Qlt_le_dec _ _); cbn; rewrite ?Hi, ?Ho; done.
Qed.

Lemma preSave_key M tz a : key (preSave M tz a) = key a.
Proof.
  unfold key. destruct (preSave_frame M tz a) as (-> & -> & _). done.
Qed.

Lemma preSave_validate M M' tz a : validate M' (preSave M tz a) = validate M' a.
Proof.
  unfold validate.
  destruct (preSave_frame M tz a) as (_ & _ & _ & _ & -> & ->). done.
Qed.

(** Without a check-out the hooks leave the document as it is. *)
Lemma preSave_no_checkOut M tz a : checkOut a = None -> preSave M tz a = a.
Proof.
  intros H. destruct M; cbn [preSave];
    unfold preSave_night0400, preSave_night0405, preSave_night, preSave_day;
    rewrite H; destruct (checkIn a); done.
Qed.

Lemma reasons_forallb (bs : list Break) :
  forallb (fun b => inEnum (reason b) reasonEnum) bs = true
  <-> Forall (fun b => reason b ∈ reasonEnum) bs.
Proof.
  unfold inEnum. induction bs as [|b bs IH]; cbn.
  - split; [constructor | done].
  - rewrite andb_true_iff, IH, bool_decide_eq_true, Forall_cons. done.
Qed.

Lemma validate_None M a :
  validate M a = None <->
  status a ∈ statusEnum M /\ Forall (fun b => reason b ∈ reasonEnum) (breaks a).
Proof.
  unfold validate. rewrite <- reasons_forallb. unfold inEnum at 1.
  destruct (bool_decide_reflect (status a ∈ statusEnum M)) as [Hs|Hs]; cbn.
  - destruct (forallb _ _); cbn; split; try done; intros [_ ?]; done.
  - split; [done|]. intros [? _]. done.
Qed.

Lemma validate_status M a :
  status a ∉ statusEnum M -> validate M a = Some (ValidationError "status").
Proof.
  intros H. unfold validate, inEnum.
  rewrite bool_decide_eq_false_2 by done. done.
Qed.

Lemma save_valid M tz doc store :
  validate M doc = None ->
  save M tz doc store
  = (inr (preSave M tz doc), <[key doc := preSave M tz doc]> store).
Proof. intros H. unfold save. rewrite H, preSave_key. done. Qed.

Lemma save_invalid M tz doc store e :
  validate M doc = Some e -> save M tz doc store = (inl e, store).
Proof. intros H. unfold save. rewrite H. done. Qed.

Lemma create_fresh M tz doc store :
  validate M doc = None -> store !! key doc = None ->
  create M tz doc store
  = (inr (preSave M tz doc), <[key doc := preSave M tz doc]> store).
Proof. intros H Hk. unfold create. rewrite H, preSave_key, Hk. done. Qed.

Lemma create_duplicate M tz doc store :
  validate M doc = None -> is_Some (store !! key doc) ->
  create M tz doc store = (inl DuplicateKey, store).
Proof. intros H [a Hk]. unfold create. rewrite H, preSave_key, Hk. done. Qed.

Lemma create_invalid M tz doc store e :
  validate M doc = Some e -> create M tz doc store = (inl e, store).
Proof. intros H. unfold create. rewrite H. done. Qed.

(** A write either leaves the store alone or puts one validated document
    under its key. *)
Lemma commit_store M tz failure p store r store' :
  commit M tz failure p store = (r, store') ->
  store' = store
  \/ exists doc, (p = Save doc \/ p = Create doc)
       /\ validate M doc = None
       /\ r = Success (preSave M tz doc)
       /\ store' = <[key doc := preSave M tz doc]> store.
Proof.
  destruct p as [r0|doc|doc]; cbn [commit].
  - intros [= <- <-]. by left.
  - destruct (validate M doc) eqn:V.
    + rewrite (save_invalid _ _ _ _ _ V). intros [= <- <-]. by left.
    + rewrite (save_valid _ _ _ _ V). intros [= <- <-]. right. eauto 10.
  - destruct (validate M doc) eqn:V.
    + rewrite (create_invalid _ _ _ _ _ V). intros [= <- <-]. by left.
    + unfold create. rewrite V, preSave_key.
      destruct (store !! key doc).
      * intros [= <- <-]. by left.
      * intros [= <- <-]. right. eauto 10.
Qed.

(** ** Break ledger facts *)

Lemma openBreaks_cons b bs :
  openBreaks (b :: bs)
  = ((if decide (isOpen b) then 1 else 0) + openBreaks bs)%nat.
Proof.
  unfold openBreaks. rewrite filter_cons. destruct (decide (isOpen b)); done.
Qed.

Lemma openBreaks_app bs1 bs2 :
  openBreaks (bs1 ++ bs2) = (openBreaks bs1 + openBreaks bs2)%nat.
Proof. unfold openBreaks. rewrite filter_app, length_app. done. Qed.

(** [find] reports no open break exactly when none is counted. *)
Lemma list_find_isOpen_None bs :
  list_find isOpen bs = None <-> openBreaks bs = 0%nat.
Proof.
  induction bs as [|b bs IH]; [done|].
  rewrite openBreaks_cons. cbn [list_find].
  destruct (decide (isOpen b)); [done|].
  destruct (list_find isOpen bs) as [[i x]|]; cbn.
  - split; [done|]. intros H. apply IH in H. done.
  - rewrite <- IH. done.
Qed.

Lemma closeBreak_closed t b : ~ isOpen (closeBreak t b).
Proof. unfold isOpen, closeBreak. cbn. done. Qed.

(** Closing the break that [findIndex] returns removes one open break. *)
Lemma openBreaks_close bs i b t :
  list_find isOpen bs = Some (i, b) ->
  S (openBreaks (<[i := closeBreak t b]> bs)) = openBreaks bs.
Proof.
  revert i. induction bs as [|x bs IH]; intros i; [done|].
  cbn [list_find]. destruct (decide (isOpen x)) as [Hx|Hx].
  - intros [= <- <-]. cbn [insert list_insert].
    rewrite !openBreaks_cons.
    rewrite decide_False by apply closeBreak_closed.
    rewrite decide_True by done. done.
  - destruct (list_find isOpen bs) as [[j y]|] eqn:E; [|done].
    cbn. intros [= <- <-]. cbn [insert list_insert].
    rewrite !openBreaks_cons, !decide_False by done.
    cbn. apply (IH j). done.
Qed.

(** [duration] is only set when a break is closed, so the sum over all
    breaks is the sum over the closed ones. *)
Lemma totalBreakMinutes_closed_only bs :
  Forall (fun b => isOpen b -> duration b = None) bs ->
  totalBreakMinutes bs
  = totalBreakMinutes (filter (fun b => ~ isOpen b) bs).
Proof.
  unfold totalBreakMinutes. generalize 0.
  induction bs as [|b bs IH]; intros acc Hall; [done|].
  apply Forall_cons in Hall as [Hb Hall].
  rewrite filter_cons. cbn [fold_left].
  destruct (decide (~ isOpen b)) as [Hc|Hopen].
  - cbn [fold_left]. apply IH. done.
  - rewrite Hb by (destruct (decide (isOpen b)); tauto).
    cbn [orZero]. rewrite Z.add_0_r. apply IH. done.
Qed.

(** ** Invariants of the reachable stores *)

(** Each handler writes a sound document when the stored ones are. *)
Lemma checkInWrite_doc (o : option Attendance) e d p st doc :
  (forall a, o = Some a -> ledgerSound a) ->
  checkInWrite o e d p st = Save doc \/ checkInWrite o e d p st = Create doc ->
  ledgerSound doc.
Proof.
  intros Hrec. unfold checkInWrite. destruct o as [a|].
  - intros [[= <-]|]; [|done]. destruct (Hrec a eq_refl) as (_ & Hone & Hdur).
    split; [by eexists | done].
  - intros [|[= <-]]; [done|]. split; [by eexists|].
    split; [|constructor]. unfold atMostOneOpen. cbn. lia.
Qed.

Lemma checkOut_with_doc (resolve : Z -> Z) (rule : Z -> string -> string)
    (c : Caller) (now : Z) (store : Store) (doc : Attendance) :
  (forall k a, store !! k = Some a -> ledgerSound a) ->
  checkOut_with resolve rule c now store = Save doc
  \/ checkOut_with resolve rule c now store = Create doc ->
  ledgerSound doc.
Proof.
  intros Hrec. unfold checkOut_with.
  destruct (store !! _) as [a|] eqn:Hk; [|intros [|]; done].
  destruct (Hrec _ _ Hk) as (Hci & Hone & Hdur).
  repeat case_bool_decide; cbn; try (intros [|]; done).
  intros [[= <-]|]; [|done]. done.
Qed.

Lemma startBreak_doc (resolve : Z -> Z) (reason : option string)
    (c : Caller) (now : Z) (store : Store) (doc : Attendance) :
  (forall k a, store !! k = Some a -> ledgerSound a) ->
  startBreak resolve reason c now store = Save doc
  \/ startBreak resolve reason c now store = Create doc ->
  ledgerSound doc.
Proof.
  intros Hrec. unfold startBreak.
  destruct (store !! _) as [a|] eqn:Hk; [|intros [|]; done].
  destruct (Hrec _ _ Hk) as (Hci & Hone & Hdur).
  repeat case_bool_decide; cbn; try (intros [|]; done).
  destruct (list_find isOpen (breaks a)) as [[i b]|] eqn:Hf; [intros [|]; done|].
  intros [[= <-]|]; [|done]. split; [done|].
  unfold atMostOneOpen, set_breaks. cbn [breaks]. split.
  - rewrite openBreaks_app. apply list_find_isOpen_None in Hf.
    rewrite Hf, openBreaks_cons, decide_True by done.
    change (openBreaks []) with 0%nat. lia.
  - apply Forall_app. split; [done|]. by repeat constructor.
Qed.

Lemma endBreak_doc (resolve : Z -> Z)
    (c : Caller) (now : Z) (store : Store) (doc : Attendance) :
  (forall k a, store !! k = Some a -> ledgerSound a) ->
  endBreak resolve c now store = Save doc
  \/ endBreak resolve c now store = Create doc ->
  ledgerSound doc.
Proof.
  intros Hrec. unfold endBreak.
  destruct (store !! _) as [a|] eqn:Hk; [|intros [|]; done].
  destruct (Hrec _ _ Hk) as (Hci & Hone & Hdur).
  repeat case_bool_decide; cbn; try (intros [|]; done).
  destruct (list_find isOpen (breaks a)) as [[i b]|] eqn:Hf; [|intros [|]; done].
  intros [[= <-]|]; [|done]. split; [done|].
  unfold atMostOneOpen, set_breaks in *. cbn [breaks]. split.
  - pose proof (openBreaks_close _ _ _ now Hf). lia.
  - apply Forall_insert; [done|]. intros Hopen.
    by apply closeBreak_closed in Hopen.
Qed.

Lemma plan_doc tz R M req c now store doc :
  ledgerInvariant M store ->
  plan tz R req c now store = Save doc \/ plan tz R req c now store = Create doc ->
  ledgerSound doc.
Proof.
  intros Inv.
  assert (Hrec : forall k a, store !! k = Some a -> ledgerSound a).
  { intros k a Hk. apply (map_Forall_lookup_1 _ _ _ _ Inv) in Hk. tauto. }
  destruct req as [| |reason|], R; cbn [plan].
  - unfold checkIn_day. destruct (hasCheckIn _); [intros [|]; done|].
    destruct (_ <=? _); [intros [|]; done|].
    apply checkInWrite_doc. eauto.
  - unfold checkIn_night. destruct (inDeadZone _ _); [intros [|]; done|].
    destruct (hasCheckIn _); [intros [|]; done|].
    apply checkInWrite_doc. eauto.
  - by apply checkOut_with_doc.
  - by apply checkOut_with_doc.
  - by apply startBreak_doc.
  - by apply startBreak_doc.
  - by apply endBreak_doc.
  - by apply endBreak_doc.
Qed.

(** The hooks do not touch what [ledgerSound] speaks of. *)
Lemma preSave_ledgerSound M tz a : ledgerSound a -> ledgerSound (preSave M tz a).
Proof.
  unfold ledgerSound, atMostOneOpen.
  destruct (preSave_frame M tz a) as (_ & _ & -> & _ & _ & ->). done.
Qed.

(** One request keeps the invariant. *)
Lemma handle_invariant tz R M req c now store :
  ledgerInvariant M store ->
  ledgerInvariant M (handle tz R M req c now store).2.
Proof.
  intros Inv. unfold handle.
  destruct (commit _ _ _ _ _) as [r store'] eqn:E. cbn.
  destruct (commit_store _ _ _ _ _ _ _ E)
    as [->|(doc & Hp & Hv & _ & ->)]; [done|].
  apply map_Forall_insert_2; [|done].
  rewrite preSave_key, preSave_validate.
  split; [done|]. split; [done|].
  apply preSave_ledgerSound. by apply (plan_doc _ _ _ _ _ _ _ _ Inv Hp).
Qed.

Lemma reachable_invariant tz R M store :
  reachable tz R M store -> ledgerInvariant M store.
Proof.
  induction 1 as [|store req c now _ IH].
  - apply map_Forall_empty.
  - apply handle_invariant. exact IH.
Qed.

(** On a reachable store the break total of the hooks counts closed
    breaks only. *)
Lemma reachable_breaks_closed_only tz R M store k a :
  reachable tz R M store -> store !! k = Some a ->
  totalBreakMinutes (breaks a)
  = totalBreakMinutes (filter (fun b => ~ isOpen b) (breaks a)).
Proof.
  intros Hreach Hk. apply reachable_invariant in Hreach.
  apply (map_Forall_lookup_1 _ _ _ _ Hreach) in Hk as (_ & _ & _ & _ & Hdur).
  by apply totalBreakMinutes_closed_only.
Qed.

(** ** Break ledger *)

Lemma startBreak_rejections resolve reason c now store :
  match store !! (user_employee c, resolve now) with
  | None => startBreak resolve reason c now store = Reply (Rejected NotCheckedIn)
  | Some a =>
      (checkIn a = None ->
       startBreak resolve reason c now store = Reply (Rejected NotCheckedIn))
      /\ (is_Some (checkIn a) -> is_Some (checkOut a) ->
          startBreak resolve reason c now store = Reply (Rejected AlreadyCheckedOut))
      /\ (is_Some (checkIn a) -> checkOut a = None -> openBreaks (breaks a) <> 0%nat ->
          startBreak resolve reason c now store = Reply (Rejected BreakAlreadyOpen))
  end.
Proof.
  unfold startBreak. destruct (store !! _) as [a|]; [|done].
  split; [|split].
  - intros ->. rewrite bool_decide_eq_false_2; [done|]. by intros [? ?].
  - intros Hi Ho. rewrite !bool_decide_eq_true_2 by done. done.
  - intros Hi Ho Hn. rewrite bool_decide_eq_true_2 by done.
    rewrite bool_decide_eq_false_2 by (rewrite Ho; by intros [? ?]). cbn.
    destruct (list_find isOpen (breaks a)) as [[i b]|] eqn:Hf; [done|].
    apply list_find_isOpen_None in Hf. done.
Qed.

Lemma endBreak_rejections resolve c now store :
  match store !! (user_employee c, resolve now) with
  | None => endBreak resolve c now store = Reply (Rejected NotCheckedIn)
  | Some a =>
      (checkIn a = None ->
       endBreak resolve c now store = Reply (Rejected NotCheckedIn))
      /\ (is_Some (checkIn a) -> openBreaks (breaks a) = 0%nat ->
          endBreak resolve c now store = Reply (Rejected NoOpenBreak))
  end.
Proof.
  unfold endBreak. destruct (store !! _) as [a|]; [|done].
  split.
  - intros ->. rewrite bool_decide_eq_false_2; [done|]. by intros [? ?].
  - intros Hi Hn. rewrite bool_decide_eq_true_2 by done. cbn.
    apply list_find_isOpen_None in Hn. rewrite Hn. done.
Qed.

(** C8. In every store the routes can reach, each record has at most one
    open break, and every further request keeps it so. On such a store
    [BreakStart] is rejected with NotCheckedIn when the caller has no
    record for the resolved date (records exist only with a check-in),
    with AlreadyCheckedOut when a check-out is recorded, and otherwise
    with BreakAlreadyOpen when a break is open; [BreakEnd] is rejected
    with NoOpenBreak when the record has no open break. A [BreakStart] on
    a record with an open break is rejected in every case, and a rejected
    request leaves the store as it is. *)
Theorem break_ledger_invariant tz R M store :
  reachable tz R M store ->
  map_Forall (fun _ a => atMostOneOpen a) store
  /\ (forall req c now,
        map_Forall (fun _ a => atMostOneOpen a) (handle tz R M req c now store).2)
  /\ (forall c now reason,
        store !! (user_employee c, resolveDate tz R now) = None ->
        handle tz R M (BreakStart reason) c now store
        = (Rejected NotCheckedIn, store))
  /\ (forall c now a,
        store !! (user_employee c, resolveDate tz R now) = Some a ->
        is_Some (checkIn a)
        /\ (forall reason, is_Some (checkOut a) ->
              handle tz R M (BreakStart reason) c now store
              = (Rejected AlreadyCheckedOut, store))
        /\ (forall reason, checkOut a = None -> openBreaks (breaks a) = 1%nat ->
              handle tz R M (BreakStart reason) c now store
              = (Rejected BreakAlreadyOpen, store))
        /\ (forall reason, openBreaks (breaks a) = 1%nat ->
              exists why,
                handle tz R M (BreakStart reason) c now store
                = (Rejected why, store))
        /\ (openBreaks (breaks a) = 0%nat ->
              handle tz R M BreakEnd c now store
              = (Rejected NoOpenBreak, store))).
Proof.
  intros Hreach.
  assert (Hone : forall s, ledgerInvariant M s ->
                   map_Forall (fun _ a => atMostOneOpen a) s).
  { intros s Inv k a Hk. apply (map_Forall_lookup_1 _ _ _ _ Inv) in Hk.
    unfold ledgerSound in Hk. tauto. }
  pose proof (reachable_invariant _ _ _ _ Hreach) as Inv.
  split; [by apply Hone|]. split; [|split].
  - intros req c now. apply Hone, handle_invariant, Inv.
  - intros c now reason Hk. unfold handle. cbn [plan].
    pose proof (startBreak_rejections (resolveDate tz R) reason c now store) as H.
    rewrite Hk in H. rewrite H. done.
  - intros c now a Hk.
    assert (Hi : is_Some (checkIn a)).
    { apply (map_Forall_lookup_1 _ _ _ _ Inv) in Hk.
      unfold ledgerSound in Hk. tauto. }
    assert (Hstart : forall reason,
      (is_Some (checkOut a) ->
       handle tz R M (BreakStart reason) c now store
       = (Rejected AlreadyCheckedOut, store))
      /\ (checkOut a = None -> openBreaks (breaks a) = 1%nat ->
          handle tz R M (BreakStart reason) c now store
          = (Rejected BreakAlreadyOpen, store))).
    { intros reason. unfold handle. cbn [plan].
      pose proof (startBreak_rejections (resolveDate tz R) reason c now store) as H.
      rewrite Hk in H. destruct H as (_ & H1 & H2). split.
      - intros Ho. rewrite H1; done.
      - intros Ho Hn. rewrite H2; [done..|lia]. }
    split; [done|]. split; [|split; [|split]].
    + intros reason. apply Hstart.
    + intros reason. apply Hstart.
    + intros reason Hn. destruct (checkOut a) as [co|] eqn:Ho.
      * exists AlreadyCheckedOut. apply Hstart. by eexists.
      * exists BreakAlreadyOpen. by apply Hstart.
    + intros Hn. unfold handle. cbn [plan].
      pose proof (endBreak_rejections (resolveDate tz R) c now store) as H.
      rewrite Hk in H. destruct H as (_ & H). rewrite H; done.
Qed.

(** The ledger statement at a store reached by a night-shift check-in at
    19:00 followed by a break started at 23:00. *)
Lemma break_ledger_invariant_witness :
  let s1 := (handle tzPlus5 NightShift Night0405Model CheckIn caller1
               (localDate tzPlus5 2024 3 10 19 0) ∅).2 in
  let s2 := (handle tzPlus5 NightShift Night0405Model (BreakStart (Some "lunch"))
               caller1 (localDate tzPlus5 2024 3 10 23 0) s1).2 in
  reachable tzPlus5 NightShift Night0405Model s2
  /\ map_Forall (fun _ a => atMostOneOpen a) s2.
Proof.
  intros s1 s2.
  assert (H : reachable tzPlus5 NightShift Night0405Model s2).
  { apply reachable_step, reachable_step, reachable_empty. }
  split; [exact H|].
  exact (proj1 (break_ledger_invariant _ _ _ _ H)).
Defined.

(** ** Writes of the check-in and check-out handlers *)

Lemma wellFormed_lookup M store k a :
  wellFormed M store -> store !! k = Some a ->
  key a = k /\ status a ∈ statusEnum M
  /\ Forall (fun b => reason b ∈ reasonEnum) (breaks a).
Proof.
  intros Hwf Hk. apply (map_Forall_lookup_1 _ _ _ _ Hwf) in Hk.
  destruct Hk as [Hkey Hv]. apply validate_None in Hv. tauto.
Qed.

Lemma ledgerInvariant_wellFormed M store :
  ledgerInvariant M store -> wellFormed M store.
Proof. intros Inv k a Hk. apply (map_Forall_lookup_1 _ _ _ _ Inv) in Hk. tauto. Qed.

(** A check-in whose status the schema accepts is stored. *)
Lemma checkInWrite_accepted M tz failure e d p st store :
  wellFormed M store -> st ∈ statusEnum M ->
  exists a,
    commit M tz failure (checkInWrite (store !! (e, d)) e d p st) store
    = (Success a, <[(e, d) := a]> store)
    /\ status a = st /\ checkIn a = Some p.
Proof.
  intros Hwf Hst. unfold checkInWrite.
  destruct (store !! (e, d)) as [a0|] eqn:Hk; cbn [commit].
  - destruct (wellFormed_lookup _ _ _ _ Hwf Hk) as (Hkey & _ & Hr).
    set (doc := set_status (set_checkIn a0 p) st).
    assert (Hv : validate M doc = None) by (apply validate_None; done).
    rewrite (save_valid _ tz _ store Hv).
    exists (preSave M tz doc).
    destruct (preSave_frame M tz doc) as (_ & _ & -> & _ & -> & _).
    replace (key doc) with (e, d) by (rewrite <- Hkey; done). done.
  - set (doc := newAttendance e d p st).
    assert (Hv : validate M doc = None).
    { apply validate_None. split; [done|]. constructor. }
    rewrite (create_fresh _ tz _ store Hv) by done.
    exists (preSave M tz doc).
    destruct (preSave_frame M tz doc) as (_ & _ & -> & _ & -> & _). done.
Qed.

(** A check-in whose status the schema does not list fails validation:
    the [catch] block answers 500 and nothing is stored. *)
Lemma checkInWrite_refused M tz failure o e d p st store :
  st ∉ statusEnum M ->
  commit M tz failure (checkInWrite o e d p st) store
  = (ServerError failure (ValidationError "status"), store).
Proof.
  intros Hst. unfold checkInWrite. destruct o as [a0|]; cbn [commit].
  - rewrite (save_invalid _ _ _ _ (ValidationError "status")); [done|].
    apply validate_status. done.
  - rewrite (create_invalid _ _ _ _ (ValidationError "status")); [done|].
    apply validate_status. done.
Qed.

(** The write of a check-out on a stored, checked-in record. *)
Lemma checkOut_with_commit M tz failure resolve rule c now store a :
  wellFormed M store ->
  store !! (user_employee c, resolve now) = Some a ->
  is_Some (checkIn a) -> checkOut a = None ->
  (rule now (status a) ∈ statusEnum M ->
   exists a',
     commit M tz failure (checkOut_with resolve rule c now store) store
     = (Success a', <[(user_employee c, resolve now) := a']> store)
     /\ status a' = rule now (status a)
     /\ checkIn a' = checkIn a
     /\ checkOut a' = Some (mkPunch now (ip c))
     /\ breaks a' = breaks a)
  /\ (rule now (status a) ∉ statusEnum M ->
      commit M tz failure (checkOut_with resolve rule c now store) store
      = (ServerError failure (ValidationError "status"), store)).
Proof.
  intros Hwf Hk Hi Ho. unfold checkOut_with. rewrite Hk.
  rewrite bool_decide_eq_true_2 by done.
  rewrite bool_decide_eq_false_2 by (rewrite Ho; by intros [? ?]).
  cbn [negb commit].
  destruct (wellFormed_lookup _ _ _ _ Hwf Hk) as (Hkey & _ & Hr).
  set (doc := set_status _ _). split.
  - intros Hst.
    assert (Hv : validate M doc = None) by (apply validate_None; done).
    rewrite (save_valid _ tz _ store Hv).
    exists (preSave M tz doc).
    destruct (preSave_frame M tz doc) as (_ & _ & -> & -> & -> & ->).
    replace (key doc) with (user_employee c, resolve now) by (rewrite <- Hkey; done).
    done.
  - intros Hst.
    rewrite (save_invalid _ _ _ _ (ValidationError "status")); [done|].
    apply validate_status. done.
Qed.

(** ** Night-shift classification *)

Lemma checkInStatus_night_cases tz now :
  let h := getHours tz now in
  let m := getMinutes tz now in
  (h = 18 -> checkInStatus_night tz now = "early"%string)
  /\ (h = 19 -> m <= 5 -> checkInStatus_night tz now = "present"%string)
  /\ ((h = 19 /\ 5 < m) \/ 19 < h \/ h < 18 ->
      checkInStatus_night tz now = "late"%string).
Proof.
  cbv zeta. unfold checkInStatus_night.
  destruct (Z.leb_spec 18 (getHours tz now)), (Z.ltb_spec (getHours tz now) 19),
    (Z.eqb_spec (getHours tz now) 19), (Z.leb_spec (getMinutes tz now) 5);
    cbn; repeat split; intros; try done; lia.
Qed.

Lemma checkInStatus_night_listed tz now M :
  M <> DayModel -> checkInStatus_night tz now ∈ statusEnum M.
Proof.
  intros HM. unfold checkInStatus_night.
  destruct M; [done| |];
    destruct (_ && _); try destruct (_ && _); enum_member.
Qed.

(** C2. Night-shift check-in. With the local hour in [4, 18) the request
    is rejected with OutsideWindow before the store is consulted. Outside
    that window, when no check-in is recorded for the resolved shift date,
    the check-in is stored with status 'early' for hour 18, 'present' for
    hour 19 and minute at most 5, and 'late' otherwise (after 19:05, and
    after midnight before 4:00). *)
Theorem checkIn_night_windows tz M c now store :
  M <> DayModel -> wellFormed M store ->
  let h := getHours tz now in
  let m := getMinutes tz now in
  let k := (user_employee c, getShiftDate tz now) in
  (4 <= h < 18 ->
   handle tz NightShift M CheckIn c now store = (Rejected OutsideWindow, store))
  /\ (~ 4 <= h < 18 -> hasCheckIn (store !! k) = false ->
      exists a,
        handle tz NightShift M CheckIn c now store = (Success a, <[k := a]> store)
        /\ checkIn a = Some (mkPunch now (ip c))
        /\ (h = 18 -> status a = "early"%string)
        /\ (h = 19 -> m <= 5 -> status a = "present"%string)
        /\ ((h = 19 /\ 5 < m) \/ 19 < h \/ h < 4 -> status a = "late"%string)).
Proof.
  intros HM Hwf h m k. unfold handle. cbn [plan failureMessage].
  unfold checkIn_night, inDeadZone. fold h. split.
  - intros Hh.
    destruct (Z.leb_spec 4 h), (Z.ltb_spec h 18); try lia. done.
  - intros Hh Hnone.
    replace ((4 <=? h) && (h <? 18)) with false
      by (destruct (Z.leb_spec 4 h), (Z.ltb_spec h 18); cbn; lia).
    fold k. rewrite Hnone.
    destruct (checkInWrite_accepted M tz "Error checking in" (user_employee c)
                (getShiftDate tz now) (mkPunch now (ip c))
                (checkInStatus_night tz now) store Hwf
                (checkInStatus_night_listed tz now M HM))
      as (a & Hc & Hst & Hci).
    exists a. split; [exact Hc|]. split; [exact Hci|].
    rewrite Hst.
    destruct (checkInStatus_night_cases tz now) as (H1 & H2 & H3).
    split; [exact H1|]. split; [exact H2|].
    intros Hl. apply H3. fold h m. lia.
Qed.

(** A night-shift check-in at 19:03 on the empty collection. *)
Lemma checkIn_night_windows_witness :
  let now := localDate tzPlus5 2024 3 10 19 3 in
  Night0405Model <> DayModel /\ wellFormed Night0405Model ∅
  /\ exists a,
       handle tzPlus5 NightShift Night0405Model CheckIn caller1 now ∅
       = (Success a, <[(1%N, getShiftDate tzPlus5 now) := a]> ∅)
       /\ status a = "present"%string.
Proof.
  intros now.
  assert (H1 : Night0405Model <> DayModel) by discriminate.
  assert (H2 : wellFormed Night0405Model ∅) by apply map_Forall_empty.
  split; [exact H1|]. split; [exact H2|].
  destruct (proj2 (checkIn_night_windows tzPlus5 Night0405Model caller1 now ∅ H1 H2))
    as (a & Hh & _ & _ & Hp & _).
  - vm_compute. intros [_ H]. discriminate H.
  - reflexivity.
  - exists a. split; [exact Hh|]. apply Hp; vm_compute; [reflexivity|discriminate].
Defined.

Lemma checkOutStatus_night_cases tz now prior :
  let t := timeWithinDay tz now in
  (t < clock 3 55 -> checkOutStatus_night tz now prior = "early-clockout"%string)
  /\ (clock 3 55 <= t < clock 4 0 ->
      checkOutStatus_night tz now prior = "clocked-out"%string)
  /\ (clock 4 0 <= t <= clock 4 5 ->
      checkOutStatus_night tz now prior = "clocked-out"%string)
  /\ (clock 4 5 < t < clock 12 0 ->
      checkOutStatus_night tz now prior = "overtime"%string)
  /\ (clock 12 0 <= t -> checkOutStatus_night tz now prior = prior).
Proof.
  cbv zeta. unfold checkOutStatus_night.
  destruct (Z.ltb_spec (getHours tz now) 12),
    (Z.ltb_spec now (setHours tz now 3 55 0 0)),
    (Z.leb_spec (setHours tz now 4 0 0 0) now),
    (Z.leb_spec now (setHours tz now 4 5 0 0)),
    (Z.ltb_spec (setHours tz now 4 5 0 0) now);
    cbn [andb]; repeat split; intros; try reflexivity; exfalso; clock_arith.
Qed.

(** C3. Night-shift check-out of a record that has a check-in for the
    resolved shift date and no check-out yet (model with the 4:05
    boundary). The check-out time is stored. Before local noon the status
    becomes 'early-clockout' before 03:55, 'clocked-out' in [03:55, 04:00)
    and in [04:00, 04:05], and 'overtime' after 04:05; at or after local
    noon the stored status stays as it was. *)
Theorem checkOut_night_windows tz c now store a :
  wellFormed Night0405Model store ->
  store !! (user_employee c, getShiftDate tz now) = Some a ->
  is_Some (checkIn a) -> checkOut a = None ->
  let t := timeWithinDay tz now in
  exists a',
    handle tz NightShift Night0405Model CheckOut c now store
    = (Success a', <[(user_employee c, getShiftDate tz now) := a']> store)
    /\ checkOut a' = Some (mkPunch now (ip c))
    /\ (t < clock 3 55 -> status a' = "early-clockout"%string)
    /\ (clock 3 55 <= t < clock 4 0 -> status a' = "clocked-out"%string)
    /\ (clock 4 0 <= t <= clock 4 5 -> status a' = "clocked-out"%string)
    /\ (clock 4 5 < t < clock 12 0 -> status a' = "overtime"%string)
    /\ (clock 12 0 <= t -> status a' = status a).
Proof.
  intros Hwf Hk Hi Ho t.
  destruct (checkOut_with_commit Night0405Model tz "Error checking out"
              (getShiftDate tz) (checkOutStatus_night tz) c now store a
              Hwf Hk Hi Ho) as [Hok _].
  destruct Hok as (a' & Hc & Hst & _ & Hco & _).
  { destruct (wellFormed_lookup _ _ _ _ Hwf Hk) as (_ & Hprior & _).
    unfold checkOutStatus_night.
    destruct (_ <? 12); [|exact Hprior].
    repeat (destruct (_ <? _) || destruct (_ && _)); enum_member. }
  exists a'. split; [exact Hc|]. split; [exact Hco|].
  rewrite Hst. apply checkOutStatus_night_cases.
Qed.

(** Check-in at 19:00, check-out at 04:10 the next morning. *)
Lemma checkOut_night_windows_witness :
  let s1 := (handle tzPlus5 NightShift Night0405Model CheckIn caller1
               (localDate tzPlus5 2024 3 10 19 0) ∅).2 in
  let now := localDate tzPlus5 2024 3 11 4 10 in
  wellFormed Night0405Model s1
  /\ exists a',
       handle tzPlus5 NightShift Night0405Model CheckOut caller1 now s1
       = (Success a', <[(1%N, getShiftDate tzPlus5 now) := a']> s1)
       /\ status a' = "overtime"%string.
Proof.
  intros s1 now.
  assert (Hwf : wellFormed Night0405Model s1).
  { apply ledgerInvariant_wellFormed, handle_invariant, map_Forall_empty. }
  split; [exact Hwf|].
  destruct (checkOut_night_windows tzPlus5 caller1 now s1
              (mkAttendance 1 (localDate tzPlus5 2024 3 10 0 0)
                 (Some (mkPunch (localDate tzPlus5 2024 3 10 19 0) "10.0.0.7"))
                 None "present" 0 0 []) Hwf)
    as (a' & Hh & _ & _ & _ & _ & Hov & _).
  - vm_compute. reflexivity.
  - eexists. reflexivity.
  - reflexivity.
  - exists a'. split; [exact Hh|]. apply Hov. vm_compute. split; reflexivity.
Defined.

(** ** Day-shift classification *)

Lemma timeWithinDay_localDate tz y m d h mi :
  0 <= h < 24 -> 0 <= mi < 60 ->
  timeWithinDay tz (localDate tz y m d h mi) = clock h mi.
Proof.
  intros Hh Hm. unfold localDate. generalize (daysFromCivil y m d). intros day.
  clock_arith.
Qed.

Lemma getToday_localDate tz y m d h mi :
  0 <= h < 24 -> 0 <= mi < 60 ->
  getToday tz (localDate tz y m d h mi) = localDate tz y m d 0 0.
Proof.
  intros Hh Hm. unfold localDate. generalize (daysFromCivil y m d). intros day.
  clock_arith.
Qed.

Lemma checkInStatus_day_cases tz now :
  let t := timeWithinDay tz now in
  (t < clock 7 0 -> checkInStatus_day tz now = "early"%string)
  /\ (clock 7 0 <= t <= clock 7 5 -> checkInStatus_day tz now = "present"%string)
  /\ (clock 7 5 < t -> checkInStatus_day tz now = "late"%string).
Proof.
  cbv zeta. unfold checkInStatus_day.
  destruct (Z.ltb_spec now (setHours tz now 7 0 0 0)),
    (Z.leb_spec now (setHours tz now 7 5 0 0));
    repeat split; intros; try reflexivity; exfalso; clock_arith.
Qed.

(** Outcome of a day-shift check-in when none is recorded for today, for
    any model variant behind the routes. *)
Lemma checkIn_day_outcomes tz M c now store :
  wellFormed M store ->
  let t := timeWithinDay tz now in
  let k := (user_employee c, getToday tz now) in
  hasCheckIn (store !! k) = false ->
  (clock 16 0 <= t ->
   handle tz DayShift M CheckIn c now store = (Rejected OutsideWindow, store))
  /\ (t < clock 16 0 -> checkInStatus_day tz now ∈ statusEnum M ->
      exists a,
        handle tz DayShift M CheckIn c now store = (Success a, <[k := a]> store)
        /\ status a = checkInStatus_day tz now
        /\ checkIn a = Some (mkPunch now (ip c)))
  /\ (t < clock 16 0 -> checkInStatus_day tz now ∉ statusEnum M ->
      handle tz DayShift M CheckIn c now store
      = (ServerError "Error checking in" (ValidationError "status"), store)).
Proof.
  intros Hwf t k Hnone. unfold handle. cbn [plan failureMessage].
  unfold checkIn_day. fold k. rewrite Hnone.
  destruct (Z.leb_spec (setHours tz now 16 0 0 0) now) as [Hcut|Hcut].
  - split; [done|]. split; intros Ht; exfalso; subst t; clock_arith.
  - split; [intros Ht; exfalso; subst t; clock_arith|]. split.
    + intros _ Hst. apply checkInWrite_accepted; done.
    + intros _ Hst. apply checkInWrite_refused; done.
Qed.

Lemma hasCheckIn_empty k : hasCheckIn ((∅ : Store) !! k) = false.
Proof. rewrite lookup_empty. done. Qed.

(** C6. The day-shift scenario on the empty collection, day-shift routes
    over the day-shift model: a check-in at 07:03 is stored with status
    'present', one at 07:10 with 'late', one at 16:01 is rejected with
    OutsideWindow; the check-in at 06:55 is classified 'early', which the
    status enum of the day-shift model does not list, so the save fails
    validation, the route answers 500 and no record is stored. Over the
    night-shift model with the extended enum the same request stores the
    record with status 'early'. *)
Theorem checkIn_day_scenario tz c :
  let at_ h mi := localDate tz 2024 3 11 h mi in
  let k := (user_employee c, localDate tz 2024 3 11 0 0) in
  handle tz DayShift DayModel CheckIn c (at_ 6 55) ∅
  = (ServerError "Error checking in" (ValidationError "status"), ∅)
  /\ (exists a, handle tz DayShift DayModel CheckIn c (at_ 7 3) ∅
                = (Success a, <[k := a]> ∅)
                /\ status a = "present"%string)
  /\ (exists a, handle tz DayShift DayModel CheckIn c (at_ 7 10) ∅
                = (Success a, <[k := a]> ∅)
                /\ status a = "late"%string)
  /\ handle tz DayShift DayModel CheckIn c (at_ 16 1) ∅
     = (Rejected OutsideWindow, ∅)
  /\ (exists a, handle tz DayShift Night0405Model CheckIn c (at_ 6 55) ∅
                = (Success a, <[k := a]> ∅)
                /\ status a = "early"%string).
Proof.
  intros at_ k.
  assert (Hwf : forall M, wellFormed M ∅) by (intros M; apply map_Forall_empty).
  assert (Ht : forall h mi, 0 <= h < 24 -> 0 <= mi < 60 ->
                 timeWithinDay tz (at_ h mi) = clock h mi)
    by (intros; by apply timeWithinDay_localDate).
  assert (Hk : forall h mi, 0 <= h < 24 -> 0 <= mi < 60 ->
                 (user_employee c, getToday tz (at_ h mi)) = k)
    by (intros; unfold k, at_; by rewrite getToday_localDate).
  assert (Hearly : checkInStatus_day tz (at_ 6 55) = "early"%string).
  { apply checkInStatus_day_cases. rewrite Ht by lia. reflexivity. }
  assert (Hpresent : checkInStatus_day tz (at_ 7 3) = "present"%string).
  { apply checkInStatus_day_cases. rewrite Ht by lia. vm_compute.
    split; discriminate. }
  assert (Hlate : checkInStatus_day tz (at_ 7 10) = "late"%string).
  { apply checkInStatus_day_cases. rewrite Ht by lia. reflexivity. }
  split; [|split; [|split; [|split]]].
  - apply checkIn_day_outcomes; [apply Hwf|apply hasCheckIn_empty| |].
    + rewrite Ht by lia. reflexivity.
    + rewrite Hearly. enum_absent.
  - destruct (checkIn_day_outcomes tz DayModel c (at_ 7 3) ∅ (Hwf _)
                (hasCheckIn_empty _)) as (_ & H & _).
    destruct H as (a & Ha & Hs & _).
    + rewrite Ht by lia. reflexivity.
    + rewrite Hpresent. enum_member.
    + exists a. rewrite Hk in Ha by lia. rewrite Hs, Hpresent. done.
  - destruct (checkIn_day_outcomes tz DayModel c (at_ 7 10) ∅ (Hwf _)
                (hasCheckIn_empty _)) as (_ & H & _).
    destruct H as (a & Ha & Hs & _).
    + rewrite Ht by lia. reflexivity.
    + rewrite Hlate. enum_member.
    + exists a. rewrite Hk in Ha by lia. rewrite Hs, Hlate. done.
  - apply checkIn_day_outcomes; [apply Hwf|apply hasCheckIn_empty|].
    rewrite Ht by lia. vm_compute. discriminate.
  - destruct (checkIn_day_outcomes tz Night0405Model c (at_ 6 55) ∅ (Hwf _)
                (hasCheckIn_empty _)) as (_ & H & _).
    destruct H as (a & Ha & Hs & _).
    + rewrite Ht by lia. reflexivity.
    + rewrite Hearly. enum_member.
    + exists a. rewrite Hk in Ha by lia. rewrite Hs, Hearly. done.
Qed.

Lemma checkOutStatus_day_cases tz now prior :
  let t := timeWithinDay tz now in
  (clock 16 5 < t -> checkOutStatus_day tz now prior = "overtime"%string)
  /\ (clock 16 0 <= t <= clock 16 5 ->
      checkOutStatus_day tz now prior = "clocked-out"%string)
  /\ (t < clock 16 0 -> checkOutStatus_day tz now prior = prior).
Proof.
  cbv zeta. unfold checkOutStatus_day.
  destruct (Z.ltb_spec (setHours tz now 16 5 0 0) now),
    (Z.leb_spec (setHours tz now 16 0 0 0) now),
    (Z.leb_spec now (setHours tz now 16 5 0 0));
    cbn [andb]; repeat split; intros; try reflexivity; exfalso; clock_arith.
Qed.

(** The first check-in of a day on the empty collection creates the
    document the route builds. *)
Lemma checkIn_day_first tz M c now :
  timeWithinDay tz now < clock 16 0 ->
  checkInStatus_day tz now ∈ statusEnum M ->
  let doc := newAttendance (user_employee c) (getToday tz now)
               (mkPunch now (ip c)) (checkInStatus_day tz now) in
  handle tz DayShift M CheckIn c now ∅ = (Success doc, {[key doc := doc]}).
Proof.
  intros Ht Hst doc. unfold handle. cbn [plan failureMessage].
  unfold checkIn_day. rewrite hasCheckIn_empty.
  destruct (Z.leb_spec (setHours tz now 16 0 0 0) now) as [Hcut|Hcut];
    [exfalso; clock_arith|].
  rewrite lookup_empty. cbn [checkInWrite commit]. fold doc.
  assert (Hv : validate M doc = None).
  { apply validate_None. split; [done|]. constructor. }
  rewrite (create_fresh _ tz _ ∅ Hv) by apply lookup_empty.
  rewrite preSave_no_checkOut by done. done.
Qed.

(** C7. Day-shift check-out after a check-in at 07:03 (stored with status
    'present'), day-shift routes over the day-shift model. A check-out at
    15:30 is stored: the status stays 'present' and [checkOut.time] is
    recorded. A check-out at 16:03 is classified 'clocked-out' and one at
    16:10 'overtime'; the status enum of the day-shift model lists neither,
    so the save fails validation, the route answers 500 and the stored
    record keeps no check-out. Over the night-shift model with the
    extended enum the check-out at 16:10 is stored with status
    'overtime'. *)
Theorem checkOut_day_scenario tz c :
  let at_ h mi := localDate tz 2024 3 11 h mi in
  let k := (user_employee c, localDate tz 2024 3 11 0 0) in
  let checkedIn M := (handle tz DayShift M CheckIn c (at_ 7 3) ∅).2 in
  (exists a, checkedIn DayModel !! k = Some a
             /\ status a = "present"%string /\ checkOut a = None)
  /\ handle tz DayShift DayModel CheckOut c (at_ 16 10) (checkedIn DayModel)
     = (ServerError "Error checking out" (ValidationError "status"),
        checkedIn DayModel)
  /\ handle tz DayShift DayModel CheckOut c (at_ 16 3) (checkedIn DayModel)
     = (ServerError "Error checking out" (ValidationError "status"),
        checkedIn DayModel)
  /\ (exists a',
        handle tz DayShift DayModel CheckOut c (at_ 15 30) (checkedIn DayModel)
        = (Success a', <[k := a']> (checkedIn DayModel))
        /\ status a' = "present"%string
        /\ checkOut a' = Some (mkPunch (at_ 15 30) (ip c)))
  /\ (exists a',
        handle tz DayShift Night0405Model CheckOut c (at_ 16 10)
          (checkedIn Night0405Model)
        = (Success a', <[k := a']> (checkedIn Night0405Model))
        /\ status a' = "overtime"%string
        /\ checkOut a' = Some (mkPunch (at_ 16 10) (ip c))).
Proof.
  intros at_ k checkedIn.
  assert (Ht : forall h mi, 0 <= h < 24 -> 0 <= mi < 60 ->
                 timeWithinDay tz (at_ h mi) = clock h mi)
    by (intros; by apply timeWithinDay_localDate).
  assert (Hk : forall h mi, 0 <= h < 24 -> 0 <= mi < 60 ->
                 (user_employee c, getToday tz (at_ h mi)) = k)
    by (intros; unfold k, at_; by rewrite getToday_localDate).
  assert (Hpresent : checkInStatus_day tz (at_ 7 3) = "present"%string).
  { apply checkInStatus_day_cases. rewrite Ht by lia. vm_compute.
    split; discriminate. }
  set (doc := newAttendance (user_employee c) (getToday tz (at_ 7 3))
                (mkPunch (at_ 7 3) (ip c)) "present").
  assert (Hdoc : forall M, M = DayModel \/ M = Night0405Model ->
                   checkedIn M = {[k := doc]}).
  { intros M HM. unfold checkedIn. rewrite checkIn_day_first.
    - rewrite Hpresent. cbn [snd]. fold doc.
      replace (key doc) with k by (symmetry; apply (Hk 7 3); lia). done.
    - rewrite Ht by lia. reflexivity.
    - rewrite Hpresent. destruct HM as [-> | ->]; enum_member. }
  assert (Hwf : forall M, wellFormed M (checkedIn M)).
  { intros M. apply ledgerInvariant_wellFormed, handle_invariant, map_Forall_empty. }
  assert (Hlook : forall M, M = DayModel \/ M = Night0405Model ->
                    forall h mi, 0 <= h < 24 -> 0 <= mi < 60 ->
                    checkedIn M !! (user_employee c, getToday tz (at_ h mi))
                    = Some doc).
  { intros M HM h mi Hh Hmi. rewrite Hk, (Hdoc M HM) by lia.
    apply lookup_singleton_eq. }
  assert (Hout : forall M h mi, M = DayModel \/ M = Night0405Model ->
                   0 <= h < 24 -> 0 <= mi < 60 ->
      (checkOutStatus_day tz (at_ h mi) "present" ∈ statusEnum M ->
       exists a',
         handle tz DayShift M CheckOut c (at_ h mi) (checkedIn M)
         = (Success a', <[k := a']> (checkedIn M))
         /\ status a' = checkOutStatus_day tz (at_ h mi) "present"
         /\ checkOut a' = Some (mkPunch (at_ h mi) (ip c)))
      /\ (checkOutStatus_day tz (at_ h mi) "present" ∉ statusEnum M ->
          handle tz DayShift M CheckOut c (at_ h mi) (checkedIn M)
          = (ServerError "Error checking out" (ValidationError "status"),
             checkedIn M))).
  { intros M h mi HM Hh Hmi.
    destruct (checkOut_with_commit M tz "Error checking out" (getToday tz)
                (checkOutStatus_day tz) c (at_ h mi) (checkedIn M) doc
                (Hwf M) (Hlook M HM h mi Hh Hmi)) as [Hok Hbad].
    { by eexists. } { done. }
    rewrite Hk in Hok by lia. split; [|exact Hbad].
    intros Hst. destruct (Hok Hst) as (a' & H1 & H2 & _ & H4 & _). eauto. }
  assert (H1610 : checkOutStatus_day tz (at_ 16 10) "present" = "overtime"%string).
  { apply checkOutStatus_day_cases. rewrite Ht by lia. reflexivity. }
  assert (H1603 : checkOutStatus_day tz (at_ 16 3) "present" = "clocked-out"%string).
  { apply checkOutStatus_day_cases. rewrite Ht by lia. vm_compute.
    split; discriminate. }
  assert (H1530 : checkOutStatus_day tz (at_ 15 30) "present" = "present"%string).
  { apply checkOutStatus_day_cases. rewrite Ht by lia. reflexivity. }
  split; [|split; [|split; [|split]]].
  - exists doc. rewrite (Hdoc DayModel) by auto. rewrite lookup_singleton_eq. done.
  - apply Hout; [auto|lia|lia|]. rewrite H1610. enum_absent.
  - apply Hout; [auto|lia|lia|]. rewrite H1603. enum_absent.
  - destruct (Hout DayModel 15 30) as [Hok _]; [auto|lia|lia|].
    destruct Hok as (a' & Ha & Hs & Hco); [rewrite H1530; enum_member|].
    exists a'. rewrite Hs, H1530. done.
  - destruct (Hout Night0405Model 16 10) as [Hok _]; [auto|lia|lia|].
    destruct Hok as (a' & Ha & Hs & Hco); [rewrite H1610; enum_member|].
    exists a'. rewrite Hs, H1610. done.
Qed.

(** ** Status vocabulary of the model variants *)

Lemma extendedStatuses_cases s :
  s ∈ extendedStatuses ->
  s = "early"%string \/ s = "overtime"%string
  \/ s = "clocked-out"%string \/ s = "early-clockout"%string.
Proof. unfold extendedStatuses. rewrite !elem_of_cons, elem_of_nil. tauto. Qed.

Lemma extendedStatuses_not_day s : s ∈ extendedStatuses -> s ∉ dayStatusEnum.
Proof.
  intros H. destruct (extendedStatuses_cases s H) as [->|[->|[->| ->]]];
    enum_absent.
Qed.

(** C10. The status enum of the day-shift model is the seven values
    present, absent, late, half-day, on-leave, holiday, weekend, and a
    document created without a status gets 'absent'. Saving or creating a
    document whose status is 'early', 'overtime', 'clocked-out' or
    'early-clockout' through the day-shift model fails validation and
    changes nothing; whatever [save] or [create] stores through it, and
    every record of a store the routes reach over it, has one of the seven
    statuses. A model variant that accepts one of the four extended
    statuses is a night-shift variant, and the variant with the 4:05
    boundary accepts all four. *)
Theorem day_schema_status :
  statusEnum DayModel
  = ["present"; "absent"; "late"; "half-day"; "on-leave"; "holiday"; "weekend"]%string
  /\ (forall e d, status (newDocument e d) = "absent"%string
                  /\ validate DayModel (newDocument e d) = None)
  /\ (forall tz a store, status a ∈ extendedStatuses ->
        save DayModel tz a store = (inl (ValidationError "status"), store)
        /\ create DayModel tz a store = (inl (ValidationError "status"), store))
  /\ (forall tz a store a' store',
        save DayModel tz a store = (inr a', store')
        \/ create DayModel tz a store = (inr a', store') ->
        status a' ∈ dayStatusEnum /\ store' !! key a' = Some a')
  /\ (forall tz R store, reachable tz R DayModel store ->
        map_Forall (fun _ a => status a ∈ dayStatusEnum) store)
  /\ (forall M s, s ∈ extendedStatuses -> s ∈ statusEnum M ->
        M = Night0400Model \/ M = Night0405Model)
  /\ (forall s, s ∈ extendedStatuses -> s ∈ statusEnum Night0405Model).
Proof.
  split; [reflexivity|]. split; [|split; [|split; [|split; [|split]]]].
  - intros e d. split; reflexivity.
  - intros tz a store Hs.
    pose proof (validate_status DayModel a (extendedStatuses_not_day _ Hs)) as Hv.
    split; [by apply save_invalid | by apply create_invalid].
  - intros tz a store a' store' H.
    assert (Hv : validate DayModel a = None /\ a' = preSave DayModel tz a
                 /\ store' = <[key a := a']> store).
    { destruct (validate DayModel a) as [e|] eqn:Hv.
      - rewrite (save_invalid _ _ _ _ _ Hv), (create_invalid _ _ _ _ _ Hv) in H.
        destruct H; done.
      - rewrite (save_valid _ _ _ _ Hv) in H. destruct H as [H|H].
        + injection H as <- <-. done.
        + destruct (store !! key a) as [a0|] eqn:Hk.
          * rewrite create_duplicate in H by eauto. done.
          * rewrite create_fresh in H by done. injection H as <- <-. done. }
    destruct Hv as (Hv & -> & ->). apply validate_None in Hv as [Hs _].
    destruct (preSave_frame DayModel tz a) as (_ & _ & _ & _ & -> & _).
    rewrite preSave_key, lookup_insert_eq. done.
  - intros tz R store Hreach k a Hk.
    apply reachable_invariant in Hreach.
    apply (map_Forall_lookup_1 _ _ _ _ Hreach) in Hk as (_ & Hv & _).
    apply validate_None in Hv as [Hs _]. exact Hs.
  - intros M s Hs HM. destruct M; [|auto..].
    exfalso. exact (extendedStatuses_not_day s Hs HM).
  - intros s Hs.
    destruct (extendedStatuses_cases s Hs) as [->|[->|[->| ->]]]; enum_member.
Qed.

(** ** Duplicate check-in *)

Lemma plan_checkIn_cases tz R c now store :
  plan tz R CheckIn c now store = Reply (Rejected OutsideWindow)
  \/ plan tz R CheckIn c now store = Reply (Rejected AlreadyCheckedIn)
  \/ plan tz R CheckIn c now store
     = checkInWrite (store !! (user_employee c, resolveDate tz R now))
         (user_employee c) (resolveDate tz R now) (mkPunch now (ip c))
         (match R with
          | DayShift => checkInStatus_day tz now
          | NightShift => checkInStatus_night tz now
          end).
Proof.
  destruct R; cbn [plan resolveDate].
  - unfold checkIn_day. destruct (hasCheckIn _); [auto|].
    destruct (_ <=? _); auto.
  - unfold checkIn_night. destruct (inDeadZone _ _); [auto|].
    destruct (hasCheckIn _); auto.
Qed.

(** A successful check-in puts a record with a check-in under the
    caller's key for the resolved date. *)
Lemma checkIn_success tz R M c now store a store1 :
  wellFormed M store ->
  handle tz R M CheckIn c now store = (Success a, store1) ->
  store1 = <[(user_employee c, resolveDate tz R now) := a]> store
  /\ is_Some (checkIn a).
Proof.
  intros Hwf. unfold handle. cbn [failureMessage].
  destruct (plan_checkIn_cases tz R c now store) as [->|[->| ->]];
    [done|done|].
  unfold checkInWrite.
  destruct (store !! _) as [a0|] eqn:Hk; cbn [commit].
  - destruct (wellFormed_lookup _ _ _ _ Hwf Hk) as (Hkey & _ & _).
    set (doc := set_status _ _).
    destruct (validate M doc) eqn:Hv.
    + rewrite (save_invalid _ _ _ _ _ Hv). done.
    + rewrite (save_valid _ _ _ _ Hv). intros [= <- <-].
      destruct (preSave_frame M tz doc) as (_ & _ & -> & _).
      replace (key doc) with (user_employee c, resolveDate tz R now)
        by (rewrite <- Hkey; done).
      split; [done|]. by eexists.
  - set (doc := newAttendance _ _ _ _).
    destruct (validate M doc) eqn:Hv.
    + rewrite (create_invalid _ _ _ _ _ Hv). done.
    + rewrite (create_fresh _ _ _ _ Hv) by done. intros [= <- <-].
      destruct (preSave_frame M tz doc) as (_ & _ & -> & _).
      split; [done|]. by eexists.
Qed.

(** C9, as the claim states it, fails. Under the night-shift routes the
    dead-zone test comes before the duplicate test: after a successful
    check-in at 19:00, a second check-in of the same caller at 05:00 the
    next morning resolves to the same shift date and is rejected with
    OutsideWindow, not with AlreadyCheckedIn. *)
Lemma checkIn_night_second_in_dead_zone :
  exists a s1,
    handle tzPlus5 NightShift Night0405Model CheckIn caller1
      (localDate tzPlus5 2024 3 10 19 0) ∅ = (Success a, s1)
    /\ getShiftDate tzPlus5 (localDate tzPlus5 2024 3 11 5 0)
       = getShiftDate tzPlus5 (localDate tzPlus5 2024 3 10 19 0)
    /\ handle tzPlus5 NightShift Night0405Model CheckIn caller1
         (localDate tzPlus5 2024 3 11 5 0) s1
       = (Rejected OutsideWindow, s1)
    /\ Rejected OutsideWindow <> Rejected AlreadyCheckedIn.
Proof.
  eexists _, _. split; [vm_compute; reflexivity|].
  split; [vm_compute; reflexivity|].
  split; [vm_compute; reflexivity | discriminate].
Qed.

(** C9, amended. After a successful check-in, a later check-in of the
    same caller that resolves to the same shift date is rejected by the
    pre-check on [checkIn.time] with AlreadyCheckedIn, whatever the time
    between the calls; only under the night-shift routes a second call in
    the dead zone is rejected with OutsideWindow first. The store is left
    as the first call wrote it. *)
Theorem checkIn_twice tz R M c now1 now2 store a store1 :
  wellFormed M store ->
  handle tz R M CheckIn c now1 store = (Success a, store1) ->
  resolveDate tz R now2 = resolveDate tz R now1 ->
  handle tz R M CheckIn c now2 store1
  = (Rejected (match R with
               | DayShift => AlreadyCheckedIn
               | NightShift =>
                   if inDeadZone tz now2 then OutsideWindow else AlreadyCheckedIn
               end), store1).
Proof.
  intros Hwf H1 Hdate.
  destruct (checkIn_success _ _ _ _ _ _ _ _ Hwf H1) as [Hs1 Hci].
  assert (Hk : store1 !! (user_employee c, resolveDate tz R now2) = Some a).
  { rewrite Hdate, Hs1. apply lookup_insert_eq. }
  unfold handle. cbn [failureMessage].
  destruct R; cbn [plan resolveDate] in *.
  - unfold checkIn_day. rewrite Hk. cbn [hasCheckIn].
    rewrite bool_decide_eq_true_2 by done. done.
  - unfold checkIn_night. destruct (inDeadZone tz now2); [done|].
    rewrite Hk. cbn [hasCheckIn].
    rewrite bool_decide_eq_true_2 by done. done.
Qed.

(** Two night-shift check-ins, at 19:03 and again at 23:00. *)
Lemma checkIn_twice_witness :
  wellFormed Night0405Model ∅
  /\ handle tzPlus5 NightShift Night0405Model CheckIn caller1
       (localDate tzPlus5 2024 3 10 23 0)
       (handle tzPlus5 NightShift Night0405Model CheckIn caller1
          (localDate tzPlus5 2024 3 10 19 3) ∅).2
     = (Rejected AlreadyCheckedIn,
        (handle tzPlus5 NightShift Night0405Model CheckIn caller1
           (localDate tzPlus5 2024 3 10 19 3) ∅).2).
Proof.
  assert (Hwf : wellFormed Night0405Model ∅) by apply map_Forall_empty.
  split; [exact Hwf|].
  refine (checkIn_twice tzPlus5 NightShift Night0405Model caller1
            (localDate tzPlus5 2024 3 10 19 3)
            (localDate tzPlus5 2024 3 10 23 0) ∅ _ _ Hwf _ _).
  - vm_compute. reflexivity.
  - vm_compute. reflexivity.
Defined.

(** The duplicate that the pre-check cannot see. When the second call
    took its decision on the store as it was before the first write and
    goes on to [create], the unique index refuses the insert. Neither
    check-in route looks at the error code: the one [catch] block answers
    500 "Error checking in" with the storage error, where other routes of
    the repository that create after a [findOne] test [error.code === 11000]
    and answer 400. The store keeps the first record. *)
Lemma checkIn_race tz R M c now1 now2 store a store1 doc2 :
  wellFormed M store ->
  handle tz R M CheckIn c now1 store = (Success a, store1) ->
  resolveDate tz R now2 = resolveDate tz R now1 ->
  plan tz R CheckIn c now2 store = Create doc2 ->
  interleaved tz R M CheckIn c now1 CheckIn c now2 store
  = (Success a,
     ServerError "Error checking in"
       (match validate M doc2 with Some e => e | None => DuplicateKey end),
     store1).
Proof.
  intros Hwf H1 Hdate Hp2.
  destruct (checkIn_success _ _ _ _ _ _ _ _ Hwf H1) as [Hs1 Hci].
  assert (Hk : store1 !! (user_employee c, resolveDate tz R now2) = Some a).
  { rewrite Hdate, Hs1. apply lookup_insert_eq. }
  unfold interleaved. rewrite Hp2.
  fold (handle tz R M CheckIn c now1 store). rewrite H1.
  assert (Hkey : key doc2 = (user_employee c, resolveDate tz R now2)).
  { destruct (plan_checkIn_cases tz R c now2 store) as [E|[E|E]];
      rewrite E in Hp2; try done.
    unfold checkInWrite in Hp2. destruct (store !! _); [done|].
    injection Hp2 as <-. done. }
  cbn [commit failureMessage].
  destruct (validate M doc2) as [e|] eqn:Hv.
  - rewrite (create_invalid _ _ _ _ _ Hv). done.
  - rewrite create_duplicate; [done|done|]. rewrite Hkey, Hk. by eexists.
Qed.

(** Two night-shift check-ins of the same caller at 19:00 that both read
    the empty collection before either writes: the first is stored, the
    second is answered with the 500 carrying the duplicate-key error. *)
Lemma checkIn_race_not_translated :
  exists a store',
    interleaved tzPlus5 NightShift Night0405Model
      CheckIn caller1 (localDate tzPlus5 2024 3 10 19 0)
      CheckIn caller1 (localDate tzPlus5 2024 3 10 19 0) ∅
    = (Success a, ServerError "Error checking in" DuplicateKey, store')
    /\ ServerError "Error checking in" DuplicateKey <> Rejected AlreadyCheckedIn.
Proof.
  eexists _, _. split; [vm_compute; reflexivity | discriminate].
Qed.

(** ** Working hours and overtime *)

(** What the hook of the day-shift model computes on a record with both
    times set. *)
Lemma preSave_day_spec tz a ci co :
  checkIn a = Some ci -> checkOut a = Some co ->
  let a' := preSave_day tz a in
  let wh := Qmax 0 (hoursOfMs (time co - time ci) - breakHours (breaks a)) in
  workingHours a' = wh
  /\ (8 < wh -> overtime a' = wh - 8)%Q
  /\ (wh <= 8 -> overtime a' = overtime a)%Q
  /\ (overtime a == 0 -> overtime a' == Qmax 0 (wh - 8))%Q
  /\ preSave_day tz a' = a'.
Proof.
  intros Hi Ho a' wh. subst a'. unfold preSave_day. rewrite Hi, Ho.
  cbn [workingHours set_workingHours].
  change (computeWorkingHours ci co (breaks a)) with wh.
  destruct (Qlt_le_dec 8 wh) as [Hlt|Hle];
    cbn [workingHours overtime set_overtime set_workingHours checkIn checkOut breaks].
  - rewrite Hi, Ho. change (computeWorkingHours ci co (breaks a)) with wh.
    destruct (Qlt_le_dec 8 wh) as [_|Hle]; [|exfalso; by apply (Qlt_not_le 8 wh)].
    repeat split; try done.
    + intros Hle. exfalso. by apply (Qlt_not_le 8 wh).
    + intros _. rewrite Q.max_r; [reflexivity|].
      apply Qlt_le_weak. rewrite <- (Qplus_opp_r 8).
      apply Qplus_lt_l. exact Hlt.
  - rewrite Hi, Ho. change (computeWorkingHours ci co (breaks a)) with wh.
    destruct (Qlt_le_dec 8 wh) as [Hlt|_]; [exfalso; by apply (Qlt_not_le 8 wh)|].
    repeat split; try done.
    + intros Hlt. exfalso. by apply (Qlt_not_le 8 wh).
    + intros ->. rewrite Q.max_l; [reflexivity|].
      rewrite <- (Qplus_opp_r 8). apply Qplus_le_l. exact Hle.
Qed.

(** C4. The day-shift hook leaves a stale [overtime] behind. Day-shift
    routes over the day-shift model: check-in at 07:00, break started at
    15:00, check-out at 15:59, break ended at 17:00. The check-out save
    derives 8h59 of working hours and 59 minutes of overtime. The save of
    the ended break (120 minutes) derives 6h59 of working hours, and as
    these are not above 8 the hook does not touch [overtime]: the stored
    record keeps 59 minutes of overtime where max(0, workingHours - 8) is
    0. *)
Theorem preSave_day_stale_overtime :
  let k := (1%N, localDate tzPlus5 2024 3 11 0 0) in
  let s1 := (handle tzPlus5 DayShift DayModel CheckIn caller1
               (localDate tzPlus5 2024 3 11 7 0) ∅).2 in
  let s2 := (handle tzPlus5 DayShift DayModel (BreakStart None) caller1
               (localDate tzPlus5 2024 3 11 15 0) s1).2 in
  let s3 := (handle tzPlus5 DayShift DayModel CheckOut caller1
               (localDate tzPlus5 2024 3 11 15 59) s2).2 in
  let s4 := (handle tzPlus5 DayShift DayModel BreakEnd caller1
               (localDate tzPlus5 2024 3 11 17 0) s3).2 in
  exists a3 a4,
    s3 !! k = Some a3 /\ s4 !! k = Some a4
    /\ (workingHours a3 == 539 # 60)%Q /\ (overtime a3 == 59 # 60)%Q
    /\ (workingHours a4 == 419 # 60)%Q /\ (overtime a4 == 59 # 60)%Q
    /\ (Qmax 0 (workingHours a4 - 8) == 0)%Q
    /\ ~ (overtime a4 == Qmax 0 (workingHours a4 - 8))%Q.
Proof.
  intros k s1 s2 s3 s4. eexists _, _.
  split; [vm_compute; reflexivity|].
  split; [vm_compute; reflexivity|].
  repeat split; try (vm_compute; reflexivity).
  vm_compute. discriminate.
Qed.

(** C5. Policy B, the hook of the night-shift models. For a record with
    check-in at 19:00, check-out at 04:10 the next day and one closed
    break of 30 minutes, the hook with the 4:05 boundary derives
    elapsedHours 55/6 (9.1667), breakHours 1/2, workingHours 26/3 (8.6667)
    and overtime 1/12 (0.0833), the time from 04:05 to 04:10; the routes
    store the same values for that shift. In general, on a record with
    both times set, the hook with boundary 4:bm sets overtime to
    (checkOut.time - boundary) / 3600000 when the local check-out time is
    after the boundary and before noon, and to 0 otherwise. *)
Theorem policyB_overtime :
  (forall tz addr t0,
     let ci := mkPunch (localDate tz 2024 3 10 19 0) addr in
     let co := mkPunch (localDate tz 2024 3 11 4 10) addr in
     let bs := [mkBreak t0 (Some (t0 + 30 * msPerMinute)) (Some 30) "lunch"] in
     let a := mkAttendance 1 (localDate tz 2024 3 10 0 0) (Some ci) (Some co)
                "overtime" 0 0 bs in
     let a' := preSave Night0405Model tz a in
     (elapsedHours ci co == 55 # 6)%Q /\ fourDecimals (elapsedHours ci co) 91667
     /\ (breakHours bs == 1 # 2)%Q
     /\ (workingHours a' == 26 # 3)%Q /\ fourDecimals (workingHours a') 86667
     /\ (overtime a' == 1 # 12)%Q /\ fourDecimals (overtime a') 833)
  /\ (let s1 := (handle tzPlus5 NightShift Night0405Model CheckIn caller1
                   (localDate tzPlus5 2024 3 10 19 0) ∅).2 in
      let s2 := (handle tzPlus5 NightShift Night0405Model (BreakStart (Some "lunch"))
                   caller1 (localDate tzPlus5 2024 3 10 23 0) s1).2 in
      let s3 := (handle tzPlus5 NightShift Night0405Model BreakEnd caller1
                   (localDate tzPlus5 2024 3 10 23 30) s2).2 in
      let s4 := (handle tzPlus5 NightShift Night0405Model CheckOut caller1
                   (localDate tzPlus5 2024 3 11 4 10) s3).2 in
      exists a4,
        s4 !! (1%N, localDate tzPlus5 2024 3 10 0 0) = Some a4
        /\ status a4 = "overtime"%string
        /\ (workingHours a4 == 26 # 3)%Q /\ (overtime a4 == 1 # 12)%Q)
  /\ preSave Night0400Model = preSave_night 0
  /\ preSave Night0405Model = preSave_night 5
  /\ (forall tz bm a ci co,
        checkIn a = Some ci -> checkOut a = Some co ->
        let a' := preSave_night bm tz a in
        let boundary := setHours tz (time co) 4 bm 0 0 in
        let t := timeWithinDay tz (time co) in
        workingHours a' = Qmax 0 (elapsedHours ci co - breakHours (breaks a))
        /\ time co - boundary = t - clock 4 bm
        /\ (clock 4 bm < t < clock 12 0 ->
            overtime a' = hoursOfMs (time co - boundary))
        /\ (~ clock 4 bm < t < clock 12 0 -> overtime a' = 0%Q)).
Proof.
  split; [|split; [|split; [reflexivity|split; [reflexivity|]]]].
  - intros tz addr t0 ci co bs a a'.
    assert (Hd : time co - time ci = 33000000).
    { subst ci co. cbn [time]. unfold localDate.
      change (daysFromCivil 2024 3 11) with 19793.
      change (daysFromCivil 2024 3 10) with 19792. clock_arith. }
    assert (Hb : time co - setHours tz (time co) 4 5 0 0 = 300000).
    { subst co. cbn [time]. unfold localDate.
      change (daysFromCivil 2024 3 11) with 19793. clock_arith. }
    assert (Hh : getHours tz (time co) = 4).
    { subst co. cbn [time]. unfold localDate. apply getHours_atLocal; lia. }
    assert (He : (elapsedHours ci co == 55 # 6)%Q).
    { unfold elapsedHours. rewrite Hd. vm_compute. reflexivity. }
    assert (Hbr : (breakHours bs == 1 # 2)%Q) by (vm_compute; reflexivity).
    assert (Hw : (workingHours a' == 26 # 3)%Q).
    { subst a' a. cbn. unfold computeWorkingHours. fold ci co bs.
      rewrite He, Hbr. vm_compute. reflexivity. }
    assert (Ho : (overtime a' == 1 # 12)%Q).
    { subst a' a. cbn. unfold overtimeAfter. fold co. rewrite Hh.
      replace (setHours tz (time co) 4 5 0 0 <? time co) with true
        by (symmetry; apply Z.ltb_lt; lia).
      cbn [andb Z.ltb Z.compare Pos.compare Pos.compare_cont].
      rewrite Hb. vm_compute. reflexivity. }
    unfold fourDecimals. rewrite He, Hw, Ho.
    repeat split; try reflexivity; try (vm_compute; reflexivity);
      vm_compute; discriminate.
  - intros s1 s2 s3 s4. eexists. split; [vm_compute; reflexivity|].
    repeat split; vm_compute; reflexivity.
  - intros tz bm a ci co Hi Ho a' boundary t. subst a'.
    unfold preSave_night. rewrite Hi, Ho.
    cbn [workingHours overtime set_overtime set_workingHours].
    split; [reflexivity|]. split; [subst boundary t; clock_arith|].
    unfold overtimeAfter. fold boundary.
    destruct (Z.ltb_spec boundary (time co)), (Z.ltb_spec (getHours tz (time co)) 12);
      cbn [andb]; split; intros; try reflexivity; exfalso;
      subst boundary t; clock_arith.
Qed.

(** The Policy B rule on the scenario record. *)
Lemma policyB_overtime_witness :
  let ci := mkPunch (localDate tzPlus5 2024 3 10 19 0) "10.0.0.7" in
  let co := mkPunch (localDate tzPlus5 2024 3 11 4 10) "10.0.0.7" in
  let a := mkAttendance 1 (localDate tzPlus5 2024 3 10 0 0) (Some ci) (Some co)
             "overtime" 0 0 [] in
  checkIn a = Some ci /\ checkOut a = Some co
  /\ overtime (preSave_night 5 tzPlus5 a)
     = hoursOfMs (time co - setHours tzPlus5 (time co) 4 5 0 0).
Proof.
  intros ci co a.
  split; [reflexivity|]. split; [reflexivity|].
  destruct policyB_overtime as (_ & _ & _ & _ & H).
  destruct (H tzPlus5 5 a ci co eq_refl eq_refl) as (_ & _ & Hov & _).
  apply Hov. vm_compute. split; reflexivity.
Defined.

(** * Further properties of the attendance code *)

(** ** The shift-date resolver *)

(** X1. A night shift owns the 24 hours from 18:00: [getShiftDate]
    returns local midnight of day [D] exactly for the instants from 18:00
    of day [D] up to, and not including, 18:00 of day [D + 1]. *)
Theorem getShiftDate_window tz now D :
  getShiftDate tz now = atLocal tz D 0 0 0 0
  <-> (D * msPerDay + clock 18 0 <= localMs tz now
       /\ localMs tz now < (D + 1) * msPerDay + clock 18 0).
Proof.
  rewrite getShiftDate_eq.
  destruct (Z.ltb_spec (getHours tz now) 18); split; intros; clock_arith.
Qed.

(** X2. The resolver is monotone: a later instant never resolves to an
    earlier shift date. *)
Theorem getShiftDate_monotone tz now1 now2 :
  now1 <= now2 -> getShiftDate tz now1 <= getShiftDate tz now2.
Proof.
  intros Hle. rewrite !getShiftDate_eq.
  destruct (Z.ltb_spec (getHours tz now1) 18),
    (Z.ltb_spec (getHours tz now2) 18); clock_arith.
Qed.

Lemma getShiftDate_monotone_witness :
  localDate tzPlus5 2024 3 10 23 0 <= localDate tzPlus5 2024 3 11 2 0
  /\ getShiftDate tzPlus5 (localDate tzPlus5 2024 3 10 23 0)
     <= getShiftDate tzPlus5 (localDate tzPlus5 2024 3 11 2 0).
Proof.
  assert (H : localDate tzPlus5 2024 3 10 23 0 <= localDate tzPlus5 2024 3 11 2 0)
    by (vm_compute; discriminate).
  split; [exact H|]. exact (getShiftDate_monotone tzPlus5 _ _ H).
Defined.

(** X3. Resolving a shift date again does not return it: [getShiftDate]
    applied to a shift date returns local midnight of the calendar day
    before it, whereas the day-shift date [today] is stable under resolving
    again. Neither date is later than the instant it is resolved from, the
    night-shift date is never later than the day-shift date, and the two
    routes date the instant alike exactly when the local hour is 18 or
    more. *)
Theorem getShiftDate_again tz now :
  getShiftDate tz (getShiftDate tz now)
  = atLocal tz (localDay tz (getShiftDate tz now) - 1) 0 0 0 0
  /\ getToday tz (getToday tz now) = getToday tz now
  /\ getShiftDate tz now <= getToday tz now <= now
  /\ (getShiftDate tz now = getToday tz now <-> 18 <= getHours tz now).
Proof.
  assert (H18 : (getHours tz (getShiftDate tz now) <? 18) = true).
  { apply Z.ltb_lt. rewrite getShiftDate_eq.
    destruct (Z.ltb_spec (getHours tz now) 18); clock_arith. }
  split; [|split; [|split]].
  - rewrite (getShiftDate_eq tz (getShiftDate tz now)), H18.
    rewrite getShiftDate_eq.
    destruct (Z.ltb_spec (getHours tz now) 18); clock_arith.
  - clock_arith.
  - rewrite getShiftDate_eq.
    destruct (Z.ltb_spec (getHours tz now) 18); clock_arith.
  - rewrite getShiftDate_eq.
    destruct (Z.ltb_spec (getHours tz now) 18); split; intros; clock_arith.
Qed.

(** X4. The employee-status route asks for records dated in
    [today, tomorrow). The day-shift date of the instant is always in that
    range; the night-shift date is in it exactly when the local hour is 18
    or more, so from midnight to 18:00 the range does not contain the date
    of the night shift in progress. *)
Theorem inStatusWindow_dates tz now :
  inStatusWindow tz now (getToday tz now) = true
  /\ (inStatusWindow tz now (getShiftDate tz now) = true
      <-> 18 <= getHours tz now).
Proof.
  unfold inStatusWindow. rewrite setDate_getDate.
  split.
  - apply andb_true_iff. split; [apply Z.leb_le | apply Z.ltb_lt]; clock_arith.
  - rewrite andb_true_iff, Z.leb_le, Z.ltb_lt, getShiftDate_eq.
    destruct (Z.ltb_spec (getHours tz now) 18); split; intros; clock_arith.
Qed.

(** ** What a request writes *)

(** Closes a goal whose hypotheses contradict each other on whether an
    optional field is set. *)
Ltac some_contra :=
  exfalso;
  match goal with
  | H : ~ is_Some (Some _) |- _ => apply H; by eexists
  | H : is_Some None |- _ => by destruct H
  end.

(** The document a request is about to write, by request. *)
Lemma plan_shape tz R req c now store doc :
  plan tz R req c now store = Save doc \/ plan tz R req c now store = Create doc ->
  let k := (user_employee c, resolveDate tz R now) in
  (req = CheckIn /\ checkInPermitted R tz now
   /\ ((store !! k = None
        /\ doc = newAttendance (user_employee c) (resolveDate tz R now)
                   (mkPunch now (ip c)) (checkInStatus R tz now))
       \/ (exists a, store !! k = Some a /\ checkIn a = None
                     /\ doc = set_status (set_checkIn a (mkPunch now (ip c)))
                                (checkInStatus R tz now))))
  \/ (exists a, store !! k = Some a /\ is_Some (checkIn a)
      /\ ((req = CheckOut /\ checkOut a = None
           /\ doc = set_status (set_checkOut a (mkPunch now (ip c)))
                      (checkOutStatus R tz now (status a)))
          \/ (exists reason, req = BreakStart reason /\ checkOut a = None
                /\ list_find isOpen (breaks a) = None
                /\ doc = set_breaks a
                           (breaks a ++ [mkBreak now None None
                                           (reasonOrDefault reason)]))
          \/ (exists i b, req = BreakEnd
                /\ list_find isOpen (breaks a) = Some (i, b)
                /\ doc = set_breaks a (<[i := closeBreak now b]> (breaks a))))).
Proof.
  intros H k.
  assert (HcheckIn : forall st,
    hasCheckIn (store !! k) = false ->
    checkInWrite (store !! k) (user_employee c) (resolveDate tz R now)
      (mkPunch now (ip c)) st = Save doc
    \/ checkInWrite (store !! k) (user_employee c) (resolveDate tz R now)
         (mkPunch now (ip c)) st = Create doc ->
    (store !! k = None
     /\ doc = newAttendance (user_employee c) (resolveDate tz R now)
                (mkPunch now (ip c)) st)
    \/ (exists a, store !! k = Some a /\ checkIn a = None
                  /\ doc = set_status (set_checkIn a (mkPunch now (ip c))) st)).
  { intros st Hno. unfold checkInWrite. destruct (store !! k) as [a|] eqn:Hk.
    - intros [[= <-]|]; [|done]. right. exists a. split; [done|]. split; [|done].
      cbn in Hno. apply bool_decide_eq_false in Hno.
      destruct (checkIn a); [|done]. exfalso. apply Hno. by eexists.
    - intros [|[= <-]]; [done|]. by left. }
  assert (HcheckOut : forall rule,
    checkOut_with (resolveDate tz R) rule c now store = Save doc
    \/ checkOut_with (resolveDate tz R) rule c now store = Create doc ->
    exists a, store !! k = Some a /\ is_Some (checkIn a) /\ checkOut a = None
              /\ doc = set_status (set_checkOut a (mkPunch now (ip c)))
                         (rule now (status a))).
  { intros rule. unfold checkOut_with. fold k.
    destruct (store !! k) as [a|]; [|intros [|]; done].
    destruct (checkIn a) as [ci|] eqn:Hi, (checkOut a) as [co|] eqn:Ho;
      repeat case_bool_decide; cbn; try (intros [|]; done);
      try some_contra.
    intros [[= <-]|]; [|done]. exists a. rewrite Hi. eauto. }
  destruct req as [| |reason|].
  - left. split; [done|].
    destruct R; cbn [plan resolveDate checkInStatus checkInPermitted] in *.
    + unfold checkIn_day in H. fold k in H.
      destruct (hasCheckIn (store !! k)) eqn:Hno; [destruct H; done|].
      destruct (Z.leb_spec (setHours tz now 16 0 0 0) now); [destruct H; done|].
      split; [done|]. by apply HcheckIn.
    + unfold checkIn_night in H. fold k in H.
      destruct (inDeadZone tz now) eqn:Hz; [destruct H; done|].
      destruct (hasCheckIn (store !! k)) eqn:Hno; [destruct H; done|].
      split; [done|]. by apply HcheckIn.
  - right.
    assert (Hc : exists a, store !! k = Some a /\ is_Some (checkIn a)
                   /\ checkOut a = None
                   /\ doc = set_status (set_checkOut a (mkPunch now (ip c)))
                              (checkOutStatus R tz now (status a))).
    { destruct R; cbn [plan] in H; by apply HcheckOut. }
    destruct Hc as (a & Hk & Hi & Ho & Hd). exists a. eauto 10.
  - right.
    assert (H' : startBreak (resolveDate tz R) reason c now store = Save doc
                 \/ startBreak (resolveDate tz R) reason c now store = Create doc)
      by (destruct R; exact H).
    unfold startBreak in H'. fold k in H'.
    destruct (store !! k) as [a|]; [|destruct H'; done].
    destruct (checkIn a) as [ci|] eqn:Hi, (checkOut a) as [co|] eqn:Ho;
      repeat case_bool_decide; cbn in H'; try (destruct H'; done);
      try some_contra.
    destruct (list_find isOpen (breaks a)) as [[i b]|] eqn:Hf; [destruct H'; done|].
    destruct H' as [[= <-]|]; [|done].
    exists a. rewrite Hi. split; [done|]. split; [by eexists|].
    right. left. exists reason. done.
  - right.
    assert (H' : endBreak (resolveDate tz R) c now store = Save doc
                 \/ endBreak (resolveDate tz R) c now store = Create doc)
      by (destruct R; exact H).
    unfold endBreak in H'. fold k in H'.
    destruct (store !! k) as [a|]; [|destruct H'; done].
    destruct (checkIn a) as [ci|] eqn:Hi;
      repeat case_bool_decide; cbn in H'; try (destruct H'; done);
      try some_contra.
    destruct (list_find isOpen (breaks a)) as [[i b]|] eqn:Hf; [|destruct H'; done].
    destruct H' as [[= <-]|]; [|done].
    exists a. rewrite Hi. split; [done|]. split; [by eexists|].
    right. right. exists i, b. done.
Qed.

(** ** Invariants of the routes *)

Lemma hoursOfMs_lt ms1 ms2 : ms1 < ms2 -> (hoursOfMs ms1 < hoursOfMs ms2)%Q.
Proof.
  intros H. unfold hoursOfMs, Qlt.
  change (Qnum (inject_Z ms1 / inject_Z msPerHour)) with (ms1 * 1).
  change (Qnum (inject_Z ms2 / inject_Z msPerHour)) with (ms2 * 1).
  change (QDen (inject_Z ms1 / inject_Z msPerHour)) with 3600000.
  change (QDen (inject_Z ms2 / inject_Z msPerHour)) with 3600000.
  lia.
Qed.

Lemma hoursOfMs_pos ms : 0 < ms -> (0 < hoursOfMs ms)%Q.
Proof.
  intros H. unfold hoursOfMs, Qlt.
  change (Qnum (inject_Z ms / inject_Z msPerHour)) with (ms * 1).
  change (QDen (inject_Z ms / inject_Z msPerHour)) with 3600000.
  cbn [Qnum Qden]. lia.
Qed.

Lemma overtimeAfter_nonneg tz bm co : (0 <= overtimeAfter tz bm co)%Q.
Proof.
  unfold overtimeAfter.
  destruct (Z.ltb_spec (setHours tz (time co) 4 bm 0 0) (time co)); cbn [andb];
    [|apply Qle_refl].
  destruct (_ <? 12); [|apply Qle_refl].
  apply Qlt_le_weak, hoursOfMs_pos. lia.
Qed.

Lemma computeWorkingHours_nonneg ci co bs : (0 <= computeWorkingHours ci co bs)%Q.
Proof. unfold computeWorkingHours. apply Q.le_max_l. Qed.

(** The hooks keep [workingHours] and [overtime] non-negative. *)
Lemma preSave_hours_nonneg M tz a :
  (0 <= workingHours a)%Q /\ (0 <= overtime a)%Q ->
  (0 <= workingHours (preSave M tz a))%Q /\ (0 <= overtime (preSave M tz a))%Q.
Proof.
  intros [Hw Ho].
  destruct M; cbn [preSave];
    unfold preSave_night0400, preSave_night0405, preSave_night, preSave_day;
    destruct (checkIn a) as [ci|], (checkOut a) as [co|]; try done;
    cbn [workingHours overtime set_workingHours set_overtime].
  - destruct (Qlt_le_dec _ _) as [Hlt|Hle];
      cbn [workingHours overtime set_workingHours set_overtime].
    + split; [apply computeWorkingHours_nonneg|].
      apply Qlt_le_weak. rewrite <- (Qplus_opp_r 8).
      apply Qplus_lt_l. exact Hlt.
    + split; [apply computeWorkingHours_nonneg|done].
  - split; [apply computeWorkingHours_nonneg|apply overtimeAfter_nonneg].
  - split; [apply computeWorkingHours_nonneg|apply overtimeAfter_nonneg].
Qed.

Lemma recordSound_preSave R M tz a :
  recordSound R tz a -> recordSound R tz (preSave M tz a).
Proof.
  intros [Hci Hco Hbr Hlast Hh].
  destruct (preSave_frame M tz a) as (Ee & Ed & Ei & Eo & Es & Eb).
  split; rewrite ?Ed, ?Ei, ?Eo, ?Es, ?Eb; try done.
  by apply preSave_hours_nonneg.
Qed.

Lemma openOnlyLast_app_open bs b :
  list_find isOpen bs = None -> openOnlyLast (bs ++ [b]).
Proof.
  intros Hf i x Hi Hopen. rewrite length_app. cbn.
  destruct (decide (i < length bs)%nat) as [Hlt|Hge].
  - rewrite lookup_app_l in Hi by done.
    exfalso. apply list_find_None in Hf.
    apply (proj1 (Forall_lookup _ _) Hf i x Hi). exact Hopen.
  - apply lookup_lt_Some in Hi. rewrite length_app in Hi. cbn in Hi. lia.
Qed.

Lemma openOnlyLast_close bs i b t :
  openOnlyLast bs -> openOnlyLast (<[i := closeBreak t b]> bs).
Proof.
  intros Hlast j x Hj Hopen. rewrite length_insert.
  destruct (decide (i = j)) as [->|Hne].
  - apply list_lookup_insert_Some in Hj as [(_ & <- & _)|[? _]]; [|done].
    by apply closeBreak_closed in Hopen.
  - rewrite list_lookup_insert_ne in Hj by done. by apply (Hlast j x).
Qed.

(** One request keeps the invariant of its route module. *)
Lemma handle_routeInvariant tz R M req c now store :
  routeInvariant R tz store ->
  routeInvariant R tz (handle tz R M req c now store).2.
Proof.
  intros Inv. unfold handle.
  destruct (commit _ _ _ _ _) as [r store'] eqn:E. cbn.
  destruct (commit_store _ _ _ _ _ _ _ E)
    as [->|(doc & Hp & Hv & _ & ->)]; [done|].
  apply map_Forall_insert_2; [|done].
  rewrite preSave_key. split; [done|].
  apply recordSound_preSave.
  assert (Hrec : forall k a, store !! k = Some a -> key a = k /\ recordSound R tz a)
    by (intros k a Hk; exact (map_Forall_lookup_1 _ _ _ _ Inv Hk)).
  destruct (plan_shape _ _ _ _ _ _ _ Hp)
    as [(_ & Hperm & [[Hk ->]|(a & Hk & Hnone & _)])
       |(a & Hk & Hi & [(_ & Ho & ->)|[(reason & _ & Ho & Hf & ->)
                                     |(i & b & _ & Hf & ->)]])].
  - split; cbn.
    + eexists. split; [done|]. cbn. done.
    + done.
    + constructor.
    + intros i b Hi. done.
    + split; apply Qle_refl.
  - destruct (Hrec _ _ Hk) as [_ [(ci & Hci & _) _ _ _ _]]. congruence.
  - destruct (Hrec _ _ Hk) as [Hkey [(ci & Hci & Hd & Hperm & Hst) Hco Hbr Hlast Hh]].
    assert (Hdate : resolveDate tz R now = date a)
      by (unfold key in Hkey; congruence).
    split; cbn; try done.
    + exists ci. rewrite Hst, Ho. done.
    + intros co [= <-]. done.
  - destruct (Hrec _ _ Hk) as [Hkey [(ci & Hci & Hd & Hperm & Hst) Hco Hbr Hlast Hh]].
    assert (Hdate : resolveDate tz R now = date a)
      by (unfold key in Hkey; congruence).
    split; cbn; try done.
    + exists ci. done.
    + apply Forall_app. split; [done|]. repeat constructor; done.
    + by apply openOnlyLast_app_open.
  - destruct (Hrec _ _ Hk) as [Hkey [(ci & Hci & Hd & Hperm & Hst) Hco Hbr Hlast Hh]].
    assert (Hdate : resolveDate tz R now = date a)
      by (unfold key in Hkey; congruence).
    apply list_find_Some in Hf as (Hib & _ & _).
    split; cbn; try done.
    + exists ci. done.
    + apply Forall_insert; [done|]. cbn.
      split; [|intros e [= <-]; done].
      destruct (proj1 (Forall_lookup _ _) Hbr i b Hib) as [Hs _]. exact Hs.
    + by apply openOnlyLast_close.
Qed.

Lemma reachable_routeInvariant tz R M store :
  reachable tz R M store -> routeInvariant R tz store.
Proof.
  induction 1 as [|store req c now _ IH].
  - apply map_Forall_empty.
  - apply handle_routeInvariant. exact IH.
Qed.

Lemma reachable_recordSound tz R M store k a :
  reachable tz R M store -> store !! k = Some a ->
  key a = k /\ recordSound R tz a.
Proof.
  intros Hreach Hk. apply reachable_routeInvariant in Hreach.
  exact (map_Forall_lookup_1 _ _ _ _ Hreach Hk).
Qed.

(** The offsets from the record's date at which module [R] can take an
    instant that resolves to that date. *)
Lemma resolveDate_offset tz R t d :
  resolveDate tz R t = d ->
  match R with
  | DayShift => 0 <= t - d < msPerDay
  | NightShift => clock 18 0 <= t - d < clock 18 0 + msPerDay
  end.
Proof.
  intros <-. destruct R; cbn [resolveDate].
  - clock_arith.
  - rewrite getShiftDate_eq.
    destruct (Z.ltb_spec (getHours tz t) 18); clock_arith.
Qed.

Lemma checkIn_offset tz R t d :
  resolveDate tz R t = d -> checkInPermitted R tz t ->
  match R with
  | DayShift => 0 <= t - d < clock 16 0
  | NightShift => clock 18 0 <= t - d < clock 28 0
  end.
Proof.
  intros <- Hperm. destruct R; cbn [resolveDate checkInPermitted] in *.
  - clock_arith.
  - unfold inDeadZone in Hperm. rewrite getShiftDate_eq.
    destruct (Z.leb_spec 4 (getHours tz t)), (Z.ltb_spec (getHours tz t) 18);
      try discriminate; clock_arith.
Qed.

(** X5. Every time stored in a record belongs to the record's date. In
    a store the day-shift routes reach, the check-in lies in the first 16
    hours of the record's date and the check-out and the break times lie
    within that day. In a store the night-shift routes reach, the check-in
    lies between 18:00 of the record's date and 04:00 of the next day, and
    the check-out and the break times between 18:00 and 18:00 of the next
    day. No stored check-in lies in the window in which check-in is
    refused. *)
Theorem stored_times_in_shift tz R M store k a :
  reachable tz R M store -> store !! k = Some a ->
  let inShift t :=
    match R with
    | DayShift => 0 <= t - date a < msPerDay
    | NightShift => clock 18 0 <= t - date a < clock 18 0 + msPerDay
    end in
  (exists ci, checkIn a = Some ci
              /\ match R with
                 | DayShift => 0 <= time ci - date a < clock 16 0
                 | NightShift => clock 18 0 <= time ci - date a < clock 28 0
                 end)
  /\ (forall co, checkOut a = Some co -> inShift (time co))
  /\ Forall (fun b => inShift (startTime b)
                      /\ forall e, endTime b = Some e -> inShift e) (breaks a).
Proof.
  intros Hreach Hk inShift.
  destruct (reachable_recordSound _ _ _ _ _ _ Hreach Hk)
    as [_ [(ci & Hci & Hd & Hperm & _) Hco Hbr _ _]].
  assert (Hin : forall t, resolveDate tz R t = date a -> inShift t).
  { intros t Ht. subst inShift. apply (resolveDate_offset tz R t _ Ht). }
  split; [|split].
  - exists ci. split; [done|]. apply (checkIn_offset tz R _ _ Hd Hperm).
  - intros co Hc. apply Hin. by apply Hco.
  - eapply Forall_impl; [exact Hbr|]. cbn. intros b [Hs He].
    split; [by apply Hin|]. intros e Hend. apply Hin. by apply He.
Qed.

Lemma stored_times_in_shift_witness :
  let s1 := (handle tzPlus5 NightShift Night0405Model CheckIn caller1
               (localDate tzPlus5 2024 3 10 23 30) ∅).2 in
  let a := newAttendance 1 (localDate tzPlus5 2024 3 10 0 0)
             (mkPunch (localDate tzPlus5 2024 3 10 23 30) "10.0.0.7") "late" in
  reachable tzPlus5 NightShift Night0405Model s1
  /\ s1 !! (1%N, localDate tzPlus5 2024 3 10 0 0) = Some a
  /\ exists ci, checkIn a = Some ci
                /\ clock 18 0 <= time ci - date a < clock 28 0.
Proof.
  intros s1 a.
  assert (H1 : reachable tzPlus5 NightShift Night0405Model s1)
    by apply reachable_step, reachable_empty.
  assert (H2 : s1 !! (1%N, localDate tzPlus5 2024 3 10 0 0) = Some a)
    by (vm_compute; reflexivity).
  split; [exact H1|]. split; [exact H2|].
  exact (proj1 (stored_times_in_shift _ _ _ _ _ _ H1 H2)).
Defined.

Lemma checkInStatus_values R tz t :
  checkInStatus R tz t ∈ ["early"; "present"; "late"]%string.
Proof.
  destruct R; cbn [checkInStatus].
  - unfold checkInStatus_day. destruct (_ <? _); [|destruct (_ <=? _)]; enum_member.
  - unfold checkInStatus_night. destruct (_ && _); [|destruct (_ && _)]; enum_member.
Qed.

(** X6. The stored status is a function of the stored times. In every
    store the routes reach, the status of a record without check-out is
    the check-in rule applied to [checkIn.time], and the status of a record
    with a check-out is the check-out rule applied to [checkOut.time] and
    that check-in status. So the routes store no status outside 'early',
    'present', 'late', 'overtime', 'clocked-out' and 'early-clockout'; the
    schema default 'absent' is never stored by them. *)
Theorem stored_status_from_times tz R M store k a :
  reachable tz R M store -> store !! k = Some a ->
  exists ci,
    checkIn a = Some ci
    /\ status a = statusOf R tz ci (checkOut a)
    /\ status a ∈ ["early"; "present"; "late"; "overtime"; "clocked-out";
                    "early-clockout"]%string.
Proof.
  intros Hreach Hk.
  destruct (reachable_recordSound _ _ _ _ _ _ Hreach Hk)
    as [_ [(ci & Hci & _ & _ & Hst) _ _ _ _]].
  exists ci. split; [done|]. split; [done|]. rewrite Hst.
  pose proof (checkInStatus_values R tz (time ci)) as Hin.
  assert (Hsub : forall s, s ∈ ["early"; "present"; "late"]%string ->
                   s ∈ ["early"; "present"; "late"; "overtime"; "clocked-out";
                        "early-clockout"]%string).
  { intros s. rewrite !elem_of_cons, !elem_of_nil. tauto. }
  unfold statusOf. destruct (checkOut a) as [co|]; [|by apply Hsub].
  destruct R; cbn [checkOutStatus].
  - unfold checkOutStatus_day.
    destruct (_ <? _); [enum_member|]. destruct (_ && _); [enum_member|].
    by apply Hsub.
  - unfold checkOutStatus_night.
    destruct (getHours tz (time co) <? 12); [|by apply Hsub].
    destruct (_ <? _); [enum_member|]. destruct (_ && _); [enum_member|].
    destruct (_ <? _); enum_member.
Qed.

Lemma stored_status_from_times_witness :
  let s1 := (handle tzPlus5 NightShift Night0405Model CheckIn caller1
               (localDate tzPlus5 2024 3 10 23 30) ∅).2 in
  let a := newAttendance 1 (localDate tzPlus5 2024 3 10 0 0)
             (mkPunch (localDate tzPlus5 2024 3 10 23 30) "10.0.0.7") "late" in
  reachable tzPlus5 NightShift Night0405Model s1
  /\ s1 !! (1%N, localDate tzPlus5 2024 3 10 0 0) = Some a
  /\ exists ci, checkIn a = Some ci
                /\ status a = statusOf NightShift tzPlus5 ci (checkOut a).
Proof.
  intros s1 a.
  assert (H1 : reachable tzPlus5 NightShift Night0405Model s1)
    by apply reachable_step, reachable_empty.
  assert (H2 : s1 !! (1%N, localDate tzPlus5 2024 3 10 0 0) = Some a)
    by (vm_compute; reflexivity).
  split; [exact H1|]. split; [exact H2|].
  destruct (stored_status_from_times _ _ _ _ _ _ H1 H2) as (ci & Hci & Hst & _).
  exists ci. split; [exact Hci | exact Hst].
Defined.

(** X7. The stored [workingHours] and [overtime] are never negative, in
    every store the routes reach over every model variant. *)
Theorem stored_hours_nonneg tz R M store k a :
  reachable tz R M store -> store !! k = Some a ->
  (0 <= workingHours a)%Q /\ (0 <= overtime a)%Q.
Proof.
  intros Hreach Hk.
  destruct (reachable_recordSound _ _ _ _ _ _ Hreach Hk) as [_ [_ _ _ _ Hh]].
  exact Hh.
Qed.

Lemma stored_hours_nonneg_witness :
  let s1 := (handle tzPlus5 NightShift Night0405Model CheckIn caller1
               (localDate tzPlus5 2024 3 10 19 0) ∅).2 in
  let s2 := (handle tzPlus5 NightShift Night0405Model CheckOut caller1
               (localDate tzPlus5 2024 3 11 4 10) s1).2 in
  reachable tzPlus5 NightShift Night0405Model s2
  /\ exists a, s2 !! (1%N, localDate tzPlus5 2024 3 10 0 0) = Some a
               /\ (0 <= workingHours a)%Q /\ (0 <= overtime a)%Q.
Proof.
  intros s1 s2.
  assert (H1 : reachable tzPlus5 NightShift Night0405Model s2)
    by apply reachable_step, reachable_step, reachable_empty.
  split; [exact H1|]. eexists.
  assert (H2 : s2 !! (1%N, localDate tzPlus5 2024 3 10 0 0) = Some _)
    by (vm_compute; reflexivity).
  split; [exact H2|].
  exact (stored_hours_nonneg _ _ _ _ _ _ H1 H2).
Defined.

(** ** Outcomes of the requests *)

(** A handler replies early only with a rejection. *)
Lemma plan_reply tz R req c now store r :
  plan tz R req c now store = Reply r -> exists why, r = Rejected why.
Proof.
  assert (HcheckOut : forall resolve rule,
    checkOut_with resolve rule c now store = Reply r -> exists why, r = Rejected why).
  { intros resolve rule. unfold checkOut_with.
    destruct (store !! _) as [a|]; [|intros [= <-]; eauto].
    repeat case_bool_decide; cbn; intros [= <-]; eauto. }
  destruct req as [| |reason|], R; cbn [plan]; try apply HcheckOut.
  - unfold checkIn_day, checkInWrite. destruct (hasCheckIn _); [intros [= <-]; eauto|].
    destruct (_ <=? _); [intros [= <-]; eauto|]. destruct (store !! _); done.
  - unfold checkIn_night, checkInWrite. destruct (inDeadZone _ _); [intros [= <-]; eauto|].
    destruct (hasCheckIn _); [intros [= <-]; eauto|]. destruct (store !! _); done.
  - unfold startBreak. destruct (store !! _) as [a|]; [|intros [= <-]; eauto].
    repeat case_bool_decide; cbn; try (intros [= <-]; eauto).
    destruct (list_find _ _); [intros [= <-]; eauto|done].
  - unfold startBreak. destruct (store !! _) as [a|]; [|intros [= <-]; eauto].
    repeat case_bool_decide; cbn; try (intros [= <-]; eauto).
    destruct (list_find _ _); [intros [= <-]; eauto|done].
  - unfold endBreak. destruct (store !! _) as [a|]; [|intros [= <-]; eauto].
    repeat case_bool_decide; cbn; try (intros [= <-]; eauto).
    destruct (list_find _ _) as [[i b]|]; [done|intros [= <-]; eauto].
  - unfold endBreak. destruct (store !! _) as [a|]; [|intros [= <-]; eauto].
    repeat case_bool_decide; cbn; try (intros [= <-]; eauto).
    destruct (list_find _ _) as [[i b]|]; [done|intros [= <-]; eauto].
Qed.

(** A request that succeeds has written the hooked document it planned. *)
Lemma handle_success tz R M req c now store a store1 :
  handle tz R M req c now store = (Success a, store1) ->
  exists doc,
    (plan tz R req c now store = Save doc \/ plan tz R req c now store = Create doc)
    /\ validate M doc = None
    /\ a = preSave M tz doc
    /\ store1 = <[key doc := a]> store.
Proof.
  unfold handle. intros E.
  destruct (plan tz R req c now store) as [r|doc|doc] eqn:Hp.
  - destruct (plan_reply _ _ _ _ _ _ _ Hp) as [why ->]. cbn in E. done.
  - cbn [commit] in E. destruct (validate M doc) eqn:Hv.
    + rewrite (save_invalid _ _ _ _ _ Hv) in E. done.
    + rewrite (save_valid _ _ _ _ Hv) in E. injection E as <- <-.
      exists doc. eauto.
  - cbn [commit] in E. destruct (validate M doc) eqn:Hv.
    + rewrite (create_invalid _ _ _ _ _ Hv) in E. done.
    + destruct (store !! key doc) as [a0|] eqn:Hk.
      * rewrite create_duplicate in E by eauto. done.
      * rewrite create_fresh in E by done. injection E as <- <-.
        exists doc. eauto.
Qed.

Lemma save_commit M tz failure doc store :
  validate M doc = None ->
  commit M tz failure (Save doc) store
  = (Success (preSave M tz doc), <[key doc := preSave M tz doc]> store).
Proof. intros Hv. cbn [commit]. rewrite (save_valid _ _ _ _ Hv). done. Qed.

Lemma validate_reason M a :
  status a ∈ statusEnum M ->
  ~ Forall (fun b => reason b ∈ reasonEnum) (breaks a) ->
  validate M a = Some (ValidationError "breaks.reason").
Proof.
  intros Hs Hr. unfold validate, inEnum at 1.
  rewrite bool_decide_eq_true_2 by done. cbn [negb].
  destruct (forallb _ _) eqn:E; [|done].
  exfalso. apply Hr. by apply reasons_forallb.
Qed.

(** X8. A check-out is taken once: after a successful check-out, a
    further check-out of the same caller that resolves to the same date is
    rejected with AlreadyCheckedOut and changes nothing. *)
Theorem checkOut_twice tz R M c now1 now2 store a store1 :
  wellFormed M store ->
  handle tz R M CheckOut c now1 store = (Success a, store1) ->
  resolveDate tz R now2 = resolveDate tz R now1 ->
  handle tz R M CheckOut c now2 store1 = (Rejected AlreadyCheckedOut, store1).
Proof.
  intros Hwf H1 Hdate.
  destruct (handle_success _ _ _ _ _ _ _ _ _ H1) as (doc & Hp & Hv & -> & ->).
  destruct (plan_shape _ _ _ _ _ _ _ Hp)
    as [([=] & _)|(a0 & Hk & Hi & [(_ & Ho & ->)|[(? & [=] & _)|(? & ? & [=] & _)]])].
  destruct (wellFormed_lookup _ _ _ _ Hwf Hk) as (Hkey & _).
  set (doc := set_status _ _) in *.
  assert (Hkd : key doc = (user_employee c, resolveDate tz R now2))
    by (rewrite Hdate, <- Hkey; done).
  unfold handle. cbn [failureMessage].
  assert (E : plan tz R CheckOut c now2 (<[key doc := preSave M tz doc]> store)
              = Reply (Rejected AlreadyCheckedOut)).
  { assert (E' : forall rule,
      checkOut_with (resolveDate tz R) rule c now2
        (<[key doc := preSave M tz doc]> store)
      = Reply (Rejected AlreadyCheckedOut)).
    { intros rule. unfold checkOut_with. rewrite Hkd, lookup_insert_eq.
      destruct (preSave_frame M tz doc) as (_ & _ & -> & -> & _).
      subst doc. cbn [checkIn checkOut set_status set_checkOut].
      rewrite bool_decide_eq_true_2 by done. cbn [negb].
      rewrite bool_decide_eq_true_2 by (by eexists). done. }
    destruct R; apply E'. }
  rewrite E. done.
Qed.

Lemma checkOut_twice_witness :
  let s0 := (handle tzPlus5 NightShift Night0405Model CheckIn caller1
               (localDate tzPlus5 2024 3 10 19 0) ∅).2 in
  let r1 := handle tzPlus5 NightShift Night0405Model CheckOut caller1
              (localDate tzPlus5 2024 3 11 4 2) s0 in
  wellFormed Night0405Model s0
  /\ handle tzPlus5 NightShift Night0405Model CheckOut caller1
       (localDate tzPlus5 2024 3 11 4 30) r1.2
     = (Rejected AlreadyCheckedOut, r1.2).
Proof.
  intros s0 r1.
  assert (Hwf : wellFormed Night0405Model s0).
  { apply ledgerInvariant_wellFormed, handle_invariant, map_Forall_empty. }
  split; [exact Hwf|].
  refine (checkOut_twice tzPlus5 NightShift Night0405Model caller1
            (localDate tzPlus5 2024 3 11 4 2) (localDate tzPlus5 2024 3 11 4 30)
            s0 _ _ Hwf _ _).
  - vm_compute. reflexivity.
  - vm_compute. reflexivity.
Defined.

(** X9. Before a check-in nothing else is possible: when the caller has
    no record for the resolved date, check-out and break-end are rejected
    with NotCheckedIn and leave the store as it is, and GET /today reports
    no record, no active break, all flags false and zero working hours. *)
Theorem before_checkIn tz R M c now store :
  store !! (user_employee c, resolveDate tz R now) = None ->
  handle tz R M CheckOut c now store = (Rejected NotCheckedIn, store)
  /\ handle tz R M BreakEnd c now store = (Rejected NotCheckedIn, store)
  /\ todayStatus (resolveDate tz R) c now store
     = mkTodayStatus None false false false None (toFixed2 0)
  /\ (toFixed2 0 == 0)%Q.
Proof.
  intros Hk. split; [|split; [|split]].
  - unfold handle.
    assert (E : plan tz R CheckOut c now store = Reply (Rejected NotCheckedIn)).
    { assert (E' : forall rule, checkOut_with (resolveDate tz R) rule c now store
                                = Reply (Rejected NotCheckedIn))
        by (intros rule; unfold checkOut_with; by rewrite Hk).
      destruct R; apply E'. }
    rewrite E. done.
  - unfold handle. cbn [plan].
    pose proof (endBreak_rejections (resolveDate tz R) c now store) as H.
    rewrite Hk in H. rewrite H. done.
  - unfold todayStatus. rewrite Hk. done.
  - reflexivity.
Qed.

Lemma before_checkIn_witness :
  (∅ : Store) !! (user_employee caller1,
                  resolveDate tzPlus5 NightShift (localDate tzPlus5 2024 3 10 19 0))
  = None
  /\ handle tzPlus5 NightShift Night0405Model CheckOut caller1
       (localDate tzPlus5 2024 3 10 19 0) ∅
     = (Rejected NotCheckedIn, ∅).
Proof.
  split; [apply lookup_empty|].
  exact (proj1 (before_checkIn tzPlus5 NightShift Night0405Model caller1
                  (localDate tzPlus5 2024 3 10 19 0) ∅ (lookup_empty _))).
Defined.

(** X10. Starting a break on a checked-in record without check-out and
    without open break. The break is appended, open, with [startTime] the
    instant of the request and the given reason ('break' when the reason
    is missing or empty), and nothing else of the record changes. A reason
    outside washroom, lunch, cigarette, break fails validation: the route
    answers 500 and the break is not stored. *)
Theorem startBreak_outcome tz R M c now reason store a :
  wellFormed M store ->
  store !! (user_employee c, resolveDate tz R now) = Some a ->
  is_Some (checkIn a) -> checkOut a = None -> openBreaks (breaks a) = 0%nat ->
  let b := mkBreak now None None (reasonOrDefault reason) in
  let a' := set_breaks a (breaks a ++ [b]) in
  (reasonOrDefault reason ∈ reasonEnum ->
   handle tz R M (BreakStart reason) c now store
   = (Success a', <[(user_employee c, resolveDate tz R now) := a']> store)
   /\ openBreaks (breaks a') = 1%nat)
  /\ (reasonOrDefault reason ∉ reasonEnum ->
      handle tz R M (BreakStart reason) c now store
      = (ServerError "Error starting break" (ValidationError "breaks.reason"),
         store))
  /\ (reason = None \/ reason = Some ""%string ->
      reasonOrDefault reason = "break"%string).
Proof.
  intros Hwf Hk Hi Ho Hn b a'.
  destruct (wellFormed_lookup _ _ _ _ Hwf Hk) as (Hkey & Hs & Hr).
  assert (Hp : plan tz R (BreakStart reason) c now store = Save a').
  { cbn [plan]. unfold startBreak. rewrite Hk.
    rewrite bool_decide_eq_true_2 by done.
    rewrite bool_decide_eq_false_2 by (rewrite Ho; by intros [? ?]).
    cbn [negb]. apply list_find_isOpen_None in Hn. rewrite Hn. done. }
  unfold handle. rewrite Hp. cbn [failureMessage].
  split; [|split].
  - intros Hreason.
    assert (Hv : validate M a' = None).
    { apply validate_None. split; [done|]. cbn.
      apply Forall_app. split; [done|]. by apply Forall_singleton. }
    rewrite (save_commit _ _ _ _ _ Hv).
    rewrite preSave_no_checkOut by done.
    replace (key a') with (user_employee c, resolveDate tz R now)
      by (rewrite <- Hkey; done).
    split; [done|]. subst a'. cbn [breaks set_breaks].
    rewrite openBreaks_app, Hn.
    rewrite openBreaks_cons, decide_True by done. done.
  - intros Hreason. cbn [commit].
    rewrite (save_invalid _ _ _ _ (ValidationError "breaks.reason")); [done|].
    apply validate_reason; [done|]. cbn. intros Hall.
    rewrite Forall_app, Forall_singleton in Hall.
    destruct Hall as [_ Hall]. exact (Hreason Hall).
  - intros [-> | ->]; done.
Qed.

Lemma startBreak_outcome_witness :
  let s0 := (handle tzPlus5 NightShift Night0405Model CheckIn caller1
               (localDate tzPlus5 2024 3 10 19 0) ∅).2 in
  let a := newAttendance 1 (localDate tzPlus5 2024 3 10 0 0)
             (mkPunch (localDate tzPlus5 2024 3 10 19 0) "10.0.0.7") "present" in
  wellFormed Night0405Model s0
  /\ handle tzPlus5 NightShift Night0405Model (BreakStart (Some "nap"%string))
       caller1 (localDate tzPlus5 2024 3 10 23 0) s0
     = (ServerError "Error starting break" (ValidationError "breaks.reason"), s0).
Proof.
  intros s0 a.
  assert (Hwf : wellFormed Night0405Model s0).
  { apply ledgerInvariant_wellFormed, handle_invariant, map_Forall_empty. }
  split; [exact Hwf|].
  refine (proj1 (proj2 (startBreak_outcome tzPlus5 NightShift Night0405Model
                          caller1 (localDate tzPlus5 2024 3 10 23 0)
                          (Some "nap"%string) s0 a Hwf _ _ _ _)) _).
  - vm_compute. reflexivity.
  - by eexists.
  - reflexivity.
  - reflexivity.
  - cbn. enum_absent.
Defined.

Lemma list_find_isOpen_last bs b :
  list_find isOpen bs = None -> isOpen b ->
  list_find isOpen (bs ++ [b]) = Some (length bs, b).
Proof.
  intros Hf Hb. apply list_find_Some. split; [|split].
  - rewrite lookup_app_r by done. by rewrite Nat.sub_diag.
  - done.
  - intros j y Hj Hlt. rewrite lookup_app_l in Hj by done.
    apply list_find_None in Hf.
    exact (proj1 (Forall_lookup _ _) Hf j y Hj).
Qed.

Lemma insert_last (bs : list Break) b x :
  <[length bs := x]> (bs ++ [b]) = bs ++ [x].
Proof.
  rewrite insert_app_r_alt by done. by rewrite Nat.sub_diag.
Qed.

(** X11. A break that is started and then ended is stored closed: after
    a successful break-start at [t1], a break-end at [t2] that resolves to
    the same date succeeds, and the record's last break carries
    [endTime = t2] and [duration] the whole minutes from [t1] to [t2];
    no break is left open. *)
Theorem break_round_trip tz R M c t1 t2 reason store a :
  wellFormed M store ->
  store !! (user_employee c, resolveDate tz R t1) = Some a ->
  is_Some (checkIn a) -> checkOut a = None -> openBreaks (breaks a) = 0%nat ->
  reasonOrDefault reason ∈ reasonEnum ->
  resolveDate tz R t2 = resolveDate tz R t1 ->
  let started := (handle tz R M (BreakStart reason) c t1 store).2 in
  let minutes := (t2 - t1) / msPerMinute in
  let a2 := set_breaks a (breaks a ++ [mkBreak t1 (Some t2) (Some minutes)
                                         (reasonOrDefault reason)]) in
  handle tz R M BreakEnd c t2 started
  = (Success a2, <[(user_employee c, resolveDate tz R t1) := a2]> started)
  /\ openBreaks (breaks a2) = 0%nat
  /\ minutes * msPerMinute <= t2 - t1 < (minutes + 1) * msPerMinute.
Proof.
  intros Hwf Hk Hi Ho Hn Hreason Hdate started minutes a2.
  destruct (wellFormed_lookup _ _ _ _ Hwf Hk) as (Hkey & Hs & Hr).
  destruct (startBreak_outcome tz R M c t1 reason store a Hwf Hk Hi Ho Hn)
    as [Hstart _].
  destruct (Hstart Hreason) as [E1 _]. subst started. rewrite E1. cbn [snd].
  set (b := mkBreak t1 None None (reasonOrDefault reason)) in *.
  set (a1 := set_breaks a (breaks a ++ [b])) in *.
  set (k := (user_employee c, resolveDate tz R t1)) in *.
  assert (Hfind : list_find isOpen (breaks a ++ [b]) = Some (length (breaks a), b)).
  { apply list_find_isOpen_last; [|done]. by apply list_find_isOpen_None. }
  assert (Hp : plan tz R BreakEnd c t2 (<[k := a1]> store) = Save a2).
  { cbn [plan]. unfold endBreak. rewrite Hdate. fold k.
    rewrite lookup_insert_eq. unfold a1. cbn [checkIn set_breaks breaks].
    rewrite bool_decide_eq_true_2 by done. cbn [negb].
    rewrite Hfind. rewrite insert_last. done. }
  split; [|split].
  - unfold handle. rewrite Hp. cbn [failureMessage].
    assert (Hv : validate M a2 = None).
    { apply validate_None. split; [done|]. cbn.
      apply Forall_app. split; [done|]. by apply Forall_singleton. }
    rewrite (save_commit _ _ _ _ _ Hv).
    rewrite preSave_no_checkOut by done.
    replace (key a2) with k by (subst k; rewrite <- Hkey; done). done.
  - subst a2. cbn [breaks set_breaks]. rewrite openBreaks_app, Hn.
    rewrite openBreaks_cons, decide_False by done. done.
  - subst minutes. unfold msPerMinute. Z.to_euclidean_division_equations. lia.
Qed.

Lemma break_round_trip_witness :
  let s0 := (handle tzPlus5 NightShift Night0405Model CheckIn caller1
               (localDate tzPlus5 2024 3 10 19 0) ∅).2 in
  let started := (handle tzPlus5 NightShift Night0405Model
                    (BreakStart (Some "lunch"%string)) caller1
                    (localDate tzPlus5 2024 3 10 23 0) s0).2 in
  let a := newAttendance 1 (localDate tzPlus5 2024 3 10 0 0)
             (mkPunch (localDate tzPlus5 2024 3 10 19 0) "10.0.0.7") "present" in
  let a2 := set_breaks a [mkBreak (localDate tzPlus5 2024 3 10 23 0)
                            (Some (localDate tzPlus5 2024 3 10 23 30))
                            (Some 30) "lunch"] in
  wellFormed Night0405Model s0
  /\ handle tzPlus5 NightShift Night0405Model BreakEnd caller1
       (localDate tzPlus5 2024 3 10 23 30) started
     = (Success a2, <[(1%N, localDate tzPlus5 2024 3 10 0 0) := a2]> started).
Proof.
  intros s0 started a a2.
  assert (Hwf : wellFormed Night0405Model s0).
  { apply ledgerInvariant_wellFormed, handle_invariant, map_Forall_empty. }
  split; [exact Hwf|].
  refine (proj1 (break_round_trip tzPlus5 NightShift Night0405Model caller1
                   (localDate tzPlus5 2024 3 10 23 0)
                   (localDate tzPlus5 2024 3 10 23 30)
                   (Some "lunch"%string) s0 a Hwf _ _ _ _ _ _)).
  - vm_compute. reflexivity.
  - by eexists.
  - reflexivity.
  - reflexivity.
  - cbn. enum_member.
  - vm_compute. reflexivity.
Defined.

(** What the hooks store on a record with both times set. *)
Lemma preSave_workingHours M tz a ci co :
  checkIn a = Some ci -> checkOut a = Some co ->
  workingHours (preSave M tz a) = computeWorkingHours ci co (breaks a)
  /\ (M <> DayModel ->
      overtime (preSave M tz a)
      = overtimeAfter tz (match M with Night0400Model => 0 | _ => 5 end) co).
Proof.
  intros Hi Ho.
  destruct M; cbn [preSave];
    unfold preSave_night0400, preSave_night0405, preSave_night, preSave_day;
    rewrite Hi, Ho; cbn [workingHours set_workingHours].
  - destruct (Qlt_le_dec _ _); done.
  - done.
  - done.
Qed.

(** X12. Ending a break is not closed by a check-out. On a record with a
    check-out and an open break, break-end succeeds: it closes the break,
    leaves the check-out as it is, and the save stores [workingHours]
    anew from the stored times and the breaks including the one just
    closed. *)
Theorem endBreak_after_checkOut tz R M c now store a ci co i b :
  wellFormed M store ->
  store !! (user_employee c, resolveDate tz R now) = Some a ->
  checkIn a = Some ci -> checkOut a = Some co ->
  list_find isOpen (breaks a) = Some (i, b) ->
  exists a',
    handle tz R M BreakEnd c now store
    = (Success a', <[(user_employee c, resolveDate tz R now) := a']> store)
    /\ checkOut a' = Some co
    /\ breaks a' = <[i := closeBreak now b]> (breaks a)
    /\ workingHours a' = computeWorkingHours ci co (breaks a').
Proof.
  intros Hwf Hk Hi Ho Hf.
  destruct (wellFormed_lookup _ _ _ _ Hwf Hk) as (Hkey & Hs & Hr).
  set (doc := set_breaks a (<[i := closeBreak now b]> (breaks a))).
  assert (Hp : plan tz R BreakEnd c now store = Save doc).
  { cbn [plan]. unfold endBreak. rewrite Hk.
    rewrite bool_decide_eq_true_2 by (rewrite Hi; by eexists).
    cbn [negb]. rewrite Hf. done. }
  assert (Hv : validate M doc = None).
  { apply validate_None. split; [done|]. cbn.
    apply Forall_insert; [done|]. cbn.
    apply list_find_Some in Hf as (Hib & _).
    exact (proj1 (Forall_lookup _ _) Hr i b Hib). }
  exists (preSave M tz doc). unfold handle. rewrite Hp.
  rewrite (save_commit _ _ _ _ _ Hv).
  replace (key doc) with (user_employee c, resolveDate tz R now)
    by (rewrite <- Hkey; done).
  split; [done|].
  destruct (preSave_frame M tz doc) as (_ & _ & _ & -> & _ & ->).
  split; [done|]. split; [done|].
  apply (preSave_workingHours M tz doc ci co); done.
Qed.

Lemma endBreak_after_checkOut_witness :
  let s1 := (handle tzPlus5 NightShift Night0405Model CheckIn caller1
               (localDate tzPlus5 2024 3 10 19 0) ∅).2 in
  let s2 := (handle tzPlus5 NightShift Night0405Model (BreakStart None) caller1
               (localDate tzPlus5 2024 3 11 3 0) s1).2 in
  let s3 := (handle tzPlus5 NightShift Night0405Model CheckOut caller1
               (localDate tzPlus5 2024 3 11 4 2) s2).2 in
  wellFormed Night0405Model s3
  /\ exists a',
       handle tzPlus5 NightShift Night0405Model BreakEnd caller1
         (localDate tzPlus5 2024 3 11 5 0) s3
       = (Success a',
          <[(1%N, resolveDate tzPlus5 NightShift (localDate tzPlus5 2024 3 11 5 0))
            := a']> s3).
Proof.
  intros s1 s2 s3.
  assert (Hwf : wellFormed Night0405Model s3).
  { apply ledgerInvariant_wellFormed.
    do 3 apply handle_invariant. apply map_Forall_empty. }
  split; [exact Hwf|].
  edestruct (endBreak_after_checkOut tzPlus5 NightShift Night0405Model caller1
               (localDate tzPlus5 2024 3 11 5 0) s3) as (a' & Ha & _).
  - exact Hwf.
  - vm_compute. reflexivity.
  - reflexivity.
  - reflexivity.
  - vm_compute. reflexivity.
  - exists a'. exact Ha.
Defined.

(** X13. A successful check-out stores the derived working hours: for
    every model variant the stored [workingHours] is
    max(0, (now - checkIn.time) / 3600000 - breakHours) over the record's
    breaks, and the check-out carries the instant and the caller's
    address. *)
Theorem checkOut_stores_hours tz R M c now store a a' store' ci :
  wellFormed M store ->
  store !! (user_employee c, resolveDate tz R now) = Some a ->
  checkIn a = Some ci ->
  handle tz R M CheckOut c now store = (Success a', store') ->
  checkOut a' = Some (mkPunch now (ip c))
  /\ workingHours a'
     = Qmax 0 (hoursOfMs (now - time ci) - breakHours (breaks a))
  /\ store' !! (user_employee c, resolveDate tz R now) = Some a'.
Proof.
  intros Hwf Hk Hi H.
  destruct (handle_success _ _ _ _ _ _ _ _ _ H) as (doc & Hp & Hv & -> & ->).
  destruct (plan_shape _ _ _ _ _ _ _ Hp)
    as [([=] & _)|(a0 & Hk0 & _ & [(_ & Ho & ->)|[(? & [=] & _)|(? & ? & [=] & _)]])].
  rewrite Hk in Hk0. injection Hk0 as <-.
  destruct (wellFormed_lookup _ _ _ _ Hwf Hk) as (Hkey & _).
  set (doc := set_status _ _).
  destruct (preSave_frame M tz doc) as (_ & _ & _ & -> & _).
  split; [done|]. split.
  - apply (preSave_workingHours M tz doc ci (mkPunch now (ip c))); done.
  - replace (key doc) with (user_employee c, resolveDate tz R now)
      by (rewrite <- Hkey; done).
    apply lookup_insert_eq.
Qed.

Lemma checkOut_stores_hours_witness :
  let s1 := (handle tzPlus5 NightShift Night0405Model CheckIn caller1
               (localDate tzPlus5 2024 3 10 19 0) ∅).2 in
  let r := handle tzPlus5 NightShift Night0405Model CheckOut caller1
             (localDate tzPlus5 2024 3 11 4 10) s1 in
  wellFormed Night0405Model s1
  /\ exists a', r.1 = Success a'
                /\ (workingHours a' == 55 # 6)%Q.
Proof.
  intros s1 r.
  assert (Hwf : wellFormed Night0405Model s1).
  { apply ledgerInvariant_wellFormed, handle_invariant, map_Forall_empty. }
  split; [exact Hwf|].
  assert (Hr : exists a' store', r = (Success a', store')).
  { eexists _, _. vm_compute. reflexivity. }
  destruct Hr as (a' & store' & Hr). exists a'. split; [by rewrite Hr|].
  destruct (checkOut_stores_hours tzPlus5 NightShift Night0405Model caller1
              (localDate tzPlus5 2024 3 11 4 10) s1
              (newAttendance 1 (localDate tzPlus5 2024 3 10 0 0)
                 (mkPunch (localDate tzPlus5 2024 3 10 19 0) "10.0.0.7") "present")
              a' store'
              (mkPunch (localDate tzPlus5 2024 3 10 19 0) "10.0.0.7") Hwf)
    as (_ & Hw & _).
  - vm_compute. reflexivity.
  - reflexivity.
  - exact Hr.
  - rewrite Hw. vm_compute. reflexivity.
Defined.

(** ** The overtime rule of the night-shift models *)

Lemma overtimeAfter_cases tz bm co :
  let t := timeWithinDay tz (time co) in
  (clock 4 bm < t < clock 12 0 ->
   overtimeAfter tz bm co = hoursOfMs (t - clock 4 bm)
   /\ (0 < overtimeAfter tz bm co)%Q)
  /\ (~ clock 4 bm < t < clock 12 0 -> overtimeAfter tz bm co = 0%Q).
Proof.
  cbv zeta. unfold overtimeAfter.
  destruct (Z.ltb_spec (setHours tz (time co) 4 bm 0 0) (time co)),
    (Z.ltb_spec (getHours tz (time co)) 12); cbn [andb]; split; intros Ht;
    try reflexivity; try (exfalso; clock_arith).
  replace (time co - setHours tz (time co) 4 bm 0 0)
    with (timeWithinDay tz (time co) - clock 4 bm) by clock_arith.
  split; [reflexivity|]. apply hoursOfMs_pos. lia.
Qed.

Lemma overtimeAfter_pos_iff tz bm co :
  (0 < overtimeAfter tz bm co)%Q
  <-> clock 4 bm < timeWithinDay tz (time co) < clock 12 0.
Proof.
  destruct (overtimeAfter_cases tz bm co) as [Hin Hout]. split.
  - intros Hpos.
    destruct (decide (clock 4 bm < timeWithinDay tz (time co) < clock 12 0))
      as [|Hn]; [done|].
    rewrite (Hout Hn) in Hpos. by apply Qlt_irrefl in Hpos.
  - intros Ht. by apply Hin.
Qed.

(** X14. Policy B is bounded: whatever the check-out time, the overtime
    the night-shift hooks derive is at least 0 and below 8 hours, and the
    variant with the 4:05 boundary never derives more than the variant
    with the 4:00 boundary. *)
Theorem policyB_overtime_bounds tz co :
  (0 <= overtimeAfter tz 0 co < 8)%Q
  /\ (0 <= overtimeAfter tz 5 co < 8)%Q
  /\ (overtimeAfter tz 5 co <= overtimeAfter tz 0 co)%Q.
Proof.
  assert (H8 : (hoursOfMs (8 * msPerHour) == 8)%Q) by reflexivity.
  assert (Hb : forall bm, 0 <= bm < 60 -> (0 <= overtimeAfter tz bm co < 8)%Q).
  { intros bm Hbm. split; [apply overtimeAfter_nonneg|].
    destruct (overtimeAfter_cases tz bm co) as [Hin Hout].
    destruct (decide (clock 4 bm < timeWithinDay tz (time co) < clock 12 0))
      as [Ht|Hn].
    - destruct (Hin Ht) as [-> _]. rewrite <- H8. apply hoursOfMs_lt.
      unfold clock, msPerHour, msPerMinute in *. lia.
    - rewrite (Hout Hn). reflexivity. }
  split; [apply Hb; lia|]. split; [apply Hb; lia|].
  destruct (overtimeAfter_cases tz 5 co) as [Hin5 Hout5].
  destruct (overtimeAfter_cases tz 0 co) as [Hin0 _].
  destruct (decide (clock 4 5 < timeWithinDay tz (time co) < clock 12 0))
    as [Ht|Hn].
  - destruct (Hin5 Ht) as [-> _]. destruct Hin0 as [-> _].
    { unfold clock, msPerHour, msPerMinute in *. lia. }
    apply Qlt_le_weak, hoursOfMs_lt.
    unfold clock, msPerHour, msPerMinute. lia.
  - rewrite (Hout5 Hn). apply overtimeAfter_nonneg.
Qed.

(** X15. The save hooks are idempotent: running the hook of any model
    variant on a document it has already run on changes nothing, so a save
    that touches no time and no break stores the same hours again. *)
Theorem preSave_idempotent M tz a :
  preSave M tz (preSave M tz a) = preSave M tz a.
Proof.
  destruct (checkIn a) as [ci|] eqn:Hi, (checkOut a) as [co|] eqn:Ho.
  - destruct M; cbn [preSave].
    + apply (preSave_day_spec tz a ci co Hi Ho).
    + unfold preSave_night0400, preSave_night. rewrite Hi, Ho. cbn.
      rewrite Hi, Ho. done.
    + unfold preSave_night0405, preSave_night. rewrite Hi, Ho. cbn.
      rewrite Hi, Ho. done.
  - by rewrite (preSave_no_checkOut M tz a Ho), (preSave_no_checkOut M tz a Ho).
  - assert (E : preSave M tz a = a).
    { destruct M; cbn [preSave];
        unfold preSave_night0400, preSave_night0405, preSave_night, preSave_day;
        by rewrite Hi. }
    by rewrite E, E.
  - by rewrite (preSave_no_checkOut M tz a Ho), (preSave_no_checkOut M tz a Ho).
Qed.

(** X16. Under the model with the 4:05 boundary the status and the
    overtime of a night-shift check-out agree: the stored overtime is
    positive exactly when the local check-out time is after 04:05 and
    before noon, which is exactly when the stored status is 'overtime'. *)
Theorem night0405_overtime_matches_status tz c now store a a' store' :
  store !! (user_employee c, getShiftDate tz now) = Some a ->
  status a <> "overtime"%string ->
  handle tz NightShift Night0405Model CheckOut c now store = (Success a', store') ->
  ((0 < overtime a')%Q <-> clock 4 5 < timeWithinDay tz now < clock 12 0)
  /\ ((0 < overtime a')%Q <-> status a' = "overtime"%string).
Proof.
  intros Hk Hprior H.
  destruct (handle_success _ _ _ _ _ _ _ _ _ H) as (doc & Hp & Hv & -> & ->).
  destruct (plan_shape _ _ _ _ _ _ _ Hp)
    as [([=] & _)|(a0 & Hk0 & [ci Hi] & [(_ & Ho & ->)
                                       |[(? & [=] & _)|(? & ? & [=] & _)]])].
  cbn [resolveDate] in Hk0. rewrite Hk in Hk0. injection Hk0 as <-.
  set (doc := set_status _ _).
  destruct (preSave_workingHours Night0405Model tz doc ci (mkPunch now (ip c)))
    as [_ Hot]; [done..|].
  rewrite Hot by done.
  destruct (preSave_frame Night0405Model tz doc) as (_ & _ & _ & _ & -> & _).
  subst doc. cbn [status set_status checkOutStatus].
  pose proof (overtimeAfter_pos_iff tz 5 (mkPunch now (ip c))) as Hpos.
  cbn [time] in Hpos. split; [exact Hpos|]. rewrite Hpos.
  destruct (checkOutStatus_night_cases tz now (status a))
    as (H1 & H2 & H3 & H4 & H5).
  split.
  - intros Ht. by apply H4.
  - intros Hst.
    destruct (decide (timeWithinDay tz now < clock 3 55)) as [Ha|Ha];
      [rewrite (H1 Ha) in Hst; done|].
    destruct (decide (timeWithinDay tz now < clock 4 0)) as [Hb|Hb];
      [rewrite H2 in Hst by lia; done|].
    destruct (decide (timeWithinDay tz now <= clock 4 5)) as [Hc|Hc];
      [rewrite H3 in Hst by lia; done|].
    destruct (decide (timeWithinDay tz now < clock 12 0)) as [Hd|Hd];
      [lia|].
    rewrite H5 in Hst by lia. done.
Qed.

Lemma night0405_overtime_matches_status_witness :
  let s1 := (handle tzPlus5 NightShift Night0405Model CheckIn caller1
               (localDate tzPlus5 2024 3 10 19 0) ∅).2 in
  let now := localDate tzPlus5 2024 3 11 4 10 in
  exists a',
    (handle tzPlus5 NightShift Night0405Model CheckOut caller1 now s1).1 = Success a'
    /\ ((0 < overtime a')%Q <-> status a' = "overtime"%string).
Proof.
  intros s1 now.
  assert (Hr : exists a' store',
             handle tzPlus5 NightShift Night0405Model CheckOut caller1 now s1
             = (Success a', store')).
  { eexists _, _. vm_compute. reflexivity. }
  destruct Hr as (a' & store' & Hr). exists a'. split; [by rewrite Hr|].
  refine (proj2 (night0405_overtime_matches_status tzPlus5 caller1 now s1
                   (newAttendance 1 (localDate tzPlus5 2024 3 10 0 0)
                      (mkPunch (localDate tzPlus5 2024 3 10 19 0) "10.0.0.7")
                      "present") a' store' _ _ Hr)).
  - vm_compute. reflexivity.
  - discriminate.
Defined.

(** X17. Under the model with the 4:00 boundary the night-shift routes
    and the model disagree. A check-out before 03:55 is classified
    'early-clockout', which that model's status enum does not list: the
    save fails validation, the route answers 500 and no check-out is
    stored. A check-out after 04:00 and up to 04:05 is stored with status
    'clocked-out' and a positive overtime, the time since 04:00. *)
Theorem night0400_checkOut tz c now store a :
  wellFormed Night0400Model store ->
  store !! (user_employee c, getShiftDate tz now) = Some a ->
  is_Some (checkIn a) -> checkOut a = None ->
  let t := timeWithinDay tz now in
  (t < clock 3 55 ->
   handle tz NightShift Night0400Model CheckOut c now store
   = (ServerError "Error checking out" (ValidationError "status"), store))
  /\ (clock 4 0 < t <= clock 4 5 ->
      exists a',
        handle tz NightShift Night0400Model CheckOut c now store
        = (Success a', <[(user_employee c, getShiftDate tz now) := a']> store)
        /\ status a' = "clocked-out"%string
        /\ overtime a' = hoursOfMs (t - clock 4 0)
        /\ (0 < overtime a')%Q).
Proof.
  intros Hwf Hk Hi Ho t.
  destruct (checkOut_with_commit Night0400Model tz "Error checking out"
              (getShiftDate tz) (checkOutStatus_night tz) c now store a
              Hwf Hk Hi Ho) as [Hok Hbad].
  destruct (checkOutStatus_night_cases tz now (status a))
    as (H1 & _ & H3 & _).
  split.
  - intros Ht. apply Hbad. rewrite (H1 Ht). enum_absent.
  - intros Ht. destruct Hok as (a' & Hc & Hst & Hci & Hco & _).
    { rewrite H3 by (subst t; lia). enum_member. }
    exists a'. split; [exact Hc|]. split; [rewrite Hst; apply H3; subst t; lia|].
    destruct (handle_success tz NightShift Night0400Model CheckOut c now store a' _ Hc)
      as (doc & Hp & _ & -> & _).
    destruct Hi as [ci Hi].
    destruct (preSave_frame Night0400Model tz doc) as (_ & _ & Ei & Eo & _).
    rewrite Ei, Hi in Hci. rewrite Eo in Hco.
    destruct (preSave_workingHours Night0400Model tz doc ci (mkPunch now (ip c)))
      as [_ Hot]; [done..|].
    rewrite Hot by done.
    destruct (overtimeAfter_cases tz 0 (mkPunch now (ip c))) as [Hin _].
    cbn [time] in Hin. apply Hin. subst t.
    unfold clock, msPerHour, msPerMinute in *. lia.
Qed.

Lemma night0400_checkOut_witness :
  let s1 := (handle tzPlus5 NightShift Night0400Model CheckIn caller1
               (localDate tzPlus5 2024 3 10 19 0) ∅).2 in
  wellFormed Night0400Model s1
  /\ handle tzPlus5 NightShift Night0400Model CheckOut caller1
       (localDate tzPlus5 2024 3 11 2 0) s1
     = (ServerError "Error checking out" (ValidationError "status"), s1).
Proof.
  intros s1.
  assert (Hwf : wellFormed Night0400Model s1).
  { apply ledgerInvariant_wellFormed, handle_invariant, map_Forall_empty. }
  split; [exact Hwf|].
  refine (proj1 (night0400_checkOut tzPlus5 caller1
                   (localDate tzPlus5 2024 3 11 2 0) s1
                   (newAttendance 1 (localDate tzPlus5 2024 3 10 0 0)
                      (mkPunch (localDate tzPlus5 2024 3 10 19 0) "10.0.0.7")
                      "present") Hwf _ _ _) _).
  - vm_compute. reflexivity.
  - by eexists.
  - reflexivity.
  - vm_compute. reflexivity.
Defined.

(** ** GET /today *)

Lemma fold_breakMinutes_closed now bs accQ accZ :
  Forall (fun b => ~ isOpen b) bs -> (accQ == inject_Z accZ)%Q ->
  (fold_left (fun total b =>
                match endTime b with
                | Some _ => (total + inject_Z (orZero (duration b)))%Q
                | None =>
                    (total + inject_Z (now - startTime b) / inject_Z msPerMinute)%Q
                end) bs accQ
   == inject_Z (fold_left (fun total b => (total + orZero (duration b))%Z) bs accZ))%Q.
Proof.
  revert accQ accZ. induction bs as [|b bs IH]; intros accQ accZ Hall Hacc; [done|].
  apply Forall_cons in Hall as [Hb Hall]. cbn [fold_left].
  apply IH; [done|]. unfold isOpen in Hb.
  destruct (endTime b); [|done]. rewrite inject_Z_plus, Hacc. reflexivity.
Qed.

Lemma fold_breakMinutes_le now bs accQ accZ :
  Forall (fun b => isOpen b -> duration b = None /\ startTime b <= now) bs ->
  (inject_Z accZ <= accQ)%Q ->
  (inject_Z (fold_left (fun total b => (total + orZero (duration b))%Z) bs accZ)
   <= fold_left (fun total b =>
                   match endTime b with
                   | Some _ => (total + inject_Z (orZero (duration b)))%Q
                   | None =>
                       (total + inject_Z (now - startTime b) / inject_Z msPerMinute)%Q
                   end) bs accQ)%Q.
Proof.
  revert accQ accZ. induction bs as [|b bs IH]; intros accQ accZ Hall Hacc; [done|].
  apply Forall_cons in Hall as [Hb Hall]. cbn [fold_left].
  apply IH; [done|]. unfold isOpen in Hb.
  destruct (endTime b).
  - rewrite inject_Z_plus. lra.
  - destruct (Hb eq_refl) as [-> Hstart]. cbn [orZero]. rewrite Z.add_0_r.
    assert (0 <= inject_Z (now - startTime b) / inject_Z msPerMinute)%Q.
    { apply Qle_shift_div_l; [reflexivity|]. rewrite Qmult_0_l.
      rewrite <- (Zle_Qle 0). lia. }
    lra.
Qed.

(** X18. The live estimate of GET /today agrees with the save hook.
    For a record that is checked in and not checked out, when no break is
    open the working hours the route computes at [now] are the working
    hours a check-out at [now] would store; when a break is open (started
    at or before [now]) the route also subtracts the running break, so its
    estimate is at most that value. *)
Theorem liveWorkingHours_vs_hook now a ci addr :
  checkIn a = Some ci -> checkOut a = None ->
  (openBreaks (breaks a) = 0%nat ->
   (liveWorkingHours now (Some a)
    == computeWorkingHours ci (mkPunch now addr) (breaks a))%Q)
  /\ (Forall (fun b => isOpen b -> duration b = None /\ startTime b <= now)
        (breaks a) ->
      (liveWorkingHours now (Some a)
       <= computeWorkingHours ci (mkPunch now addr) (breaks a))%Q).
Proof.
  intros Hi Ho. unfold liveWorkingHours. rewrite Hi, Ho.
  unfold computeWorkingHours, elapsedHours. cbn [time].
  unfold liveBreakHours, breakHours, liveBreakMinutes, totalBreakMinutes.
  split.
  - intros Hn. apply list_find_isOpen_None, list_find_None in Hn.
    destruct (breaks a) as [|b bs] eqn:Eb; [reflexivity|].
    apply Q.max_compat; [reflexivity|].
    rewrite (fold_breakMinutes_closed now (b :: bs) 0 0 Hn); reflexivity.
  - intros Hall.
    destruct (breaks a) as [|b bs] eqn:Eb; [apply Qle_refl|].
    apply Q.max_le_compat_l.
    pose proof (fold_breakMinutes_le now (b :: bs) 0 0 Hall (Qle_refl _)) as Hle.
    set (x := fold_left _ (b :: bs) 0%Q) in *.
    set (y := inject_Z (fold_left _ (b :: bs) 0)) in *.
    assert (y / 60 <= x / 60)%Q.
    { apply Qmult_le_compat_r; [exact Hle|done]. }
    lra.
Qed.

Lemma liveWorkingHours_vs_hook_witness :
  let ci := mkPunch (localDate tzPlus5 2024 3 10 19 0) "10.0.0.7" in
  let a := set_breaks
             (newAttendance 1 (localDate tzPlus5 2024 3 10 0 0) ci "present")
             [mkBreak (localDate tzPlus5 2024 3 10 22 0)
                (Some (localDate tzPlus5 2024 3 10 22 30)) (Some 30) "lunch"] in
  let now := localDate tzPlus5 2024 3 11 1 0 in
  checkIn a = Some ci /\ checkOut a = None
  /\ openBreaks (breaks a) = 0%nat
  /\ (liveWorkingHours now (Some a)
      == computeWorkingHours ci (mkPunch now "10.0.0.7") (breaks a))%Q.
Proof.
  intros ci a now.
  split; [reflexivity|]. split; [reflexivity|]. split; [reflexivity|].
  exact (proj1 (liveWorkingHours_vs_hook now a ci "10.0.0.7" eq_refl eq_refl)
           eq_refl).
Defined.

Lemma orZeroQ_eq x : (orZeroQ x == x)%Q.
Proof.
  unfold orZeroQ. destruct (Qeq_bool x 0) eqn:E; [|reflexivity].
  apply Qeq_bool_iff in E. symmetry. exact E.
Qed.

Lemma Qmake_100 n : (n # 100 == inject_Z n * (1 # 100))%Q.
Proof. unfold Qeq, inject_Z, Qmult. cbn. lia. Qed.

(** Rounding to two decimals moves a value by at most 1/200 and keeps a
    non-negative value non-negative. *)
Lemma toFixed2_close x :
  (x - (1 # 200) <= toFixed2 x <= x + (1 # 200))%Q
  /\ ((0 <= x)%Q -> (0 <= toFixed2 x)%Q).
Proof.
  unfold toFixed2. destruct (Qlt_le_dec x 0) as [Hneg|Hpos].
  - pose proof (Qfloor_le (- x * 100 + (1 # 2))) as H1.
    pose proof (Qlt_floor (- x * 100 + (1 # 2))) as H2.
    rewrite inject_Z_plus in H2.
    set (n := Qfloor (- x * 100 + (1 # 2))) in *.
    pose proof (Qmake_100 n) as Hn.
    change (inject_Z 1) with 1%Q in H2.
    split; [split; lra | intros; lra].
  - pose proof (Qfloor_le (x * 100 + (1 # 2))) as H1.
    pose proof (Qlt_floor (x * 100 + (1 # 2))) as H2.
    rewrite inject_Z_plus in H2.
    set (n := Qfloor (x * 100 + (1 # 2))) in *.
    pose proof (Qmake_100 n) as Hn.
    change (inject_Z 1) with 1%Q in H2.
    split; [split; lra|]. intros _.
    assert (0 <= n).
    { subst n. rewrite <- (Qfloor_Z 0). apply Qfloor_resp_le.
      change (inject_Z 0) with 0%Q. clear H1 H2 Hn. lra. }
    assert (0 <= inject_Z n)%Q by (rewrite <- (Zle_Qle 0); done).
    lra.
Qed.

Lemma endBreak_success tz R M c now store a i b :
  wellFormed M store ->
  store !! (user_employee c, resolveDate tz R now) = Some a ->
  is_Some (checkIn a) ->
  list_find isOpen (breaks a) = Some (i, b) ->
  exists a' store', handle tz R M BreakEnd c now store = (Success a', store').
Proof.
  intros Hwf Hk Hi Hf.
  destruct (wellFormed_lookup _ _ _ _ Hwf Hk) as (Hkey & Hs & Hr).
  set (doc := set_breaks a (<[i := closeBreak now b]> (breaks a))).
  assert (Hp : plan tz R BreakEnd c now store = Save doc).
  { cbn [plan]. unfold endBreak. rewrite Hk.
    rewrite bool_decide_eq_true_2 by done. cbn [negb]. rewrite Hf. done. }
  assert (Hv : validate M doc = None).
  { apply validate_None. split; [done|]. cbn.
    apply Forall_insert; [done|]. cbn.
    apply list_find_Some in Hf as (Hib & _).
    exact (proj1 (Forall_lookup _ _) Hr i b Hib). }
  unfold handle. rewrite Hp, (save_commit _ _ _ _ _ Hv). eauto.
Qed.

(** X19. What GET /today shows on a store the routes reach. A record is
    shown exactly when the caller is checked in; "checked out" and "on
    break" are only shown together with "checked in"; "on break" is shown
    exactly when a break-end at that instant would succeed; and the
    working hours shown are never negative and within 0.005 of the
    unrounded value. *)
Theorem todayStatus_reachable tz R M c now store :
  reachable tz R M store ->
  let t := todayStatus (resolveDate tz R) c now store in
  (isCheckedIn t = true <-> is_Some (t_attendance t))
  /\ (isCheckedOut t = true -> isCheckedIn t = true)
  /\ (isOnBreak t = true -> isCheckedIn t = true)
  /\ (isOnBreak t = true
      <-> exists a' store', handle tz R M BreakEnd c now store = (Success a', store'))
  /\ (0 <= currentWorkingHours t)%Q
  /\ (liveWorkingHours now (t_attendance t) - (1 # 200)
      <= currentWorkingHours t
      <= liveWorkingHours now (t_attendance t) + (1 # 200))%Q.
Proof.
  intros Hreach t. subst t. unfold todayStatus. cbn.
  pose proof (reachable_invariant _ _ _ _ Hreach) as Inv.
  set (k := (user_employee c, resolveDate tz R now)).
  destruct (store !! k) as [a|] eqn:Hk.
  - pose proof (map_Forall_lookup_1 _ _ _ _ Inv Hk) as (_ & _ & Hi & _).
    destruct (stored_hours_nonneg _ _ _ _ _ _ Hreach Hk) as [Hw _].
    cbn [hasCheckIn]. rewrite bool_decide_eq_true_2 by done.
    split; [split; [by eexists|done]|]. split; [done|]. split; [done|].
    split; [|split].
    + rewrite bool_decide_eq_true. split.
      * intros [[i b] Hf]. destruct (list_find isOpen (breaks a)) as [[i' b']|] eqn:E;
          [|done].
        eapply endBreak_success; eauto. by apply ledgerInvariant_wellFormed.
      * intros (a' & store' & H).
        destruct (handle_success _ _ _ _ _ _ _ _ _ H) as (doc & Hp & _).
        destruct (plan_shape _ _ _ _ _ _ _ Hp)
          as [([=] & _)|(a0 & Hk0 & _ & [([=] & _)|[(? & [=] & _)
                                                  |(i & b & _ & Hf & _)]])].
        fold k in Hk0. rewrite Hk in Hk0. injection Hk0 as <-.
        rewrite Hf. by eexists.
    + apply toFixed2_close. unfold liveWorkingHours.
      destruct (checkIn a), (checkOut a);
        try (rewrite orZeroQ_eq; exact Hw). apply Q.le_max_l.
    + apply toFixed2_close.
  - cbn. split; [split; [done|by intros [? ?]]|]. split; [done|].
    split; [done|]. split; [|split].
    + split; [done|]. intros (a' & store' & H).
      destruct (before_checkIn tz R M c now store Hk) as (_ & E & _).
      rewrite E in H. done.
    + done.
    + split; done.
Qed.

Lemma todayStatus_reachable_witness :
  let s1 := (handle tzPlus5 NightShift Night0405Model CheckIn caller1
               (localDate tzPlus5 2024 3 10 19 0) ∅).2 in
  let s2 := (handle tzPlus5 NightShift Night0405Model (BreakStart None) caller1
               (localDate tzPlus5 2024 3 10 23 0) s1).2 in
  let t := todayStatus (resolveDate tzPlus5 NightShift) caller1
             (localDate tzPlus5 2024 3 10 23 10) s2 in
  reachable tzPlus5 NightShift Night0405Model s2
  /\ (isOnBreak t = true -> isCheckedIn t = true).
Proof.
  intros s1 s2 t.
  assert (H : reachable tzPlus5 NightShift Night0405Model s2)
    by apply reachable_step, reachable_step, reachable_empty.
  split; [exact H|].
  destruct (todayStatus_reachable tzPlus5 NightShift Night0405Model caller1
              (localDate tzPlus5 2024 3 10 23 10) s2 H) as (_ & _ & H3 & _).
  exact H3.
Defined.

(** ** GET /my: the summary *)

Lemma length_filter_or (P Q : Attendance -> Prop)
    `{!forall a, Decision (P a)} `{!forall a, Decision (Q a)} l :
  (forall a, P a -> Q a -> False) ->
  length (filter (fun a => P a \/ Q a) l)
  = (length (filter P l) + length (filter Q l))%nat.
Proof.
  intros Hdis. induction l as [|a l IH]; [done|].
  rewrite !filter_cons.
  destruct (decide (P a)) as [Hp|Hp], (decide (Q a)) as [Hq|Hq].
  - destruct (Hdis a Hp Hq).
  - rewrite decide_True by tauto. cbn [length]. lia.
  - rewrite decide_True by tauto. cbn [length]. lia.
  - rewrite decide_False by tauto. lia.
Qed.

(** Counting by status over a list of distinct statuses counts the
    records whose status is in the list. *)
Lemma countStatus_sum ss l :
  NoDup ss ->
  foldr (fun s n => (countStatus s l + n)%nat) 0%nat ss
  = length (filter (fun a => status a ∈ ss) l).
Proof.
  induction 1 as [|s ss Hs Hnd IH]; cbn [foldr].
  - induction l as [|a l IHl]; [done|].
    rewrite filter_cons, decide_False by apply not_elem_of_nil. done.
  - rewrite IH. unfold countStatus.
    rewrite <- (length_filter_or (fun a => status a = s) (fun a => status a ∈ ss)).
    + f_equal. apply list_filter_iff. intros a. rewrite elem_of_cons. done.
    + intros a -> Hin. done.
Qed.

(** X20. The status counters of the summary count each record at most
    once, and only records whose status is one of the counted ones:
    present, absent, late, half-day, on-leave, and under the night-shift
    routes early-clockout. Together with the records of any other status
    they add up to the number of records. The statuses 'early', 'overtime'
    and 'clocked-out', which both check-in and check-out rules assign, are
    counted by no counter. *)
Theorem summary_counts R attendance :
  let s := summary R attendance in
  let counted :=
    (s_present s + s_absent s + s_late s + s_halfDay s + s_onLeave s
     + default 0 (s_earlyClockout s))%nat in
  counted = length (filter (fun a => status a ∈ summaryStatuses R) attendance)
  /\ (counted + length (filter (fun a => status a ∉ summaryStatuses R) attendance)
      = length attendance)%nat
  /\ (forall st, st ∈ ["early"; "overtime"; "clocked-out"]%string ->
                 st ∉ summaryStatuses R).
Proof.
  intros s counted.
  assert (Hnd : NoDup (summaryStatuses R)).
  { destruct R; apply (bool_decide_unpack _); vm_compute; exact I. }
  assert (Hc : counted
               = length (filter (fun a => status a ∈ summaryStatuses R) attendance)).
  { rewrite <- (countStatus_sum _ _ Hnd). subst counted s.
    destruct R; cbn; lia. }
  split; [exact Hc|]. split.
  - rewrite Hc. clear. induction attendance as [|a l IH]; [done|].
    rewrite !filter_cons.
    destruct (decide (status a ∈ summaryStatuses R)).
    + rewrite decide_False by tauto. cbn [length]. lia.
    + rewrite decide_True by tauto. cbn [length]. lia.
  - intros st Hst.
    rewrite !elem_of_cons, elem_of_nil in Hst.
    destruct Hst as [->|[->|[->|[]]]]; destruct R; enum_absent.
Qed.

(** ** GET /today-presence *)

Lemma length_filter_negb {A} (f : A -> bool) (l : list A) :
  (length (List.filter f l) + length (List.filter (fun x => negb (f x)) l)
   = length l)%nat.
Proof.
  induction l as [|x l IH]; [done|]. cbn. destruct (f x); cbn; lia.
Qed.

(** X21. The presence view is a partition of the active employees: each
    of them is listed once, as working, on break or inactive, so the three
    totals add up to their number; entries of the on-break list carry a
    break reason and start time, entries of the working list do not. *)
Theorem todayPresence_partition employeeExists activeEmployees todayAttendance :
  let p := todayPresence employeeExists activeEmployees todayAttendance in
  (totalActive p + totalOnBreak p + totalInactive p = length activeEmployees)%nat
  /\ totalActive p = length (active p)
  /\ totalOnBreak p = length (onBreak p)
  /\ totalInactive p = length (inactive p)
  /\ Forall (fun e => ae_isOnBreak e = true
                      /\ is_Some (ae_breakReason e)
                      /\ is_Some (ae_breakStartTime e)) (onBreak p)
  /\ Forall (fun e => ae_isOnBreak e = false
                      /\ ae_breakReason e = None) (active p).
Proof.
  intros p. subst p. unfold todayPresence.
  cbn [totalActive totalOnBreak totalInactive active onBreak inactive].
  set (ids := activeEmployeeIds employeeExists todayAttendance).
  set (m := attendanceMap employeeExists todayAttendance).
  set (isActive := fun emp : N => bool_decide (emp ∈ ids)).
  set (working := activeEntry m <$> List.filter isActive activeEmployees).
  assert (Hentry : forall emp,
            let e := activeEntry m emp in
            (ae_isOnBreak e = true
             -> is_Some (ae_breakReason e) /\ is_Some (ae_breakStartTime e))
            /\ (ae_isOnBreak e = false -> ae_breakReason e = None)).
  { intros emp. cbv zeta. unfold activeEntry.
    destruct (list_find isOpen (breaksOf (m !! emp))) as [[i b]|]; cbn.
    - split; [intros _; split; by eexists | done].
    - split; done. }
  split; [|split; [done|split; [done|split; [done|split]]]].
  - pose proof (length_filter_negb ae_isOnBreak working) as H1.
    pose proof (length_filter_negb isActive activeEmployees) as H2.
    rewrite length_fmap.
    assert (Hw : length working = length (List.filter isActive activeEmployees))
      by (subst working; by rewrite length_fmap).
    change (fun x : N => negb (isActive x))
      with (fun emp : N => negb (bool_decide (emp ∈ ids))) in H2.
    change (fun x : ActiveEntry => negb (ae_isOnBreak x))
      with (fun e : ActiveEntry => negb (ae_isOnBreak e)) in H1.
    lia.
  - apply Forall_forall. intros e He. rewrite list_elem_of_In in He.
    apply filter_In in He as [He Hb]. rewrite <- list_elem_of_In in He.
    split; [done|]. subst working.
    apply list_elem_of_fmap in He as (emp & -> & _).
    by apply Hentry.
  - apply Forall_forall. intros e He. rewrite list_elem_of_In in He.
    apply filter_In in He as [He Hb]. rewrite <- list_elem_of_In in He.
    apply negb_true_iff in Hb. split; [done|]. subst working.
    apply list_elem_of_fmap in He as (emp & -> & _).
    by apply Hentry.
Qed.

Lemma NoDup_employee_eq (l : list Attendance) att att' :
  NoDup (employee <$> l) -> att ∈ l -> att' ∈ l ->
  employee att = employee att' -> att = att'.
Proof.
  induction l as [|x l IH]; intros Hnd Ha Ha' He; [by apply elem_of_nil in Ha|].
  rewrite fmap_cons in Hnd. apply NoDup_cons in Hnd as [Hx Hnd].
  apply elem_of_cons in Ha as [->|Ha], Ha' as [->|Ha'].
  - done.
  - exfalso. apply Hx. rewrite He. by apply list_elem_of_fmap_2.
  - exfalso. apply Hx. rewrite <- He. by apply list_elem_of_fmap_2.
  - by apply IH.
Qed.

Section PresenceFacts.
Variable employeeExists : N -> bool.

Lemma attendanceMap_fold_other l (m0 : gmap N Attendance) e :
  (forall att, att ∈ l -> employee att <> e) ->
  fold_left (fun m att =>
               match empId employeeExists att with
               | Some i => <[i := att]> m
               | None => m
               end) l m0 !! e = m0 !! e.
Proof.
  revert m0. induction l as [|x l IH]; intros m0 Hne; [done|].
  cbn [fold_left]. rewrite IH.
  - unfold empId. destruct (employeeExists (employee x)); [|done].
    apply lookup_insert_ne. apply Hne. by left.
  - intros att Hin. apply Hne. by right.
Qed.

Lemma attendanceMap_lookup l att :
  NoDup (employee <$> l) -> att ∈ l -> employeeExists (employee att) = true ->
  attendanceMap employeeExists l !! employee att = Some att.
Proof.
  unfold attendanceMap. generalize (∅ : gmap N Attendance).
  induction l as [|x l IH]; intros m0 Hnd Hin Hex; [by apply elem_of_nil in Hin|].
  rewrite fmap_cons in Hnd. apply NoDup_cons in Hnd as [Hx Hnd].
  cbn [fold_left]. apply elem_of_cons in Hin as [->|Hin].
  - rewrite attendanceMap_fold_other.
    + unfold empId. rewrite Hex. apply lookup_insert_eq.
    + intros att' Hin' He. apply Hx. rewrite <- He.
      by apply list_elem_of_fmap_2.
  - by apply IH.
Qed.

Lemma activeEmployeeIds_elem l e :
  e ∈ activeEmployeeIds employeeExists l
  <-> exists att, att ∈ l /\ isWorking att = true
                  /\ empId employeeExists att = Some e.
Proof.
  unfold activeEmployeeIds. rewrite elem_of_list_to_set, list_elem_of_omap.
  split.
  - intros (att & Hin & He). exists att.
    rewrite list_elem_of_In in Hin. apply filter_In in Hin as [Hin Hw].
    rewrite <- list_elem_of_In in Hin. done.
  - intros (att & Hin & Hw & He). exists att. split; [|done].
    rewrite list_elem_of_In. apply filter_In.
    rewrite <- list_elem_of_In. done.
Qed.

(** X22. The presence view finds each employee's record. When the
    records of the date have distinct employees, an active employee whose
    record is checked in and not checked out is listed as on break, with
    the start time of the open break and the check-in time, when the
    record has an open break, and as working otherwise; an active employee
    whose record is not checked in or is checked out is listed as
    inactive, with the two flags of that record. *)
Theorem todayPresence_entries activeEmployees todayAttendance att :
  NoDup (employee <$> todayAttendance) ->
  att ∈ todayAttendance ->
  employee att ∈ activeEmployees ->
  employeeExists (employee att) = true ->
  let p := todayPresence employeeExists activeEmployees todayAttendance in
  (isWorking att = true ->
   forall i b, list_find isOpen (breaks att) = Some (i, b) ->
   exists e, e ∈ onBreak p /\ ae_employee e = employee att
             /\ ae_breakStartTime e = Some (startTime b)
             /\ ae_checkInTime e = time <$> checkIn att)
  /\ (isWorking att = true -> list_find isOpen (breaks att) = None ->
      exists e, e ∈ active p /\ ae_employee e = employee att
                /\ ae_checkInTime e = time <$> checkIn att)
  /\ (isWorking att = false ->
      exists e, e ∈ inactive p /\ ie_employee e = employee att
                /\ ie_isCheckedIn e = bool_decide (is_Some (checkIn att))
                /\ ie_isCheckedOut e = bool_decide (is_Some (checkOut att))).
Proof.
  intros Hnd Hin Hemp Hex p. subst p. unfold todayPresence.
  cbn [active onBreak inactive].
  set (ids := activeEmployeeIds employeeExists todayAttendance).
  set (m := attendanceMap employeeExists todayAttendance).
  assert (Hm : m !! employee att = Some att) by by apply attendanceMap_lookup.
  assert (Hids : employee att ∈ ids <-> isWorking att = true).
  { subst ids. rewrite activeEmployeeIds_elem. split.
    - intros (att' & Hin' & Hw & He). unfold empId in He.
      destruct (employeeExists (employee att')); [|done]. injection He as He.
      by rewrite (NoDup_employee_eq _ _ _ Hnd Hin Hin' (eq_sym He)).
    - intros Hw. exists att. unfold empId. by rewrite Hex. }
  assert (Hworking : isWorking att = true ->
            activeEntry m (employee att)
            ∈ activeEntry m
                <$> List.filter (fun emp => bool_decide (emp ∈ ids)) activeEmployees).
  { intros Hw. apply list_elem_of_fmap_2.
    rewrite list_elem_of_In. apply filter_In. rewrite <- list_elem_of_In.
    split; [done|]. apply bool_decide_eq_true. by apply Hids. }
  split; [|split].
  - intros Hw i b Hf.
    assert (He : activeEntry m (employee att)
                 = mkActiveEntry (employee att) (time <$> checkIn att) true
                     (Some (if String.eqb (reason b) "" then "break"%string
                            else reason b))
                     (Some (startTime b)) (calculateTotalBreakTime (breaks att))).
    { unfold activeEntry. rewrite Hm. cbn [breaksOf checkInTimeOf].
      rewrite Hf. done. }
    exists (activeEntry m (employee att)). split; [|rewrite He; done].
    rewrite list_elem_of_In. apply filter_In. rewrite <- list_elem_of_In.
    split; [by apply Hworking|]. rewrite He. done.
  - intros Hw Hf.
    assert (He : activeEntry m (employee att)
                 = mkActiveEntry (employee att) (time <$> checkIn att) false
                     None None (calculateTotalBreakTime (breaks att))).
    { unfold activeEntry. rewrite Hm. cbn [breaksOf checkInTimeOf].
      rewrite Hf. done. }
    exists (activeEntry m (employee att)). split; [|rewrite He; done].
    rewrite list_elem_of_In. apply filter_In. rewrite <- list_elem_of_In.
    split; [by apply Hworking|]. rewrite He. done.
  - intros Hw.
    assert (He : inactiveEntry m (employee att)
                 = mkInactiveEntry (employee att)
                     (bool_decide (is_Some (checkIn att)))
                     (bool_decide (is_Some (checkOut att)))
                     (calculateTotalBreakTime (breaks att))).
    { unfold inactiveEntry. rewrite Hm. done. }
    exists (inactiveEntry m (employee att)). split; [|rewrite He; done].
    apply list_elem_of_fmap_2.
    rewrite list_elem_of_In. apply filter_In. rewrite <- list_elem_of_In.
    split; [done|]. apply negb_true_iff, bool_decide_eq_false.
    rewrite Hids, Hw. done.
Qed.
End PresenceFacts.

Lemma todayPresence_entries_witness :
  let att := set_breaks
               (newAttendance 1 (localDate tzPlus5 2024 3 10 0 0)
                  (mkPunch (localDate tzPlus5 2024 3 10 19 0) "10.0.0.7") "present")
               [mkBreak (localDate tzPlus5 2024 3 10 23 0) None None "lunch"] in
  let p := todayPresence (fun _ => true) [1%N; 2%N] [att] in
  NoDup (employee <$> [att]) /\ att ∈ [att] /\ employee att ∈ [1%N; 2%N]
  /\ exists e, e ∈ onBreak p /\ ae_employee e = 1%N.
Proof.
  intros att p.
  assert (H1 : NoDup (employee <$> [att]))
    by (apply (bool_decide_unpack _); vm_compute; exact I).
  assert (H2 : att ∈ [att]) by apply list_elem_of_here.
  assert (H3 : employee att ∈ [1%N; 2%N]) by apply list_elem_of_here.
  split; [exact H1|]. split; [exact H2|]. split; [exact H3|].
  destruct (proj1 (todayPresence_entries (fun _ => true) [1%N; 2%N] [att] att
                     H1 H2 H3 eq_refl) eq_refl 0%nat
              (mkBreak (localDate tzPlus5 2024 3 10 23 0) None None "lunch")
              eq_refl) as (e & He & Hemp & _).
  exists e. split; [exact He | exact Hemp].
Defined.

Lemma fold_breakTime_eq bs acc :
  Forall (fun b => isOpen b -> duration b = None) bs ->
  fold_left (fun total b =>
               match endTime b, duration b with
               | Some _, Some d => if d =? 0 then total else total + d
               | _, _ => total
               end) bs acc
  = fold_left (fun total b => total + orZero (duration b)) bs acc.
Proof.
  revert acc. induction bs as [|b bs IH]; intros acc Hall; [done|].
  apply Forall_cons in Hall as [Hb Hall]. cbn [fold_left].
  rewrite IH by done. f_equal. unfold isOpen in Hb.
  destruct (endTime b) as [e|].
  - destruct (duration b) as [d|]; cbn [orZero]; [|lia].
    destruct (d =? 0); lia.
  - rewrite (Hb eq_refl). cbn [orZero]. lia.
Qed.

(** X23. The presence view and the save hook count the same break time:
    for every record of a store the routes reach, the total break time
    the presence view shows is the number of break minutes the save hook
    subtracts from the elapsed time. *)
Theorem calculateTotalBreakTime_matches_hook tz R M store k a :
  reachable tz R M store -> store !! k = Some a ->
  calculateTotalBreakTime (breaks a) = totalBreakMinutes (breaks a)
  /\ (breakHours (breaks a)
      == inject_Z (calculateTotalBreakTime (breaks a)) / 60)%Q.
Proof.
  intros Hreach Hk. apply reachable_invariant in Hreach.
  apply (map_Forall_lookup_1 _ _ _ _ Hreach) in Hk as (_ & _ & _ & _ & Hdur).
  assert (E : calculateTotalBreakTime (breaks a) = totalBreakMinutes (breaks a)).
  { unfold calculateTotalBreakTime, totalBreakMinutes.
    destruct (breaks a) as [|b bs] eqn:Eb; [done|].
    by apply fold_breakTime_eq. }
  split; [exact E|]. rewrite E. unfold breakHours.
  destruct (breaks a); reflexivity.
Qed.

Lemma calculateTotalBreakTime_matches_hook_witness :
  let s1 := (handle tzPlus5 NightShift Night0405Model CheckIn caller1
               (localDate tzPlus5 2024 3 10 19 0) ∅).2 in
  let s2 := (handle tzPlus5 NightShift Night0405Model (BreakStart None) caller1
               (localDate tzPlus5 2024 3 10 23 0) s1).2 in
  let s3 := (handle tzPlus5 NightShift Night0405Model BreakEnd caller1
               (localDate tzPlus5 2024 3 10 23 20) s2).2 in
  reachable tzPlus5 NightShift Night0405Model s3
  /\ exists a, s3 !! (1%N, localDate tzPlus5 2024 3 10 0 0) = Some a
               /\ calculateTotalBreakTime (breaks a) = totalBreakMinutes (breaks a).
Proof.
  intros s1 s2 s3.
  assert (H1 : reachable tzPlus5 NightShift Night0405Model s3)
    by (do 3 apply reachable_step; apply reachable_empty).
  split; [exact H1|]. eexists.
  assert (H2 : s3 !! (1%N, localDate tzPlus5 2024 3 10 0 0) = Some _)
    by (vm_compute; reflexivity).
  split; [exact H2|].
  exact (proj1 (calculateTotalBreakTime_matches_hook _ _ _ _ _ _ H1 H2)).
Defined.

(** ** GET /employees/with-status *)

Lemma last_open_iff bs :
  openOnlyLast bs ->
  (exists b, last bs = Some b /\ isOpen b) <-> is_Some (list_find isOpen bs).
Proof.
  intros Hlast. split.
  - intros (b & Hb & Hopen).
    destruct (list_find isOpen bs) as [p|] eqn:Hf; [by eexists|].
    exfalso. apply list_find_None in Hf.
    rewrite last_lookup in Hb.
    exact (proj1 (Forall_lookup _ _) Hf _ b Hb Hopen).
  - intros [[i b] Hf]. apply list_find_Some in Hf as (Hib & Hopen & _).
    exists b. split; [|done]. rewrite last_lookup.
    rewrite <- (Hlast i b Hib Hopen). done.
Qed.

(** X24. The employee-status view and GET /today agree on a record. The
    status view looks only at the last break where GET /today searches
    all breaks, but in every store the routes reach only the last break
    can be open: the status view shows 'clocked-out', 'on-break',
    'clocked-in' or 'inactive' exactly as the flags of GET /today for the
    same record do. *)
Theorem realTimeStatus_agrees tz R M c now store :
  reachable tz R M store ->
  let t := todayStatus (resolveDate tz R) c now store in
  realTimeStatus (t_attendance t)
  = if isCheckedOut t then "clocked-out"%string
    else if isOnBreak t then "on-break"%string
    else if isCheckedIn t then "clocked-in"%string
    else "inactive"%string.
Proof.
  intros Hreach t. subst t. unfold todayStatus.
  cbn [t_attendance isCheckedOut isOnBreak isCheckedIn].
  destruct (store !! _) as [a|] eqn:Hk; [|done].
  destruct (reachable_recordSound _ _ _ _ _ _ Hreach Hk)
    as [_ [(ci & Hci & _) _ _ Hlast _]].
  cbn [realTimeStatus hasCheckIn].
  destruct (bool_decide (is_Some (checkOut a))); [done|].
  rewrite (bool_decide_eq_true_2 (is_Some (checkIn a))) by (rewrite Hci; by eexists).
  pose proof (last_open_iff (breaks a) Hlast) as Hiff.
  destruct (list_find isOpen (breaks a)) as [[i b]|] eqn:Hf.
  - cbn. destruct (proj2 Hiff) as (b' & -> & Hopen); [by eexists|].
    rewrite bool_decide_eq_true_2 by done. done.
  - cbn. destruct (last (breaks a)) as [b'|] eqn:Hl; [|done].
    case_bool_decide as Hopen; [|done].
    destruct (proj1 Hiff) as [? ?]; [by exists b'|done].
Qed.

Lemma realTimeStatus_agrees_witness :
  let s1 := (handle tzPlus5 NightShift Night0405Model CheckIn caller1
               (localDate tzPlus5 2024 3 10 19 0) ∅).2 in
  let s2 := (handle tzPlus5 NightShift Night0405Model (BreakStart None) caller1
               (localDate tzPlus5 2024 3 10 23 0) s1).2 in
  reachable tzPlus5 NightShift Night0405Model s2
  /\ realTimeStatus
       (s2 !! (1%N, getShiftDate tzPlus5 (localDate tzPlus5 2024 3 10 23 10)))
     = "on-break"%string.
Proof.
  intros s1 s2.
  assert (H : reachable tzPlus5 NightShift Night0405Model s2)
    by apply reachable_step, reachable_step, reachable_empty.
  split; [exact H|].
  exact (realTimeStatus_agrees tzPlus5 NightShift Night0405Model caller1
           (localDate tzPlus5 2024 3 10 23 10) s2 H).
Defined.
